(** * not-kill-tony: the RoastBot session engine, embedded and verified

    The repository holds several near-duplicate variants of one chat bot
    (class [RoastBot]).  Each variant that a property below talks about is
    embedded in a module of its own, named after the file it lives in:

    - [IndexTs]    src/index.ts            (cooldowns, mood, memory, Redis counter)
    - [Part002]    src/unnamed/part_002    (zod schema, in-memory sliding window,
                                            trait selection, backend fallback)
    - [Part004]    src/unnamed/part_004    (utils.calculateSentiment, profile cache)
    - [RoastBot2]  src/roastbot2.ts        (zod schema with the 1000 cap)

    [JS] and [Zod] hold what the variants share of the language and of the
    validation library, [Policy] the trait selection as the specification
    words it, [Scenarios] the concrete runs the examples use.

    JavaScript numbers are modelled by rationals [Q] (every arithmetic step
    the embedded code takes is an addition, a comparison or a clamp).  Sums
    of halves are exact in doubles as they are in [Q]; sums of 0.1 or 0.2
    are not (three times 0.2 is 0.6000000000000001 in the code), so of such
    sums the properties below state ranges, zero and saturation, never an
    exact value.  Time stamps and counters are modelled by [Z], strings by
    [string] (one character per code unit, for the code units below 256),
    [Map]s by [gmap], [undefined]/[null] by [None], a thrown error or
    rejected promise by [Throw]. *)

From Stdlib Require Import ZArith QArith Qminmax Qround Qabs Lia Lqa String Ascii List Sorted.
From stdpp Require Import base gmap strings list pretty.

Set Warnings "-register-all".

(** ** JavaScript string and value helpers *)
Module JS.

(** The errors the embedded code can meet: a failed zod validation, a
    property read on [undefined], malformed JSON, and a failure reported by
    an external service (generative backend, key-value store). *)
Inductive Error : Type :=
| ZodError
| TypeError
| SyntaxError
| ExternalError (what : string).

Inductive Outcome (A : Type) : Type :=
| Return (a : A)
| Throw (e : Error).
Arguments Return {A} a.
Arguments Throw {A} e.

(** Entries written through the logger. *)
Inductive LogEntry : Type :=
| LogError (msg : string) (e : Error)
| LogInfo (msg : string).

(** Computations over a mutable world [S] that may throw; what was written
    to the world before a throw stays written. *)
Definition Exec (S A : Type) : Type := S -> Outcome A * S.

Definition ret {S A} (a : A) : Exec S A := fun s => (Return a, s).

Definition throw {S A} (e : Error) : Exec S A := fun s => (Throw e, s).

Definition bind {S A B} (c : Exec S A) (k : A -> Exec S B) : Exec S B :=
  fun s => match c s with
           | (Return a, s') => k a s'
           | (Throw e, s') => (Throw e, s')
           end.

(** [try { c } catch (error) { h error }]. *)
Definition try_catch {S A} (c : Exec S A) (h : Error -> Exec S A) : Exec S A :=
  fun s => match c s with
           | (Return a, s') => (Return a, s')
           | (Throw e, s') => h e s'
           end.

Definition get {S} : Exec S S := fun s => (Return s, s).

Definition modify {S} (f : S -> S) : Exec S unit := fun s => (Return tt, f s).

(** Lift a completion that does not touch the world. *)
Definition lift {S A} (o : Outcome A) : Exec S A := fun s => (o, s).

Notation "'let!' x ':=' c 'in' k" := (bind c (fun x => k))
  (at level 10, x name, c at level 100, k at level 200).
Notation "'run!' c 'in' k" := (bind c (fun _ => k))
  (at level 10, c at level 100, k at level 200).

Definition is_upper (c : ascii) : bool :=
  ((65 <=? nat_of_ascii c) && (nat_of_ascii c <=? 90))%nat.

Definition is_lower (c : ascii) : bool :=
  ((97 <=? nat_of_ascii c) && (nat_of_ascii c <=? 122))%nat.

(** The capital letters of Latin-1 above the ASCII range (all of 192..222
    but the multiplication sign 215). *)
Definition is_latin1_upper (c : ascii) : bool :=
  let n := nat_of_ascii c in
  ((192 <=? n) && (n <=? 222) && negb (n =? 215))%nat.

Definition lower_char (c : ascii) : ascii :=
  if is_upper c || is_latin1_upper c then ascii_of_nat (nat_of_ascii c + 32) else c.

(** [String.prototype.toLowerCase] on the code units below 256: the ASCII
    letters and the Latin-1 ones. *)
Fixpoint toLowerCase (s : string) : string :=
  match s with
  | EmptyString => EmptyString
  | String c r => String (lower_char c) (toLowerCase r)
  end.

(** [s.split(sep)] for a one-character separator: consecutive separators
    give empty pieces, and the empty string gives one empty piece. *)
Fixpoint split_char (sep : ascii) (s : string) : list string :=
  match s with
  | EmptyString => [EmptyString]
  | String c r =>
      if Ascii.eqb c sep then EmptyString :: split_char sep r
      else match split_char sep r with
           | [] => [String c EmptyString]
           | w :: ws => String c w :: ws
           end
  end.

(** The members of the regular expression class [\s], which are also the
    characters [trim] removes, among the code units below 256: tab, line
    feed, vertical tab, form feed, carriage return (9..13), space (32) and
    no-break space (160). *)
Definition is_space (c : ascii) : bool :=
  let n := nat_of_ascii c in
  ((n =? 32) || ((9 <=? n) && (n <=? 13)) || (n =? 160))%nat.

(** [s.split(/\s+/)]: a maximal run of white space is one separator. *)
Fixpoint split_ws_from (in_gap : bool) (s : string) : list string :=
  match s with
  | EmptyString => [EmptyString]
  | String c r =>
      if is_space c then
        if in_gap then split_ws_from true r
        else EmptyString :: split_ws_from true r
      else match split_ws_from false r with
           | [] => [String c EmptyString]
           | w :: ws => String c w :: ws
           end
  end.

Definition split_ws (s : string) : list string := split_ws_from false s.

Definition startsWith (s p : string) : bool := String.prefix p s.

(** [s.includes(sub)]. *)
Fixpoint includes (s sub : string) : bool :=
  String.prefix sub s ||
  match s with
  | EmptyString => false
  | String _ r => includes r sub
  end.

Fixpoint last_char (s : string) : option ascii :=
  match s with
  | EmptyString => None
  | String c EmptyString => Some c
  | String _ r => last_char r
  end.

(** [s.endsWith(c)] for a one-character argument. *)
Definition endsWith (s : string) (c : ascii) : bool :=
  match last_char s with
  | Some d => Ascii.eqb c d
  | None => false
  end.

(** [arr.includes(w)] on an array of strings. *)
Definition arr_includes (arr : list string) (w : string) : bool :=
  existsb (String.eqb w) arr.

(** Drop the first [n] code units: [s.slice(n)] for [0 <= n]. *)
Fixpoint slice_from (n : nat) (s : string) : string :=
  match n, s with
  | O, _ => s
  | S k, EmptyString => EmptyString
  | S k, String _ r => slice_from k r
  end.

Fixpoint drop_while_space (s : string) : string :=
  match s with
  | EmptyString => EmptyString
  | String c r => if is_space c then drop_while_space r else s
  end.

Fixpoint rev_string (s : string) : string :=
  match s with
  | EmptyString => EmptyString
  | String c r => rev_string r +:+ String c EmptyString
  end.

(** [s.trim()]. *)
Definition trim (s : string) : string :=
  rev_string (drop_while_space (rev_string (drop_while_space s))).

(** Position of the first occurrence of [pat] in [s], as the pieces before
    and after it. *)
Fixpoint find_first (pat s : string) : option (string * string) :=
  if String.prefix pat s then Some (EmptyString, slice_from (String.length pat) s)
  else match s with
       | EmptyString => None
       | String c r =>
           match find_first pat r with
           | Some (b, a) => Some (String c b, a)
           | None => None
           end
       end.

(** Expansion of the replacement text of [String.prototype.replace] with a
    string pattern: [$$] is a dollar, [$&] the match, [$`] the text before
    it and [$'] the text after it; any other character stands for itself. *)
Fixpoint expand_replacement (repl matched before after : string) : string :=
  match repl with
  | EmptyString => EmptyString
  | String "$" (String "$" r) => String "$" (expand_replacement r matched before after)
  | String "$" (String "&" r) => matched +:+ expand_replacement r matched before after
  | String "$" (String "`" r) => before +:+ expand_replacement r matched before after
  | String "$" (String "'" r) => after +:+ expand_replacement r matched before after
  | String c r => String c (expand_replacement r matched before after)
  end.

(** [s.replace(pat, repl)] with a string pattern: only the first
    occurrence is replaced. *)
Definition replace (pat repl s : string) : string :=
  match find_first pat s with
  | Some (before, after) => before +:+ expand_replacement repl pat before after ++ after
  | None => s
  end.

(** Truthiness of an optional number: [undefined], [0] are falsy. *)
Definition truthyQ (o : option Q) : bool :=
  match o with
  | Some q => negb (Qeq_bool q 0)
  | None => false
  end.

Definition truthyZ (o : option Z) : option Z :=
  match o with
  | Some z => if (z =? 0)%Z then None else Some z
  | None => None
  end.

(** [arr[i]] for a number [i]: [undefined] outside the array. *)
Definition index {A} (arr : list A) (i : Z) : option A :=
  if (i <? 0)%Z then None else arr !! Z.to_nat i.

(** [Math.floor(r * n)] for a draw [r] of [Math.random()]. *)
Definition random_index (r : Q) (n : nat) : Z :=
  Qfloor (r * inject_Z (Z.of_nat n)).

End JS.

(** ** The zod validators the schemas are built from *)
Module Zod.
Import JS.

(** Values a caller may hand to [handleMessage(message: unknown)]. *)
Inductive JSValue : Type :=
| VUndefined
| VNull
| VBool (b : bool)
| VNumber (q : Q)
| VString (s : string)
| VArray (items : list JSValue)
| VObject (fields : list (string * JSValue)).

(** [obj[key]]: [undefined] when the key is absent. *)
Fixpoint field (key : string) (fields : list (string * JSValue)) : JSValue :=
  match fields with
  | [] => VUndefined
  | (k, v) :: rest => if String.eqb k key then v else field key rest
  end.

(** [z.string()]: the value must be a string. *)
Definition z_string (v : JSValue) : Outcome string :=
  match v with
  | VString s => Return s
  | _ => Throw ZodError
  end.

(** [z.string().min(lo).max(hi)]. *)
Definition z_string_min_max (lo hi : nat) (v : JSValue) : Outcome string :=
  match v with
  | VString s =>
      if ((lo <=? String.length s) && (String.length s <=? hi))%nat
      then Return s else Throw ZodError
  | _ => Throw ZodError
  end.

Fixpoint z_array_string (items : list JSValue) : Outcome (list string) :=
  match items with
  | [] => Return []
  | VString s :: rest =>
      match z_array_string rest with
      | Return l => Return (s :: l)
      | Throw e => Throw e
      end
  | _ :: _ => Throw ZodError
  end.

(** [z.array(z.string()).optional()]. *)
Definition z_mentions (v : JSValue) : Outcome (option (list string)) :=
  match v with
  | VUndefined => Return None
  | VArray items =>
      match z_array_string items with
      | Return l => Return (Some l)
      | Throw e => Throw e
      end
  | _ => Throw ZodError
  end.

(** [z.number().default(() => Date.now())]. *)
Definition z_timestamp (now : Z) (v : JSValue) : Outcome Q :=
  match v with
  | VUndefined => Return (inject_Z now)
  | VNumber q => Return q
  | _ => Throw ZodError
  end.

(** An object with the three required fields of a message. *)
Definition message_of (content userId userName : string) : JSValue :=
  VObject [("content", VString content); ("userId", VString userId);
           ("userName", VString userName)].

(** ['a'.repeat(n)]. *)
Fixpoint repeat_char (c : ascii) (n : nat) : string :=
  match n with
  | O => EmptyString
  | S k => String c (repeat_char c k)
  end.

End Zod.

(** ** src/unnamed/part_002: schema, sliding-window limiter, trait selection *)
Module Part002.
Import JS Zod.

Record Message : Type := {
  content : string;
  userId : string;
  userName : string;
  mentions : option (list string);
  timestamp : Q
}.

Record NLPAnalysis : Type := {
  sentiment : Q;
  topics : list string;
  intent : string;
  entities : list string;
  technicalComplexity : Q;
  codeDetected : bool;
  languagesDetected : list string;
  toxicity : Q
}.

Record Conditions : Type := {
  minSentiment : option Q;
  maxSentiment : option Q;
  timeOfDay : option (list Q)
}.

Record PersonalityTrait : Type := {
  name : string;
  level : Q;
  responses : list string;
  conditions : option Conditions
}.

Record BotMetrics : Type := {
  totalInteractions : Z;
  averageResponseTime : Q;
  userSatisfactionScore : Q;
  mostCommonTopics : gmap string Z;
  errorRate : Q;
  activeUsers : gset string
}.

Record BotState : Type := {
  moodLevel : Q;
  lastResponses : list string;
  cooldowns : gmap string Z;
  conversationHistory : list string;
  personality : list PersonalityTrait;
  metrics : BotMetrics
}.

Record Config : Type := {
  COOLDOWN_DURATION : Z;
  MAX_REQUESTS_PER_MINUTE : Z;
  REDIS_RETRY_ATTEMPTS : Z;
  REDIS_RETRY_DELAY : Z;
  DEFAULT_OPENAI_MODEL : string;
  MAX_TOKENS : Z;
  USER_PROFILE_EXPIRY : Z;
  MAINTENANCE_INTERVAL : Z;
  DEFAULT_SENSITIVITY : Q;
  RATE_LIMIT_WINDOW : Z;
  MAX_RESPONSE_ATTEMPTS : Z
}.

Definition CONFIG : Config := {|
  COOLDOWN_DURATION := 30000;
  MAX_REQUESTS_PER_MINUTE := 50;
  REDIS_RETRY_ATTEMPTS := 3;
  REDIS_RETRY_DELAY := 1000;
  DEFAULT_OPENAI_MODEL := "gpt-4";
  MAX_TOKENS := 150;
  USER_PROFILE_EXPIRY := 86400 * 30;
  MAINTENANCE_INTERVAL := 3600000;
  DEFAULT_SENSITIVITY := 0.5;
  RATE_LIMIT_WINDOW := 60000;
  MAX_RESPONSE_ATTEMPTS := 3
|}.

Definition PERSONALITY_TRAITS : list PersonalityTrait := [
  {| name := "sarcastic";
     level := 0.8;
     responses := [
       "Oh wow, {userName}, that code is *just perfect*... if you're trying to crash the server 🙄";
       "Interesting approach to {topic}... if by interesting you mean completely chaotic";
       "Have you considered a career in modern art? Because this code is quite abstract" ];
     conditions := Some {| minSentiment := Some (-0.5); maxSentiment := Some 0.5;
                           timeOfDay := None |} |};
  {| name := "technical";
     level := 0.7;
     responses := [
       "Your {language} implementation could use some design pattern love. Ever heard of {pattern}?";
       "Let's talk about that O(n^2) complexity. I'm sure the server enjoys taking naps.";
       "Interesting use of nested callbacks. Have you met our lord and savior, async/await?" ];
     conditions := None |};
  {| name := "encouraging";
     level := 0.6;
     responses := [
       "Not bad! But let's make it even better by {improvement}";
       "You're on the right track with {concept}. Just needs a little tweaking.";
       "I see what you're trying to do! Here's a pro tip: {tip}" ];
     conditions := Some {| minSentiment := Some 0.3; maxSentiment := None;
                           timeOfDay := None |} |}
]%Q.

(** *** MessageSchema *)

(** [MessageSchema.parse(message)]; [now] is the clock read by the default
    of [timestamp]. *)
Definition MessageSchema_parse (now : Z) (message : JSValue) : Outcome Message :=
  match message with
  | VObject fs =>
      match z_string_min_max 1 2000 (field "content" fs),
            z_string (field "userId" fs),
            z_string (field "userName" fs),
            z_mentions (field "mentions" fs),
            z_timestamp now (field "timestamp" fs) with
      | Return c, Return u, Return n, Return m, Return t =>
          Return {| content := c; userId := u; userName := n;
                    mentions := m; timestamp := t |}
      | _, _, _, _, _ => Throw ZodError
      end
  | _ => Throw ZodError
  end.

(** *** Rate limiter *)

(** [checkRateLimit(userId)] on the map [rateLimits], at clock reading [now]. *)
Definition checkRateLimit (cfg : Config) (now : Z) (userId : string)
    (rateLimits : gmap string (list Z)) : bool * gmap string (list Z) :=
  let userRequests := default [] (rateLimits !! userId) in
  let recentRequests :=
    filter (fun time => (now - time < RATE_LIMIT_WINDOW cfg)%Z) userRequests in
  if (MAX_REQUESTS_PER_MINUTE cfg <=? Z.of_nat (List.length recentRequests))%Z
  then (false, rateLimits)
  else (true, <[userId := recentRequests ++ [now]]> rateLimits).

(** The part of [performMaintenance] that cleans the rate limits: every
    entry keeps its time stamps younger than the window, and an entry left
    empty is deleted. *)
Definition performMaintenance (cfg : Config) (now : Z)
    (rateLimits : gmap string (list Z)) : gmap string (list Z) :=
  omap (fun timestamps =>
          let validTimestamps :=
            filter (fun time => (now - time < RATE_LIMIT_WINDOW cfg)%Z) timestamps in
          match validTimestamps with
          | [] => None
          | _ => Some validTimestamps
          end) rateLimits.

(** What happens to the limiter over time: a call [checkRateLimit(u)] or a
    run of the maintenance task, each at its reading of the clock. *)
Inductive Event : Type :=
| Check (u : string) (now : Z)
| Maintenance (now : Z).

Definition event_time (e : Event) : Z :=
  match e with
  | Check _ now => now
  | Maintenance now => now
  end.

(** A run of the limiter: the events in the order they happen, and the
    calls [(userId, now)] among them that were admitted. *)
Fixpoint admitted (cfg : Config) (events : list Event)
    (rateLimits : gmap string (list Z)) : list (string * Z) :=
  match events with
  | [] => []
  | Check u now :: rest =>
      let '(ok, rateLimits') := checkRateLimit cfg now u rateLimits in
      (if ok then [(u, now)] else []) ++ admitted cfg rest rateLimits'
  | Maintenance now :: rest =>
      admitted cfg rest (performMaintenance cfg now rateLimits)
  end.

(** The admitted requests of [u] whose time stamp lies in the 60 s window
    that ends at [t]. *)
Definition in_window (cfg : Config) (u : string) (t : Z) (log : list (string * Z))
    : list (string * Z) :=
  filter (fun c => c.1 = u ∧ (c.2 <= t)%Z ∧ (t - c.2 < RATE_LIMIT_WINDOW cfg)%Z) log.

(** The time stamps the filter of [checkRateLimit] keeps at [now]. *)
Definition fresh (cfg : Config) (now : Z) (l : list Z) : list Z :=
  filter (fun time => (now - time < RATE_LIMIT_WINDOW cfg)%Z) l.

(** The time stamps at which [u] was admitted. *)
Definition times_of (u : string) (log : list (string * Z)) : list Z :=
  (filter (fun c => c.1 = u) log).*2.

(** What a run maintains for user [u], once the clock has reached [lb]:
    the stored window and the history of admissions of [u] agree on every
    later reading of the clock, and no window of the history is over the
    maximum. *)
Definition window_inv (cfg : Config) (u : string) (rl : gmap string (list Z))
    (past : list (string * Z)) (lb : Z) : Prop :=
  (forall now, (lb <= now)%Z ->
     fresh cfg now (default [] (rl !! u)) = fresh cfg now (times_of u past)) /\
  (forall t, (Z.of_nat (List.length (in_window cfg u t past))
              <= MAX_REQUESTS_PER_MINUTE cfg)%Z).

(** *** The bot object and its collaborators *)

Record Bot : Type := {
  state : BotState;
  rateLimits : gmap string (list Z);
  logger : list LogEntry
}.

Definition set_state (f : BotState -> BotState) (b : Bot) : Bot :=
  {| state := f (state b); rateLimits := rateLimits b; logger := logger b |}.

Definition set_rateLimits (rl : gmap string (list Z)) (b : Bot) : Bot :=
  {| state := state b; rateLimits := rl; logger := logger b |}.

Definition set_metrics (f : BotMetrics -> BotMetrics) (st : BotState) : BotState :=
  {| moodLevel := moodLevel st; lastResponses := lastResponses st;
     cooldowns := cooldowns st; conversationHistory := conversationHistory st;
     personality := personality st; metrics := f (metrics st) |}.

(** [logger.error(msg, error)]. *)
Definition logger_error (msg : string) (e : Error) : Exec Bot unit :=
  modify (fun b => {| state := state b; rateLimits := rateLimits b;
                      logger := (logger b ++ [LogError msg e])%list |}).

Record ChatMessage : Type := { role : string; chat_content : string }.

Record ChatRequest : Type := {
  messages : list ChatMessage;
  model : string;
  max_tokens : option Z
}.

(** What [JSON.parse] finds in the analysis the backend returned: every
    field may be missing. *)
Record RawAnalysis : Type := {
  raw_sentiment : option Q;
  raw_topics : option (list string);
  raw_intent : option string;
  raw_entities : option (list string);
  raw_technicalComplexity : option Q;
  raw_codeDetected : option bool;
  raw_languagesDetected : option (list string);
  raw_toxicity : option Q
}.

(** The collaborators of one [handleMessage] call: the clock readings at the
    three places that call [Date.now()], the draw of [Math.random()], the
    generative backend ([choices[i].message.content], [null] as [None], or a
    failure), [JSON.parse] on the analysis text, and the store's [hset]. *)
Record Env : Type := {
  now_schema : Z;
  now_rateLimit : Z;
  now_metrics : Z;
  Math_random : Q;
  openai_create : ChatRequest -> Outcome (list (option string));
  JSON_parse : string -> Outcome RawAnalysis;
  redis_hset : string -> Outcome unit
}.

(** [completion.choices[0].message.content || fallback]. *)
Definition first_content_or (fallback : string) (choices : list (option string))
    : Outcome string :=
  match choices with
  | [] => Throw TypeError
  | Some EmptyString :: _ => Return fallback
  | Some c :: _ => Return c
  | None :: _ => Return fallback
  end.

Definition or_zero (o : option Q) : Q := if truthyQ o then default 0%Q o else 0%Q.

Definition or_unknown (o : option string) : string :=
  match o with
  | Some EmptyString => "unknown"
  | Some s => s
  | None => "unknown"
  end.

Definition getFallbackAnalysis : NLPAnalysis := {|
  sentiment := 0;
  topics := [];
  intent := "unknown";
  entities := [];
  technicalComplexity := 0;
  codeDetected := false;
  languagesDetected := [];
  toxicity := 0
|}.

Definition analyzeMessage (cfg : Config) (env : Env) (message : Message)
    : Exec Bot NLPAnalysis :=
  try_catch
    (let! completion := lift (openai_create env {|
        messages := [
          {| role := "system";
             chat_content := "Analyze the following message for sentiment, technical complexity, and code presence. Return JSON." |};
          {| role := "user"; chat_content := content message |} ];
        model := DEFAULT_OPENAI_MODEL cfg;
        max_tokens := None |}) in
     let! text := lift (first_content_or "{}" completion) in
     let! analysis := lift (JSON_parse env text) in
     ret {| sentiment := or_zero (raw_sentiment analysis);
            topics := default [] (raw_topics analysis);
            intent := or_unknown (raw_intent analysis);
            entities := default [] (raw_entities analysis);
            technicalComplexity := or_zero (raw_technicalComplexity analysis);
            codeDetected := default false (raw_codeDetected analysis);
            languagesDetected := default [] (raw_languagesDetected analysis);
            toxicity := or_zero (raw_toxicity analysis) |})
    (fun error =>
       run! logger_error "Analysis error:" error in
       ret getFallbackAnalysis).

(** The test of [selectPersonalityTrait] on one trait:
    [(!min || sentiment >= min) && (!max || sentiment <= max)], where the
    bounds are read through [trait.conditions?.]. *)
Definition bound_of (get : Conditions -> option Q) (trait : PersonalityTrait) : option Q :=
  match conditions trait with
  | Some c => get c
  | None => None
  end.

Definition trait_passes (s : Q) (trait : PersonalityTrait) : bool :=
  (negb (truthyQ (bound_of minSentiment trait))
   || match bound_of minSentiment trait with Some lo => Qle_bool lo s | None => false end)
  &&
  (negb (truthyQ (bound_of maxSentiment trait))
   || match bound_of maxSentiment trait with Some hi => Qle_bool s hi | None => false end).

(** [this.state.personality.find(...) || this.state.personality[0]];
    [None] is [undefined]. *)
Definition selectPersonalityTrait (st : BotState) (analysis : NLPAnalysis)
    : option PersonalityTrait :=
  match List.find (trait_passes (sentiment analysis)) (personality st) with
  | Some trait => Some trait
  | None => index (personality st) 0
  end.

Definition selectResponseTemplate (env : Env) (trait : option PersonalityTrait)
    (analysis : NLPAnalysis) : Outcome (option string) :=
  match trait with
  | None => Throw TypeError
  | Some t =>
      let validResponses := List.filter (fun _ => true) (responses t) in
      let randomIndex := random_index (Math_random env) (List.length validResponses) in
      Return (index validResponses randomIndex)
  end.

Definition processResponse (response : string) (message : Message) : string :=
  trim (replace "{topic}" "coding" (replace "{userName}" (userName message) response)).

Definition getFallbackResponse (trait : option PersonalityTrait) : Outcome string :=
  match trait with
  | None => Throw TypeError
  | Some t =>
      match index (responses t) 0 with
      | None => Throw TypeError
      | Some r => Return (replace "{topic}" "coding" (replace "{userName}" "developer" r))
      end
  end.

(** The text a template literal shows for a possibly undefined string. *)
Definition show_template (t : option string) : string := default "undefined" t.

Definition trait_name (trait : option PersonalityTrait) : Outcome string :=
  match trait with
  | None => Throw TypeError
  | Some t => Return (name t)
  end.

Definition system_prompt (personality_name template : string) : string :=
  "You are a code-roasting bot with a " +:+ personality_name +:+ " personality. 
                             Respond to the user's message using this template: " +:+ template.

Definition generateResponse (cfg : Config) (env : Env) (message : Message)
    (analysis : NLPAnalysis) : Exec Bot string :=
  let! b := get in
  let personality := selectPersonalityTrait (state b) analysis in
  let! template := lift (selectResponseTemplate env personality analysis) in
  try_catch
    (let! pname := lift (trait_name personality) in
     let! completion := lift (openai_create env {|
        messages := [
          {| role := "system";
             chat_content := system_prompt pname (show_template template) |};
          {| role := "user"; chat_content := content message |} ];
        model := DEFAULT_OPENAI_MODEL cfg;
        max_tokens := Some (MAX_TOKENS cfg) |}) in
     let! text := lift (first_content_or EmptyString completion) in
     ret (processResponse text message))
    (fun error =>
       run! logger_error "Response generation error:" error in
       lift (getFallbackResponse personality)).

Definition bump (topic : string) (m : gmap string Z) : gmap string Z :=
  <[topic := (default 0 (m !! topic) + 1)%Z]> m.

Definition count_topics (ts : list string) (m : gmap string Z) : gmap string Z :=
  fold_left (fun acc topic => bump topic acc) ts m.

Definition show_Z (z : Z) : string := pretty z.

Definition updateMetrics (env : Env) (message : Message) (analysis : NLPAnalysis)
    (response : string) : Exec Bot unit :=
  run! modify (set_state (set_metrics (fun m => {|
         totalInteractions := totalInteractions m + 1;
         averageResponseTime := averageResponseTime m;
         userSatisfactionScore := userSatisfactionScore m;
         mostCommonTopics := count_topics (topics analysis) (mostCommonTopics m);
         errorRate := errorRate m;
         activeUsers := {[ userId message ]} ∪ activeUsers m |}))) in
  lift (redis_hset env ("metrics:" +:+ show_Z (now_metrics env))).

Definition throttle_notice : string :=
  "You're sending messages too quickly. Please wait a moment.".

Definition error_reply : string :=
  "Error processing message. But hey, at least it's not as bad as using PHP! 😉".

Definition run_checkRateLimit (cfg : Config) (env : Env) (u : string) : Exec Bot bool :=
  fun b =>
    let '(ok, rl) := checkRateLimit cfg (now_rateLimit env) u (rateLimits b) in
    (Return ok, set_rateLimits rl b).

Definition handleMessage (cfg : Config) (env : Env) (message : JSValue)
    : Exec Bot string :=
  try_catch
    (let! validatedMessage := lift (MessageSchema_parse (now_schema env) message) in
     let! ok := run_checkRateLimit cfg env (userId validatedMessage) in
     if negb ok then ret throttle_notice
     else
       let! analysis := analyzeMessage cfg env validatedMessage in
       let! response := generateResponse cfg env validatedMessage analysis in
       run! updateMetrics env validatedMessage analysis response in
       ret response)
    (fun error =>
       run! logger_error "Message handling error:" error in
       ret error_reply).

Definition initializeState : BotState := {|
  moodLevel := 0;
  lastResponses := [];
  cooldowns := ∅;
  conversationHistory := [];
  personality := PERSONALITY_TRAITS;
  metrics := {| totalInteractions := 0; averageResponseTime := 0;
                userSatisfactionScore := 0; mostCommonTopics := ∅;
                errorRate := 0; activeUsers := ∅ |}
|}.

Definition new_RoastBot : Bot :=
  {| state := initializeState; rateLimits := ∅; logger := [] |}.

(** The bot after one more entry was written through the logger. *)
Definition logged (entry : LogEntry) (b : Bot) : Bot :=
  {| state := state b; rateLimits := rateLimits b;
     logger := (logger b ++ [entry])%list |}.

(** The rate limits after a run. *)
Fixpoint run_events (cfg : Config) (events : list Event)
    (rateLimits : gmap string (list Z)) : gmap string (list Z) :=
  match events with
  | [] => rateLimits
  | Check u now :: rest => run_events cfg rest (checkRateLimit cfg now u rateLimits).2
  | Maintenance now :: rest => run_events cfg rest (performMaintenance cfg now rateLimits)
  end.

(** How often [topic] occurs in [ts]. *)
Definition occurrences (topic : string) (ts : list string) : Z :=
  Z.of_nat (List.length (List.filter (String.eqb topic) ts)).

(** Every admission of the log happened at [lb] or earlier. *)
Definition all_before (lb : Z) (past : list (string * Z)) : Prop :=
  Forall (fun c => (c.2 <= lb)%Z) past.

(** No stored window is longer than the configured maximum. *)
Definition bounded (cfg : Config) (rl : gmap string (list Z)) : Prop :=
  forall u, (Z.of_nat (List.length (default [] (rl !! u)))
             <= Z.max 0 (MAX_REQUESTS_PER_MINUTE cfg))%Z.

(** The fallback text of the first trait of the table. *)
Definition sarcastic_fallback : string :=
  "Oh wow, developer, that code is *just perfect*... if you're trying to crash the server 🙄".

(** The fallback text of the second trait of the table: its first template
    as it is written. *)
Definition technical_fallback : string :=
  "Your {language} implementation could use some design pattern love. Ever heard of {pattern}?".

(** The trait declares no sentiment bound equal to 0. *)
Definition bound_is_zero (o : option Q) : bool :=
  match o with
  | Some q => Qeq_bool q 0
  | None => false
  end.

Definition no_zero_bound (trait : PersonalityTrait) : bool :=
  negb (bound_is_zero (bound_of minSentiment trait))
  && negb (bound_is_zero (bound_of maxSentiment trait)).

(** The shape [MessageSchema] accepts, field by field. *)
Definition well_formed (now : Z) (fs : list (string * JSValue)) (m : Message) : Prop :=
  field "content" fs = VString (content m) /\
  (1 <= String.length (content m) <= 2000)%nat /\
  field "userId" fs = VString (userId m) /\
  field "userName" fs = VString (userName m) /\
  match mentions m with
  | None => field "mentions" fs = VUndefined
  | Some l => field "mentions" fs = VArray (map VString l)
  end /\
  (field "timestamp" fs = VNumber (timestamp m) \/
   field "timestamp" fs = VUndefined /\ timestamp m = inject_Z now).

End Part002.

(** ** src/index.ts: cooldowns, mood, memory, commands, Redis counter *)
Module IndexTs.
Import JS.

Record Message : Type := {
  content : string;
  userId : string;
  userName : string;
  mentions : list string
}.

Record NLPAnalysis : Type := {
  sentiment : Q;
  topics : list string;
  intent : string;
  entities : list string
}.

Record PersonalityTrait : Type := {
  name : string;
  level : Q;
  responses : list string
}.

Record Memory : Type := {
  shortTerm : list string;
  longTerm : gmap string Z;
  context : list string
}.

Record OpenAIConfig : Type := { model : string; maxTokens : Z }.

Record EnhancedBotState : Type := {
  moodLevel : Q;
  lastResponses : list string;
  cooldowns : gmap string Z;
  conversationHistory : list string;
  memory : Memory;
  personality : list PersonalityTrait;
  learningRate : Q;
  lastInteractionTime : Z;
  commandPrefix : string;
  debugMode : bool;
  openAIConfig : OpenAIConfig
}.

(** A key of the store: an integer value and, once [EXPIRE] was called, the
    instant (ms) at which the key disappears. *)
Record RedisEntry : Type := { value : Z; expireAt : option Z }.

(** The bot object: its state, the store it talks to, the faults the store
    will raise (one flag per command, in order; no flag left means no
    fault), and what was written to the logger and to the console. *)
Record RoastBot : Type := {
  state : EnhancedBotState;
  redis : gmap string RedisEntry;
  faults : list bool;
  logger : list LogEntry;
  console : list LogEntry
}.

(** The collaborators of one [handleMessage] call: the clock at the two
    places that read it, the draw of [Math.random()], and the text a
    template literal shows for a number. *)
Record Env : Type := {
  now_isUserInCooldown : Z;
  now_setCooldown : Z;
  Math_random : Q;
  show_number : Q -> string
}.

Definition cooldownDuration : Z := 30000.
Definition maxMoodLevel : Q := 10.
Definition minMoodLevel : Q := -10.

Definition initial_state (constructed_at : Z) : EnhancedBotState := {|
  moodLevel := 0;
  lastResponses := [];
  cooldowns := ∅;
  conversationHistory := [];
  memory := {| shortTerm := []; longTerm := ∅; context := [] |};
  personality := [
    {| name := "sarcasm";
       level := 0.8;
       responses := [
         "Oh wow, {userName}, that's *totally* genius... 🙄";
         "Brilliant observation, {userName}. Did you figure that out all by yourself?" ] |};
    {| name := "wit";
       level := 0.7;
       responses := [
         "I'd explain it to you, {userName}, but I'm all out of crayons.";
         "Your code is like a mystery novel, {userName}... full of bad practices and plot holes." ] |}
  ];
  learningRate := 0.1;
  lastInteractionTime := constructed_at;
  commandPrefix := "!";
  debugMode := false;
  openAIConfig := {| model := "gpt-4"; maxTokens := 150 |}
|}.

Definition new_RoastBot (constructed_at : Z) : RoastBot := {|
  state := initial_state constructed_at;
  redis := ∅;
  faults := [];
  logger := [];
  console := []
|}.

Definition set_state (f : EnhancedBotState -> EnhancedBotState) (b : RoastBot) : RoastBot :=
  {| state := f (state b); redis := redis b; faults := faults b;
     logger := logger b; console := console b |}.

Definition with_moodLevel (m : Q) (st : EnhancedBotState) : EnhancedBotState :=
  {| moodLevel := m; lastResponses := lastResponses st; cooldowns := cooldowns st;
     conversationHistory := conversationHistory st; memory := memory st;
     personality := personality st; learningRate := learningRate st;
     lastInteractionTime := lastInteractionTime st; commandPrefix := commandPrefix st;
     debugMode := debugMode st; openAIConfig := openAIConfig st |}.

Definition with_cooldowns (c : gmap string Z) (st : EnhancedBotState) : EnhancedBotState :=
  {| moodLevel := moodLevel st; lastResponses := lastResponses st; cooldowns := c;
     conversationHistory := conversationHistory st; memory := memory st;
     personality := personality st; learningRate := learningRate st;
     lastInteractionTime := lastInteractionTime st; commandPrefix := commandPrefix st;
     debugMode := debugMode st; openAIConfig := openAIConfig st |}.

Definition with_memory (m : Memory) (st : EnhancedBotState) : EnhancedBotState :=
  {| moodLevel := moodLevel st; lastResponses := lastResponses st;
     cooldowns := cooldowns st; conversationHistory := conversationHistory st;
     memory := m; personality := personality st; learningRate := learningRate st;
     lastInteractionTime := lastInteractionTime st; commandPrefix := commandPrefix st;
     debugMode := debugMode st; openAIConfig := openAIConfig st |}.

Definition with_personality (p : list PersonalityTrait) (st : EnhancedBotState)
    : EnhancedBotState :=
  {| moodLevel := moodLevel st; lastResponses := lastResponses st;
     cooldowns := cooldowns st; conversationHistory := conversationHistory st;
     memory := memory st; personality := p; learningRate := learningRate st;
     lastInteractionTime := lastInteractionTime st; commandPrefix := commandPrefix st;
     debugMode := debugMode st; openAIConfig := openAIConfig st |}.

Definition logger_error (msg : string) (e : Error) : Exec RoastBot unit :=
  modify (fun b => {| state := state b; redis := redis b; faults := faults b;
                      logger := (logger b ++ [LogError msg e])%list;
                      console := console b |}).

Definition console_error (msg : string) (e : Error) : Exec RoastBot unit :=
  modify (fun b => {| state := state b; redis := redis b; faults := faults b;
                      logger := logger b;
                      console := (console b ++ [LogError msg e])%list |}).

(** *** Lexical analysis *)

Definition positiveWords : list string := ["good"; "great"; "awesome"; "nice"; "love"].
Definition negativeWords : list string := ["bad"; "terrible"; "hate"; "awful"; "worst"].

(** The body of the [forEach] of [analyzeSentiment], on one word. *)
Definition score_word (acc : Q) (word : string) : Q :=
  let acc1 := if arr_includes positiveWords word then (acc + 0.5)%Q else acc in
  if arr_includes negativeWords word then (acc1 - 0.5)%Q else acc1.

Definition analyzeSentiment (content : string) : Q :=
  let words := split_char " " (toLowerCase content) in
  fold_left score_word words 0%Q.

Definition extractTopics (content : string) : list string :=
  List.filter (fun topic => includes (toLowerCase content) topic)
    ["code"; "bug"; "feature"; "error"; "testing"; "deployment"].

Definition detectIntent (content : string) : string :=
  if endsWith content "?" then "question"
  else if endsWith content "!" then "exclamation"
  else "statement".

(** [word.match(/^[A-Z][a-z]+/)]. *)
Definition is_entity (word : string) : bool :=
  match word with
  | String a (String b _) => is_upper a && is_lower b
  | _ => false
  end.

Definition extractEntities (content : string) : list string :=
  List.filter is_entity (split_char " " content).

Definition analyzeMessage (content : string) : Exec RoastBot NLPAnalysis :=
  try_catch
    (ret {| sentiment := analyzeSentiment content;
            topics := extractTopics content;
            intent := detectIntent content;
            entities := extractEntities content |})
    (fun error =>
       run! console_error "NLP analysis failed:" error in
       throw error).

(** *** Mood, memory, learning *)

Definition updateMood (sentiment : Q) : Exec RoastBot unit :=
  modify (set_state (fun st =>
    with_moodLevel (Qmax minMoodLevel (Qmin maxMoodLevel (moodLevel st + sentiment))) st)).

Definition learn_trait (rate : Q) (analysis : NLPAnalysis) (trait : PersonalityTrait)
    : PersonalityTrait :=
  if existsb (fun topic => existsb (fun r => includes r topic) (responses trait))
       (topics analysis)
  then {| name := name trait; level := (level trait + rate)%Q; responses := responses trait |}
  else trait.

Definition learn (analysis : NLPAnalysis) : Exec RoastBot unit :=
  modify (set_state (fun st =>
    with_personality (map (learn_trait (learningRate st) analysis) (personality st)) st)).

Definition analyzeContext (content : string) (ctx : list string) : list string :=
  (ctx ++ List.filter (fun topic => includes (toLowerCase content) topic)
            ["coding"; "debugging"; "testing"; "deployment"])%list.

Definition updateMemory (message : Message) : Exec RoastBot unit :=
  modify (set_state (fun st =>
    let mem := memory st in
    let pushed := (shortTerm mem ++ [content message])%list in
    let short := if (10 <? List.length pushed)%nat then tail pushed else pushed in
    let currentCount := default 0%Z (longTerm mem !! userName message) in
    with_memory {| shortTerm := short;
                   longTerm := <[userName message := (currentCount + 1)%Z]> (longTerm mem);
                   context := analyzeContext (content message) (context mem) |} st)).

(** *** Cooldown *)

(** [lastUse ? Date.now() - lastUse < this.cooldownDuration : false]. *)
Definition isUserInCooldown (env : Env) (st : EnhancedBotState) (u : string) : bool :=
  match truthyZ (cooldowns st !! u) with
  | Some lastUse => (now_isUserInCooldown env - lastUse <? cooldownDuration)%Z
  | None => false
  end.

Definition setCooldown (env : Env) (u : string) : Exec RoastBot unit :=
  modify (set_state (fun st =>
    with_cooldowns (<[u := now_setCooldown env]> (cooldowns st)) st)).

(** *** Commands *)

Definition getStats (env : Env) (st : EnhancedBotState) (userName : string) : string :=
  let interactions := default 0%Z (longTerm (memory st) !! userName) in
  "Stats for " +:+ userName +:+ ":
Interactions: " +:+ show_number env (inject_Z interactions) +:+ "
Mood: " +:+ show_number env (moodLevel st).

Definition handleCommand (env : Env) (st : EnhancedBotState) (message : Message) : string :=
  let parts :=
    split_char " " (trim (slice_from (String.length (commandPrefix st)) (content message))) in
  let command := hd EmptyString parts in
  if String.eqb (toLowerCase command) "mood"
  then "Current mood level: " +:+ show_number env (moodLevel st)
  else if String.eqb (toLowerCase command) "stats"
  then getStats env st (userName message)
  else "Unknown command. Try !mood or !stats".

(** *** Response generation *)

Definition selectPersonalityTrait (st : EnhancedBotState) (analysis : NLPAnalysis)
    : option PersonalityTrait :=
  let moodFactor := if Qlt_le_dec 0 (moodLevel st) then "wit" else "sarcasm" in
  match List.find (fun trait => String.eqb (name trait) moodFactor) (personality st) with
  | Some trait => Some trait
  | None => index (personality st) 0
  end.

Definition getRandomResponse (env : Env) (trait : option PersonalityTrait)
    : Outcome (option string) :=
  match trait with
  | None => Throw TypeError
  | Some t =>
      Return (index (responses t) (random_index (Math_random env) (List.length (responses t))))
  end.

Definition show_template (t : option string) : string := default "undefined" t.

Definition applyMoodModifier (st : EnhancedBotState) (response : option string)
    : option string :=
  if Qlt_le_dec 5 (moodLevel st) then Some (show_template response +:+ " 😄")
  else if Qlt_le_dec (moodLevel st) (-5) then Some (show_template response +:+ " 😠")
  else response.

Definition generateResponse (env : Env) (message : Message) (analysis : NLPAnalysis)
    : Exec RoastBot string :=
  let! b := get in
  let trait := selectPersonalityTrait (state b) analysis in
  let! response := lift (getRandomResponse env trait) in
  match applyMoodModifier (state b) response with
  | None => throw TypeError
  | Some r => ret (replace "{userName}" (userName message) r)
  end.

Definition confused_reply : string :=
  "Even I'm confused by that one... 🤔 Try again later!".

(** [handleMessage]: [None] is the [null] of [Promise<string | null>]. *)
Definition handleMessage (env : Env) (message : Message) : Exec RoastBot (option string) :=
  try_catch
    (let! b := get in
     if isUserInCooldown env (state b) (userId message) then ret None
     else if startsWith (content message) (commandPrefix (state b))
     then ret (Some (handleCommand env (state b) message))
     else
       let! analysis := analyzeMessage (content message) in
       run! updateMood (sentiment analysis) in
       run! updateMemory message in
       run! learn analysis in
       let! response := generateResponse env message analysis in
       run! setCooldown env (userId message) in
       ret (Some response))
    (fun error =>
       run! console_error "Error processing message:" error in
       ret (Some confused_reply)).

(** *** The counter kept in the store *)

(** A key is gone once the clock has passed its deadline. *)
Definition live (now : Z) (e : RedisEntry) : bool :=
  match expireAt e with
  | Some deadline => (now <=? deadline)%Z
  | None => true
  end.

Definition redis_lookup (now : Z) (key : string) (store : gmap string RedisEntry)
    : option RedisEntry :=
  match store !! key with
  | Some e => if live now e then Some e else None
  | None => None
  end.

(** [INCR key]: a missing (or expired) key counts from 0 and has no expiry. *)
Definition INCR (now : Z) (key : string) (store : gmap string RedisEntry)
    : Z * gmap string RedisEntry :=
  match redis_lookup now key store with
  | Some e => ((value e + 1)%Z,
               <[key := {| value := (value e + 1)%Z; expireAt := expireAt e |}]> store)
  | None => (1%Z, <[key := {| value := 1%Z; expireAt := None |}]> store)
  end.

(** [EXPIRE key seconds]. *)
Definition EXPIRE (now : Z) (key : string) (seconds : Z) (store : gmap string RedisEntry)
    : Z * gmap string RedisEntry :=
  match redis_lookup now key store with
  | Some e => (1%Z, <[key := {| value := value e;
                               expireAt := Some (now + seconds * 1000)%Z |}]> store)
  | None => (0%Z, store)
  end.

(** One command sent to the store: it fails when the next fault flag says
    so, and otherwise runs on the store. *)
Definition redis_command {A} (cmd : gmap string RedisEntry -> A * gmap string RedisEntry)
    : Exec RoastBot A :=
  fun b =>
    let run (rest : list bool) :=
      let '(a, store) := cmd (redis b) in
      (Return a, {| state := state b; redis := store; faults := rest;
                    logger := logger b; console := console b |}) in
    match faults b with
    | true :: rest =>
        (Throw (ExternalError "redis"),
         {| state := state b; redis := redis b; faults := rest;
            logger := logger b; console := console b |})
    | false :: rest => run rest
    | [] => run []
    end.

(** The [try] block of [incrementCounter]. *)
Definition incrementCounter_try (now : Z) (key : string) : Exec RoastBot Z :=
  let! count := redis_command (INCR now key) in
  run! (if (count =? 1)%Z then redis_command (EXPIRE now key 60) else ret 0%Z) in
  ret count.

Definition incrementCounter (now : Z) (key : string) : Exec RoastBot Z :=
  try_catch
    (incrementCounter_try now key)
    (fun error =>
       run! logger_error "Redis increment error:" error in
       ret 0%Z).

(** [const limit = 5; // messages per minute]. *)
Definition limit : Z := 5.

Definition checkRateLimit (now : Z) (userId : string) : Exec RoastBot bool :=
  let key := "ratelimit:" +:+ userId in
  let! count := incrementCounter now key in
  run! (if (count =? 1)%Z then redis_command (EXPIRE now key 60) else ret 0%Z) in
  ret (count <=? limit)%Z.

(** A run of [checkRateLimit]: the calls [(userId, now)] in order, and the
    calls among them that resolved to [true]. *)
Fixpoint admitted (calls : list (string * Z)) (b : RoastBot) : list (string * Z) :=
  match calls with
  | [] => []
  | (u, now) :: rest =>
      match checkRateLimit now u b with
      | (Return true, b') => (u, now) :: admitted rest b'
      | (_, b') => admitted rest b'
      end
  end.

(** The admitted requests of [u] whose time stamp lies in the 60 s window
    that ends at [t]. *)
Definition in_window (u : string) (t : Z) (log : list (string * Z)) : list (string * Z) :=
  filter (fun c => c.1 = u ∧ (c.2 <= t)%Z ∧ (t - c.2 < 60000)%Z) log.

(** The mood after each of a sequence of [updateMood] calls. *)
Fixpoint mood_trace (sentiments : list Q) (b : RoastBot) : list Q :=
  match sentiments with
  | [] => []
  | s :: rest =>
      let b' := (updateMood s b).2 in
      moodLevel (state b') :: mood_trace rest b'
  end.

Definition mood_in_bounds (m : Q) : Prop := (minMoodLevel <= m /\ m <= maxMoodLevel)%Q.

(** The bot after one more entry was written through the logger. *)
Definition logged (entry : LogEntry) (b : RoastBot) : RoastBot :=
  {| state := state b; redis := redis b; faults := faults b;
     logger := (logger b ++ [entry])%list; console := console b |}.

(** *** The rest of the class *)



(** The prompt of [generateNewResponses]. *)
Definition new_response_prompt (trait : PersonalityTrait) (analysis : NLPAnalysis) : string :=
  "Generate a witty " +:+ name trait +:+ " response template for a chat bot, 
                           considering topics: " +:+ String.concat ", " (topics analysis).

(** [generateNewResponses(trait, analysis)], with the backend as an
    argument; the result is the trait object after the call. *)
Definition generateNewResponses
    (openai_create : Part002.ChatRequest -> Outcome (list (option string)))
    (st : EnhancedBotState) (trait : PersonalityTrait) (analysis : NLPAnalysis)
    : Exec RoastBot PersonalityTrait :=
  try_catch
    (let! choices := lift (openai_create {|
        Part002.messages := [ {| Part002.role := "user";
                                 Part002.chat_content := new_response_prompt trait analysis |} ];
        Part002.model := model (openAIConfig st);
        Part002.max_tokens := Some 50%Z |}) in
     match choices with
     | [] => throw TypeError
     | newResponse :: _ =>
         match newResponse with
         | Some (String c r) =>
             if arr_includes (responses trait) (String c r) then ret trait
             else ret {| name := name trait; level := level trait;
                         responses := (responses trait ++ [String c r])%list |}
         | _ => ret trait
         end
     end)
    (fun error =>
       run! console_error "Failed to generate new response:" error in
       ret trait).

(** How many of the [words] are in the [lexicon]. *)
Definition hits (lexicon words : list string) : nat :=
  List.length (List.filter (arr_includes lexicon) words).

(** The bot after [updateMemory] ran on each message in turn. *)
Fixpoint remember (messages : list Message) (b : RoastBot) : RoastBot :=
  match messages with
  | [] => b
  | m :: rest => remember rest (updateMemory m b).2
  end.

(** The last [n] elements of a list. *)
Definition last_n {A} (n : nat) (l : list A) : list A :=
  drop (List.length l - n) l.

(** A state on which response generation finds a template: there is a
    trait, and every trait has a template. *)
Definition healthy (st : EnhancedBotState) : Prop :=
  personality st <> [] /\ Forall (fun t => responses t <> []) (personality st).

(** A draw of [Math.random()] is in [0, 1). *)
Definition fair_draw (env : Env) : Prop :=
  (0 <= Math_random env /\ Math_random env < 1)%Q.

(** What [applyMoodModifier] appends. *)
Definition mood_suffix (st : EnhancedBotState) : string :=
  if Qlt_le_dec 5 (moodLevel st) then " 😄"
  else if Qlt_le_dec (moodLevel st) (-5) then " 😠"
  else EmptyString.

(** How many of the messages carry the user name [n]. *)
Definition said_by (n : string) (messages : list Message) : Z :=
  Z.of_nat (List.length (List.filter (fun m => String.eqb (userName m) n) messages)).

(** The analysis [analyzeMessage] builds for a content. *)
Definition analysis_of (content : string) : NLPAnalysis :=
  {| sentiment := analyzeSentiment content;
     topics := extractTopics content;
     intent := detectIntent content;
     entities := extractEntities content |}.

(** The bot after the three updates that precede the reply: mood, memory,
    learning. *)
Definition prepared (m : Message) (b : RoastBot) : RoastBot :=
  let a := analysis_of (content m) in
  (learn a (updateMemory m (updateMood (sentiment a) b).2).2).2.

(** The store holds the counter [k] with value [v], due to expire at [d]. *)
Definition counter_at (k : string) (v d : Z) (b : RoastBot) : Prop :=
  redis b !! k = Some {| value := v; expireAt := Some d |}.

Definition with_redis (store : gmap string RedisEntry) (b : RoastBot) : RoastBot :=
  {| state := state b; redis := store; faults := faults b;
     logger := logger b; console := console b |}.

(** The bot after a sequence of [handleMessage] calls, each with its
    collaborators. *)
Fixpoint handle_all (inputs : list (Env * Message)) (b : RoastBot) : RoastBot :=
  match inputs with
  | [] => b
  | (env, m) :: rest => handle_all rest (handleMessage env m b).2
  end.

End IndexTs.

(** ** src/roastbot2.ts: the schema of the plain assistant variant *)
Module RoastBot2.
Import JS Zod.

Record Message : Type := {
  content : string;
  userId : string;
  userName : string
}.

Definition MessageSchema_parse (message : JSValue) : Outcome Message :=
  match message with
  | VObject fs =>
      match z_string_min_max 1 1000 (field "content" fs),
            z_string (field "userId" fs),
            z_string (field "userName" fs) with
      | Return c, Return u, Return n =>
          Return {| content := c; userId := u; userName := n |}
      | _, _, _ => Throw ZodError
      end
  | _ => Throw ZodError
  end.

(** *** The bot object and its collaborators *)

Record ChatEntry : Type := { input : string; response : string }.

(** The bot object: the lists kept in the store (newest entry first), the
    faults the store will raise (one flag per command, in order; no flag
    left means no fault), and what was written to the logger. *)
Record Bot : Type := {
  lists : gmap string (list string);
  faults : list bool;
  logger : list LogEntry
}.

(** The collaborators of one [handleMessage] call: the generative backend,
    the JSON codec of a history entry (written with its date), and the
    clock. *)
Record Env : Type := {
  openai_create : Part002.ChatRequest -> Outcome (list (option string));
  JSON_stringify : ChatEntry -> Z -> string;
  JSON_parse : string -> Outcome ChatEntry;
  new_Date : Z
}.

Definition logger_error (msg : string) (e : Error) : Exec Bot unit :=
  modify (fun b => {| lists := lists b; faults := faults b;
                      logger := (logger b ++ [LogError msg e])%list |}).

Definition logger_info (msg : string) : Exec Bot unit :=
  modify (fun b => {| lists := lists b; faults := faults b;
                      logger := (logger b ++ [LogInfo msg])%list |}).

(** One command sent to the store: it fails when the next fault flag says
    so, and otherwise runs on the lists. *)
Definition redis_command {A} (cmd : gmap string (list string) -> A * gmap string (list string))
    : Exec Bot A :=
  fun b =>
    let run (rest : list bool) :=
      let '(a, store) := cmd (lists b) in
      (Return a, {| lists := store; faults := rest; logger := logger b |}) in
    match faults b with
    | true :: rest =>
        (Throw (ExternalError "redis"),
         {| lists := lists b; faults := rest; logger := logger b |})
    | false :: rest => run rest
    | [] => run []
    end.

(** [LPUSH key value]: the value becomes the head of the list. *)
Definition LPUSH (key value : string) (store : gmap string (list string))
    : Z * gmap string (list string) :=
  let l := value :: default [] (store !! key) in
  (Z.of_nat (List.length l), <[key := l]> store).

(** [LTRIM key 0 stop]: the list keeps its first [stop + 1] elements. *)
Definition LTRIM_from_0 (key : string) (stop : nat) (store : gmap string (list string))
    : unit * gmap string (list string) :=
  match store !! key with
  | Some l => (tt, <[key := take (S stop) l]> store)
  | None => (tt, store)
  end.

(** [LRANGE key 0 -1]: the whole list, empty for a missing key. *)
Definition LRANGE_all (key : string) (store : gmap string (list string))
    : list string * gmap string (list string) :=
  (default [] (store !! key), store).

(** [history.map(item => JSON.parse(item))]. *)
Fixpoint parse_all (env : Env) (items : list string) : Outcome (list ChatEntry) :=
  match items with
  | [] => Return []
  | item :: rest =>
      match JSON_parse env item with
      | Throw e => Throw e
      | Return h =>
          match parse_all env rest with
          | Throw e => Throw e
          | Return hs => Return (h :: hs)
          end
      end
  end.

Definition getHistory (env : Env) (userId : string) : Exec Bot (list ChatEntry) :=
  try_catch
    (let key := "history:" +:+ userId in
     let! history := redis_command (LRANGE_all key) in
     lift (parse_all env history))
    (fun error =>
       run! logger_error "Failed to get history:" error in
       ret []).

Definition updateHistory (env : Env) (userId : string) (chat : ChatEntry) : Exec Bot unit :=
  try_catch
    (let key := "history:" +:+ userId in
     run! redis_command (LPUSH key (JSON_stringify env chat (new_Date env))) in
     redis_command (LTRIM_from_0 key 9))
    (fun error =>
       run! logger_error "Failed to update history:" error in
       ret tt).

(** The context built from the three most recent turns. *)
Definition recentContext (history : list ChatEntry) : string :=
  String.concat "
" (map (fun h => "User: " +:+ input h +:+ "
AI: " +:+ response h) (take 3 history)).

Definition apology : string := "Sorry, I encountered an error processing your message.".

Definition generateResponse (env : Env) (message userId : string) : Exec Bot string :=
  try_catch
    (let! history := getHistory env userId in
     let! completion := lift (openai_create env {|
        Part002.messages := [
          {| Part002.role := "system";
             Part002.chat_content :=
               "You are a helpful AI assistant. Previous conversation:
" +:+ recentContext history |};
          {| Part002.role := "user"; Part002.chat_content := message |} ];
        Part002.model := "gpt-4";
        Part002.max_tokens := Some 150%Z |}) in
     lift (Part002.first_content_or "No response generated" completion))
    (fun error =>
       run! logger_error "OpenAI API error:" error in
       ret apology).

Definition handleMessage (env : Env) (message : JSValue) : Exec Bot string :=
  try_catch
    (let! validatedMessage := lift (MessageSchema_parse message) in
     run! logger_info "Received message" in
     let! reply := generateResponse env (content validatedMessage) (userId validatedMessage) in
     run! updateHistory env (userId validatedMessage)
            {| input := content validatedMessage; response := reply |} in
     ret reply)
    (fun error =>
       run! logger_error "Error processing message" error in
       match error with
       | ZodError => ret "Invalid message format"
       | _ => ret "An error occurred"
       end).

(** The bot after [logger.info('Received message', ...)]. *)
Definition received (b : Bot) : Bot :=
  {| lists := lists b; faults := faults b;
     logger := (logger b ++ [LogInfo "Received message"])%list |}.

(** The history list of a user in the store. *)
Definition history_of (userId : string) (b : Bot) : list string :=
  default [] (lists b !! ("history:" +:+ userId)).

End RoastBot2.

(** ** src/unnamed/part_004: utils, trait table with sensitivity, profile cache *)
Module Part004.
Import JS.

Record Config : Type := {
  COOLDOWN_DURATION : Z;
  MAX_MOOD_LEVEL : Q;
  MIN_MOOD_LEVEL : Q;
  MAX_REQUESTS_PER_MINUTE : Z;
  MAX_MESSAGE_HISTORY : Z;
  REDIS_RETRY_ATTEMPTS : Z;
  REDIS_RETRY_DELAY : Z;
  DEFAULT_OPENAI_MODEL : string;
  MAX_TOKENS : Z;
  CONTEXT_WINDOW_SIZE : Z;
  USER_PROFILE_EXPIRY : Z;
  MAINTENANCE_INTERVAL : Z;
  PERSONALITY_ADJUSTMENT_INTERVAL : Z;
  METRICS_AGGREGATION_INTERVAL : Z;
  DEFAULT_SENSITIVITY_LEVEL : Q;
  MIN_RESPONSE_TEMPERATURE : Q;
  MAX_RESPONSE_TEMPERATURE : Q;
  BASE_RESPONSE_TEMPERATURE : Q
}.

Definition CONFIG : Config := {|
  COOLDOWN_DURATION := 30000;
  MAX_MOOD_LEVEL := 10;
  MIN_MOOD_LEVEL := -10;
  MAX_REQUESTS_PER_MINUTE := 50;
  MAX_MESSAGE_HISTORY := 100;
  REDIS_RETRY_ATTEMPTS := 3;
  REDIS_RETRY_DELAY := 1000;
  DEFAULT_OPENAI_MODEL := "gpt-4";
  MAX_TOKENS := 150;
  CONTEXT_WINDOW_SIZE := 10;
  USER_PROFILE_EXPIRY := 86400 * 30;
  MAINTENANCE_INTERVAL := 3600000;
  PERSONALITY_ADJUSTMENT_INTERVAL := 900000;
  METRICS_AGGREGATION_INTERVAL := 86400000;
  DEFAULT_SENSITIVITY_LEVEL := 0.5;
  MIN_RESPONSE_TEMPERATURE := 0.3;
  MAX_RESPONSE_TEMPERATURE := 1.0;
  BASE_RESPONSE_TEMPERATURE := 0.7
|}.

Record Conditions : Type := {
  minSentiment : option Q;
  maxSentiment : option Q;
  timeOfDay : option (list Q);
  userSensitivity : option Q
}.

Record PersonalityTrait : Type := {
  name : string;
  level : Q;
  responses : list string;
  conditions : Conditions
}.

Definition PERSONALITY_TRAITS : list PersonalityTrait := [
  {| name := "sarcasm";
     level := 0.8;
     responses := [
       "Oh wow, {userName}, that's *totally* genius... 🙄 {codeComment}";
       "Brilliant observation, {userName}. Did you figure that out all by yourself? {codeComment}";
       "Your code is like a modern art masterpiece, {userName}... nobody understands it. {codeComment}";
       "Have you considered a career in writing comedy? Because your code is hilarious. {codeComment}" ];
     conditions := {| minSentiment := Some (-0.5); maxSentiment := Some 0.8;
                      timeOfDay := None; userSensitivity := Some 0.7 |} |};
  {| name := "technical";
     level := 0.9;
     responses := [
       "Let me refactor that for you, {userName}. First, we'll need to address the {issue} in your code.";
       "Interesting approach, {userName}. Have you considered using {betterPattern} instead?";
       "Your code's complexity is reaching astronomical levels, {userName}. Time for some clean code principles?";
       "That's an interesting use of {pattern}... if by interesting you mean potentially catastrophic." ];
     conditions := {| minSentiment := Some (-0.2); maxSentiment := Some 1.0;
                      timeOfDay := None; userSensitivity := Some 0.4 |} |};
  {| name := "encouraging";
     level := 0.6;
     responses := [
       "Not bad, {userName}! But let's make it even better by {improvement}";
       "You're getting there! Just need to tweak {issue} and you'll be golden.";
       "I see what you're trying to do. Here's a pro tip: {tip}";
       "Almost perfect! Just one small suggestion: {suggestion}" ];
     conditions := {| minSentiment := Some 0.3; maxSentiment := Some 1.0;
                      timeOfDay := None; userSensitivity := Some 0.8 |} |}
]%Q.

(** *** utils.ts *)

Definition positiveWords : gset string :=
  list_to_set ["good"; "great"; "awesome"; "excellent"; "perfect"; "thanks"].

Definition negativeWords : gset string :=
  list_to_set ["bad"; "terrible"; "awful"; "horrible"; "wrong"; "stupid"].

(** The body of the [forEach] of [calculateSentiment], on one word. *)
Definition score_word (acc : Q) (word : string) : Q :=
  let acc1 := if bool_decide (word ∈ positiveWords) then (acc + 0.2)%Q else acc in
  if bool_decide (word ∈ negativeWords) then (acc1 - 0.2)%Q else acc1.

Definition calculateSentiment (text : string) : Q :=
  let words := split_ws (toLowerCase text) in
  let sentiment := fold_left score_word words 0%Q in
  Qmax (Qmin sentiment 1) (-1).

(** *** Profile store *)

Record InteractionHistory : Type := {
  ih_timestamp : Z;
  ih_sentiment : Q;
  responseType : string;
  messageContent : string;
  botResponse : string
}.

Record ResponsePreferences : Type := {
  witLevel : Q;
  sarcasmLevel : Q;
  technicalLevel : Q
}.

Record UserProfile : Type := {
  userId : string;
  userName : string;
  sensitivityLevel : Q;
  pastInteractions : list InteractionHistory;
  preferredTopics : list string;
  lastInteraction : Z;
  totalInteractions : Z;
  averageSentiment : Q;
  responsePreferences : ResponsePreferences
}.

(** A [SET key value EX seconds] sent to the store. *)
Record RedisSet : Type := { set_key : string; set_value : string; set_EX : Z }.

(** The part of the bot object the profile store touches: the cache, the
    writes it has sent to the store, and the logger. *)
Record Bot : Type := {
  userProfiles : gmap string UserProfile;
  redis_sent : list RedisSet;
  logger : list LogEntry
}.

(** The collaborators of one [getUserProfile] call: the clock, the answer of
    the store to [GET] ([null] as [None], or a failure), and the JSON codec. *)
Record Env : Type := {
  Date_now : Z;
  redis_get : string -> Outcome (option string);
  JSON_parse : string -> Outcome UserProfile;
  JSON_stringify : UserProfile -> string
}.

Definition logger_error (msg : string) (e : Error) : Exec Bot unit :=
  modify (fun b => {| userProfiles := userProfiles b; redis_sent := redis_sent b;
                      logger := (logger b ++ [LogError msg e])%list |}).

(** The object literal of [createNewUserProfile]. *)
Definition new_profile (cfg : Config) (now : Z) (u : string) : UserProfile := {|
  userId := u;
  userName := EmptyString;
  sensitivityLevel := DEFAULT_SENSITIVITY_LEVEL cfg;
  pastInteractions := [];
  preferredTopics := [];
  lastInteraction := now;
  totalInteractions := 0;
  averageSentiment := 0;
  responsePreferences := {| witLevel := 0.5; sarcasmLevel := 0.5; technicalLevel := 0.5 |}
|}.

Definition createNewUserProfile (cfg : Config) (env : Env) (u : string)
    : Exec Bot UserProfile :=
  let profile := new_profile cfg (Date_now env) u in
  run! modify (fun b => {|
         userProfiles := <[u := profile]> (userProfiles b);
         redis_sent := (redis_sent b ++
                        [{| set_key := "user:" +:+ u;
                            set_value := JSON_stringify env profile;
                            set_EX := USER_PROFILE_EXPIRY cfg |}])%list;
         logger := logger b |}) in
  ret profile.

Definition cache_profile (u : string) (profile : UserProfile) : Exec Bot unit :=
  modify (fun b => {| userProfiles := <[u := profile]> (userProfiles b);
                      redis_sent := redis_sent b; logger := logger b |}).

Definition getUserProfile (cfg : Config) (env : Env) (u : string) : Exec Bot UserProfile :=
  try_catch
    (let! b := get in
     match userProfiles b !! u with
     | Some cachedProfile => ret cachedProfile
     | None =>
         let! storedProfile := lift (redis_get env ("user:" +:+ u)) in
         match storedProfile with
         | Some (String c rest) =>
             let! profile := lift (JSON_parse env (String c rest)) in
             run! cache_profile u profile in
             ret profile
         | _ => createNewUserProfile cfg env u
         end
     end)
    (fun error =>
       run! logger_error "Error getting user profile:" error in
       createNewUserProfile cfg env u).

(** The bot after [createNewUserProfile] cached [profile] for [u] and sent
    it to the store. *)
Definition created (cfg : Config) (env : Env) (u : string) (profile : UserProfile)
    (b : Bot) : Bot :=
  {| userProfiles := <[u := profile]> (userProfiles b);
     redis_sent := (redis_sent b ++
                    [{| set_key := "user:" +:+ u;
                        set_value := JSON_stringify env profile;
                        set_EX := USER_PROFILE_EXPIRY cfg |}])%list;
     logger := logger b |}.

(** *** utils.ts, continued *)

Definition technicalTerms : gset string :=
  list_to_set ["algorithm"; "function"; "class"; "method"; "api";
               "database"; "async"; "promise"; "callback"; "interface"].

(** The body of the [forEach] of [detectTechnicalComplexity], on one word. *)
Definition complexity_word (acc : Q) (word : string) : Q :=
  if bool_decide (word ∈ technicalTerms) then (acc + 0.2)%Q else acc.

(** [detectTechnicalComplexity].  The sum is exact here and rounded to a
    double at each step in the code; what is stated of the result is its
    range, when it is 0 and when it is 1, which the rounding leaves alone. *)
Definition detectTechnicalComplexity (text : string) : Q :=
  let words := split_ws (toLowerCase text) in
  let complexity := fold_left complexity_word words 0%Q in
  Qmin complexity 1.

(** How many of the [words] are technical terms. *)
Definition technical_hits (words : list string) : nat :=
  List.length (List.filter (fun w => bool_decide (w ∈ technicalTerms)) words).

(** The class [\w] of a regular expression. *)
Definition is_word_char (c : ascii) : bool :=
  let n := nat_of_ascii c in
  is_upper c || is_lower c || ((48 <=? n) && (n <=? 57))%nat || (n =? 95)%nat.

(** No word character follows the first [n] characters of [s]. *)
Definition boundary_after (n : nat) (s : string) : bool :=
  match slice_from n s with
  | EmptyString => true
  | String d _ => negb (is_word_char d)
  end.

(** [/\bkw\b/.test(s)] for a keyword made of word characters;
    [prev_is_word] tells whether a word character precedes [s]. *)
Fixpoint has_word_from (prev_is_word : bool) (kw s : string) : bool :=
  (negb prev_is_word && String.prefix kw s && boundary_after (String.length kw) s)
  || match s with
     | EmptyString => false
     | String c r => has_word_from (is_word_char c) kw r
     end.

(** [/\b(k1|k2|...)\b/.test(text)]. *)
Definition has_any_word (kws : list string) (text : string) : bool :=
  existsb (fun kw => has_word_from false kw text) kws.

Definition brackets : list ascii :=
  ["{"; "}"; "["; "]"; "("; ")"]%char.

(** [/[{}\[\]()]/.test(text)]. *)
Fixpoint has_bracket (text : string) : bool :=
  match text with
  | EmptyString => false
  | String c r => existsb (Ascii.eqb c) brackets || has_bracket r
  end.

(** The keywords of the four keyword patterns of [detectCodeSnippet]. *)
Definition all_keywords : list string :=
  ["function"; "class"; "const"; "let"; "var"; "if"; "for"; "while";
   "return"; "import"; "export"; "async"; "await"; "try"; "catch"].

Definition detectCodeSnippet (text : string) : bool :=
  has_any_word ["function"; "class"; "const"; "let"; "var"; "if"; "for"; "while"] text
  || has_bracket text
  || has_any_word ["return"; "import"; "export"] text
  || has_any_word ["async"; "await"] text
  || has_any_word ["try"; "catch"] text.

(** *** analyzeMessage *)

(** What [JSON.parse] finds in the analysis the backend returned. *)
Record RawAIAnalysis : Type := {
  ai_topics : option (list string);
  ai_intent : option string;
  ai_entities : option (list string);
  ai_languages : option (list string);
  ai_toxicity : option Q
}.

(** The collaborators of [analyzeMessage]: the generative backend and
    [JSON.parse] on its answer. *)
Record AnalysisEnv : Type := {
  openai_create : Part002.ChatRequest -> Outcome (list (option string));
  JSON_parse_analysis : string -> Outcome RawAIAnalysis
}.

(** [analyzeMessage(message)]; [model] is [this.state.openAIConfig.model]. *)
Definition analyzeMessage (model : string) (env : AnalysisEnv) (message : Part002.Message)
    : Exec Bot Part002.NLPAnalysis :=
  try_catch
    (let sentiment := calculateSentiment (Part002.content message) in
     let technicalComplexity := detectTechnicalComplexity (Part002.content message) in
     let codeDetected := detectCodeSnippet (Part002.content message) in
     let! completion := lift (openai_create env {|
        Part002.messages := [
          {| Part002.role := "system";
             Part002.chat_content :=
               "Analyze the following message for topics, intent, and entities. Return JSON." |};
          {| Part002.role := "user"; Part002.chat_content := Part002.content message |} ];
        Part002.model := model;
        Part002.max_tokens := None |}) in
     let! text := lift (Part002.first_content_or "{}" completion) in
     let! aiAnalysis := lift (JSON_parse_analysis env text) in
     ret {| Part002.sentiment := sentiment;
            Part002.technicalComplexity := technicalComplexity;
            Part002.codeDetected := codeDetected;
            Part002.topics := default [] (ai_topics aiAnalysis);
            Part002.intent := Part002.or_unknown (ai_intent aiAnalysis);
            Part002.entities := default [] (ai_entities aiAnalysis);
            Part002.languagesDetected := default [] (ai_languages aiAnalysis);
            Part002.toxicity := Part002.or_zero (ai_toxicity aiAnalysis) |})
    (fun error =>
       run! logger_error "Error in message analysis:" error in
       ret {| Part002.sentiment := 0;
              Part002.topics := [];
              Part002.intent := "unknown";
              Part002.entities := [];
              Part002.technicalComplexity := 0;
              Part002.codeDetected := false;
              Part002.languagesDetected := [];
              Part002.toxicity := 0 |}).

End Part004.

(** ** The selection policy as the specification words it *)
Module Policy.

(** How a declared [userSensitivity] is read against the profile: as a
    floor or as a ceiling of [profile.sensitivityLevel]. *)
Inductive SensitivityReading : Type := AtLeast | AtMost.

Definition bound_ok (declared : option Q) (ok : Q -> bool) : bool :=
  match declared with
  | Some b => ok b
  | None => true
  end.

(** Every declared condition of the trait is satisfied by the sentiment and
    by the sensitivity level. *)
Definition satisfied (reading : SensitivityReading) (sentiment sensitivityLevel : Q)
    (t : Part004.PersonalityTrait) : bool :=
  let c := Part004.conditions t in
  bound_ok (Part004.minSentiment c) (fun lo => Qle_bool lo sentiment)
  && bound_ok (Part004.maxSentiment c) (fun hi => Qle_bool sentiment hi)
  && bound_ok (Part004.userSensitivity c)
       (fun r => match reading with
                 | AtLeast => Qle_bool r sensitivityLevel
                 | AtMost => Qle_bool sensitivityLevel r
                 end).

(** A trait of part_002 as the policy sees it: its conditions can declare
    sentiment bounds and hours of the day, and no sensitivity requirement
    (the type has no such field); a trait without [conditions] declares
    nothing. *)
Definition of_part002 (t : Part002.PersonalityTrait) : Part004.PersonalityTrait :=
  {| Part004.name := Part002.name t;
     Part004.level := Part002.level t;
     Part004.responses := Part002.responses t;
     Part004.conditions :=
       {| Part004.minSentiment := Part002.bound_of Part002.minSentiment t;
          Part004.maxSentiment := Part002.bound_of Part002.maxSentiment t;
          Part004.timeOfDay :=
            match Part002.conditions t with
            | Some c => Part002.timeOfDay c
            | None => None
            end;
          Part004.userSensitivity := None |} |}.

(** First trait, in table order, whose declared conditions are all
    satisfied; the first trait of the table when there is none. *)
Definition select (reading : SensitivityReading) (traits : list Part004.PersonalityTrait)
    (sentiment sensitivityLevel : Q) : option Part004.PersonalityTrait :=
  match List.find (satisfied reading sentiment sensitivityLevel) traits with
  | Some t => Some t
  | None => head traits
  end.

End Policy.

(** ** Concrete runs used as examples *)
Module Scenarios.
Import JS.

(** Both clock readings of an [index.ts] call at instant [t]. *)
Definition env_at (t : Z) : IndexTs.Env :=
  {| IndexTs.now_isUserInCooldown := t; IndexTs.now_setCooldown := t;
     IndexTs.Math_random := 0; IndexTs.show_number := fun q => pretty (Qfloor q) |}.

Definition hello : IndexTs.Message :=
  {| IndexTs.content := "Hello, AI!"; IndexTs.userId := "user123";
     IndexTs.userName := "TestUser"; IndexTs.mentions := [] |}.

Definition mood_command : IndexTs.Message :=
  {| IndexTs.content := "!mood"; IndexTs.userId := "user123";
     IndexTs.userName := "TestUser"; IndexTs.mentions := [] |}.

(** The bot of [index.ts] one second after it answered [hello]. *)
Definition after_hello : IndexTs.RoastBot :=
  (IndexTs.handleMessage (env_at 1000) hello (IndexTs.new_RoastBot 0)).2.

(** Ten requests of one user around the instant the counter expires. *)
Definition burst : list (string * Z) :=
  [("u1", 0); ("u1", 59996); ("u1", 59997); ("u1", 59998); ("u1", 59999);
   ("u1", 60001); ("u1", 60002); ("u1", 60003); ("u1", 60004); ("u1", 60005)]%Z.

(** The same requests made to the in-memory limiter, with a maintenance run
    in the middle. *)
Definition burst_events : list Part002.Event :=
  (map (fun c => Part002.Check c.1 c.2) (take 5 burst)
   ++ [Part002.Maintenance 60000]
   ++ map (fun c => Part002.Check c.1 c.2) (drop 5 burst))%list.

(** A store whose next command fails. *)
Definition faulty_bot : IndexTs.RoastBot :=
  {| IndexTs.state := IndexTs.initial_state 0; IndexTs.redis := ∅;
     IndexTs.faults := [true]; IndexTs.logger := []; IndexTs.console := [] |}.

Definition with_sentiment (s : Q) : Part002.NLPAnalysis :=
  {| Part002.sentiment := s; Part002.topics := []; Part002.intent := "unknown";
     Part002.entities := []; Part002.technicalComplexity := 0;
     Part002.codeDetected := false; Part002.languagesDetected := [];
     Part002.toxicity := 0 |}.

(** Collaborators of part_002 with a generative backend that is down. *)
Definition backend_down : Part002.Env :=
  {| Part002.now_schema := 7; Part002.now_rateLimit := 7; Part002.now_metrics := 7;
     Part002.Math_random := 0;
     Part002.openai_create := fun _ => Throw (ExternalError "openai");
     Part002.JSON_parse := fun _ => Throw SyntaxError;
     Part002.redis_hset := fun _ => Return tt |}.

Definition test_message : Part002.Message :=
  {| Part002.content := "Test message"; Part002.userId := "123";
     Part002.userName := "TestUser"; Part002.mentions := None;
     Part002.timestamp := 7 |}.

(** The stricter policy of five requests per minute. *)
Definition five_per_minute : Part002.Config :=
  {| Part002.COOLDOWN_DURATION := 30000;
     Part002.MAX_REQUESTS_PER_MINUTE := 5;
     Part002.REDIS_RETRY_ATTEMPTS := 3;
     Part002.REDIS_RETRY_DELAY := 1000;
     Part002.DEFAULT_OPENAI_MODEL := "gpt-4";
     Part002.MAX_TOKENS := 150;
     Part002.USER_PROFILE_EXPIRY := 86400 * 30;
     Part002.MAINTENANCE_INTERVAL := 3600000;
     Part002.DEFAULT_SENSITIVITY := 0.5;
     Part002.RATE_LIMIT_WINDOW := 60000;
     Part002.MAX_RESPONSE_ATTEMPTS := 3 |}.

(** A bot of part_002 that admitted five requests of user 123 in the last
    few milliseconds. *)
Definition busy_bot : Part002.Bot :=
  {| Part002.state := Part002.initializeState;
     Part002.rateLimits := {[ "123" := [1; 2; 3; 4; 5]%Z ]};
     Part002.logger := [] |}.

(** Collaborators of the profile store with an empty key-value store. *)
Definition empty_store (now : Z) : Part004.Env :=
  {| Part004.Date_now := now;
     Part004.redis_get := fun _ => Return None;
     Part004.JSON_parse := fun _ => Throw SyntaxError;
     Part004.JSON_stringify := fun p => Part004.userId p |}.

Definition no_profiles : Part004.Bot :=
  {| Part004.userProfiles := ∅; Part004.redis_sent := []; Part004.logger := [] |}.

(** Collaborators of part_002 whose store refuses [hset]. *)
Definition store_down : Part002.Env :=
  {| Part002.now_schema := 7; Part002.now_rateLimit := 7; Part002.now_metrics := 7;
     Part002.Math_random := 0;
     Part002.openai_create := fun _ => Return [Some "Nice try, {userName}."];
     Part002.JSON_parse := fun _ => Throw SyntaxError;
     Part002.redis_hset := fun _ => Throw (ExternalError "redis") |}.

(** Collaborators of roastbot2.ts with a generative backend that is down. *)
Definition assistant_down : RoastBot2.Env :=
  {| RoastBot2.openai_create := fun _ => Throw (ExternalError "openai");
     RoastBot2.JSON_stringify :=
       fun chat _ => RoastBot2.input chat +:+ " => " +:+ RoastBot2.response chat;
     RoastBot2.JSON_parse := fun _ => Throw SyntaxError;
     RoastBot2.new_Date := 7 |}.

Definition new_assistant : RoastBot2.Bot :=
  {| RoastBot2.lists := ∅; RoastBot2.faults := []; RoastBot2.logger := [] |}.

Definition assistant_message : RoastBot2.Message :=
  {| RoastBot2.content := "Test message"; RoastBot2.userId := "123";
     RoastBot2.userName := "TestUser" |}.

Definition hello_analysis : IndexTs.NLPAnalysis :=
  IndexTs.analysis_of "I love this code".

End Scenarios.

(** * Properties *)

Import JS Zod.

(** ** The try/catch skeleton *)

Lemma try_catch_returns {S A} (c : Exec S A) (h : Error -> Exec S A) :
  (forall e s, exists a s', h e s = (Return a, s')) ->
  forall s, exists a s', try_catch c h s = (Return a, s').
Proof.
  intros Hh s. unfold try_catch. destruct (c s) as [[a|e] s']; eauto.
Qed.

Lemma try_catch_cases {S A} (c : Exec S A) (h : Error -> Exec S A) (s : S) :
  (exists a s', c s = (Return a, s') /\ try_catch c h s = (Return a, s')) \/
  (exists e s', c s = (Throw e, s') /\ try_catch c h s = h e s').
Proof.
  unfold try_catch. destruct (c s) as [[a|e] s']; [left|right]; eauto.
Qed.

(** ** Rate limiting *)

Section SlidingWindow.
Import Part002.
Variable cfg : Config.

Lemma fresh_app now l1 l2 : fresh cfg now (l1 ++ l2) = fresh cfg now l1 ++ fresh cfg now l2.
Proof. apply filter_app. Qed.

(** Once the clock has moved on, what an earlier call dropped stays dropped. *)
Lemma fresh_later now now' l :
  (now <= now')%Z -> fresh cfg now' (fresh cfg now l) = fresh cfg now' l.
Proof.
  intros Hle. unfold fresh. induction l as [|x l IH]; [done|].
  rewrite !filter_cons. repeat case_decide; rewrite ?filter_cons; repeat case_decide;
    try lia; by rewrite IH.
Qed.

Lemma times_of_app u l1 l2 : times_of u (l1 ++ l2) = times_of u l1 ++ times_of u l2.
Proof. unfold times_of. by rewrite filter_app, fmap_app. Qed.

Lemma filter_length_mono {A} (P Q : A -> Prop) `{!forall x, Decision (P x)}
    `{!forall x, Decision (Q x)} (l : list A) :
  (forall x, P x -> Q x) -> (List.length (filter P l) <= List.length (filter Q l))%nat.
Proof.
  intros HPQ. induction l as [|x l IH]; [done|].
  rewrite !filter_cons. repeat case_decide; simpl; try lia.
  exfalso; auto.
Qed.

Lemma fresh_times_length u now past :
  List.length (fresh cfg now (times_of u past)) =
  List.length (filter (fun c : string * Z =>
                         c.1 = u /\ (now - c.2 < RATE_LIMIT_WINDOW cfg)%Z) past).
Proof.
  unfold fresh, times_of. induction past as [|[v x] past IH]; [done|].
  rewrite !filter_cons.
  destruct (decide ((v, x).1 = u)) as [Hu|Hu];
    destruct (decide ((v, x).1 = u /\ (now - (v, x).2 < RATE_LIMIT_WINDOW cfg)%Z)) as [Hx|Hx];
    simpl in Hu, Hx; simpl.
  - rewrite filter_cons. rewrite decide_True by tauto. simpl. f_equal. exact IH.
  - rewrite filter_cons. rewrite decide_False by tauto. exact IH.
  - tauto.
  - exact IH.
Qed.

Lemma window_inv_step u rl past lb v now :
  window_inv cfg u rl past lb -> (lb <= now)%Z ->
  window_inv cfg u (checkRateLimit cfg now v rl).2
    (past ++ (if (checkRateLimit cfg now v rl).1 then [(v, now)] else [])) now.
Proof.
  intros [Hb Hc] Hle. unfold checkRateLimit.
  fold (fresh cfg now (default [] (rl !! v))).
  destruct (Z.leb_spec (MAX_REQUESTS_PER_MINUTE cfg)
              (Z.of_nat (List.length (fresh cfg now (default [] (rl !! v))))))
    as [Hfull|Hroom]; simpl.
  - rewrite app_nil_r. split; [|done]. intros now' Hn. apply Hb. lia.
  - destruct (decide (v = u)) as [->|Hne].
    + split.
      * intros now' Hn. rewrite lookup_insert_eq. simpl.
        rewrite fresh_app, fresh_later by done.
        rewrite times_of_app, fresh_app, Hb by lia.
        f_equal. unfold times_of. rewrite filter_cons. simpl.
        by case_decide.
      * intros t. unfold in_window. rewrite filter_app, length_app.
        rewrite filter_cons, filter_nil. case_decide as Hin; simpl.
        2:{ specialize (Hc t). unfold in_window in Hc. lia. }
        destruct Hin as (_ & Hnt & Htw).
        rewrite (Hb now) in Hroom by done.
        rewrite fresh_times_length in Hroom.
        pose proof (filter_length_mono
          (fun c : string * Z =>
             c.1 = u /\ (c.2 <= t)%Z /\ (t - c.2 < RATE_LIMIT_WINDOW cfg)%Z)
          (fun c : string * Z => c.1 = u /\ (now - c.2 < RATE_LIMIT_WINDOW cfg)%Z) past)
          as Hm.
        simpl in *.
        assert (Hm' := Hm ltac:(intros c (? & ? & ?); split; [done|lia])). lia.
    + split.
      * intros now' Hn. rewrite lookup_insert_ne by done.
        rewrite times_of_app. unfold times_of at 2. rewrite filter_cons. simpl.
        case_decide; [done|]. simpl. rewrite app_nil_r. apply Hb. lia.
      * intros t. unfold in_window. rewrite filter_app, filter_cons, filter_nil. simpl.
        case_decide as Hin; [by destruct Hin|]. rewrite app_nil_r. apply Hc.
Qed.

(** Maintenance drops only what every later call would drop anyway. *)
Lemma window_inv_maintenance u rl past lb now :
  window_inv cfg u rl past lb -> (lb <= now)%Z ->
  window_inv cfg u (performMaintenance cfg now rl) past now.
Proof.
  intros [Hb Hc] Hle. split; [|exact Hc]. intros now' Hn.
  rewrite <- Hb by lia. unfold performMaintenance. rewrite lookup_omap.
  destruct (rl !! u) as [ts|]; [|done]. simpl.
  fold (fresh cfg now ts).
  destruct (fresh cfg now ts) as [|x xs] eqn:Hts; simpl.
  - by rewrite <- (fresh_later now now' ts), Hts.
  - by rewrite <- Hts, fresh_later.
Qed.

Lemma admitted_window_inv u events : forall rl past lb,
  window_inv cfg u rl past lb ->
  Sorted Z.le (lb :: map event_time events) ->
  forall t, (Z.of_nat (List.length (in_window cfg u t (past ++ admitted cfg events rl)))
             <= MAX_REQUESTS_PER_MINUTE cfg)%Z.
Proof.
  induction events as [|[v now|now] events IH]; intros rl past lb Hinv Hs t.
  - simpl. rewrite app_nil_r. apply Hinv.
  - simpl in *. apply Sorted_inv in Hs as [Hs Hhd]. apply HdRel_inv in Hhd.
    pose proof (window_inv_step u rl past lb v now Hinv Hhd) as Hstep.
    destruct (checkRateLimit cfg now v rl) as [ok rl'] eqn:Hchk. simpl in Hstep.
    rewrite app_assoc. by apply (IH rl' _ now).
  - simpl in *. apply Sorted_inv in Hs as [Hs Hhd]. apply HdRel_inv in Hhd.
    apply (IH _ past now); [|exact Hs]. by apply (window_inv_maintenance u rl past lb).
Qed.

Lemma window_inv_start u lb :
  (0 <= MAX_REQUESTS_PER_MINUTE cfg)%Z -> window_inv cfg u ∅ [] lb.
Proof. intros Hmax. split; [done|]. intros t. simpl. exact Hmax. Qed.

Lemma admitted_from_empty u events t :
  (0 <= MAX_REQUESTS_PER_MINUTE cfg)%Z ->
  Sorted Z.le (map event_time events) ->
  (Z.of_nat (List.length (in_window cfg u t (admitted cfg events ∅)))
   <= MAX_REQUESTS_PER_MINUTE cfg)%Z.
Proof.
  intros Hmax Hs. destruct events as [|e events]; [exact Hmax|].
  apply (admitted_window_inv u (e :: events) ∅ [] (event_time e)
           (window_inv_start u (event_time e) Hmax)).
  simpl in *. constructor; [exact Hs|]. constructor. lia.
Qed.

End SlidingWindow.

Lemma incrementCounter_returns now key b :
  exists count b1, IndexTs.incrementCounter now key b = (Return count, b1).
Proof.
  unfold IndexTs.incrementCounter. apply try_catch_returns.
  intros e s. eexists _, _. reflexivity.
Qed.

(** [checkRateLimit] of index.ts resolves to the comparison of the counter
    with the limit; the one way its promise can be rejected is a fault of
    its own [EXPIRE], which it sends when the counter is 1. *)
Lemma checkRateLimit_counts now u b :
  exists count b1,
    IndexTs.incrementCounter now ("ratelimit:" +:+ u) b = (Return count, b1) /\
    ((exists b2, IndexTs.checkRateLimit now u b
                 = (Return (count <=? IndexTs.limit)%Z, b2)) \/
     (count = 1%Z /\ exists e b2, IndexTs.checkRateLimit now u b = (Throw e, b2))).
Proof.
  destruct (incrementCounter_returns now ("ratelimit:" +:+ u) b) as (count & b1 & Hc).
  exists count, b1. split; [exact Hc|].
  unfold IndexTs.checkRateLimit, bind. rewrite Hc.
  destruct (Z.eqb_spec count 1) as [->|Hne].
  - destruct (IndexTs.redis_command _ b1) as [[z|e] b2].
    + left. by exists b2.
    + right. split; [done|]. by exists e, b2.
  - left. by exists b1.
Qed.

(** C1 (as amended).  With a clock that never runs backwards, the in-memory
    limiter of part_002 admits, for every user and every sequence of calls
    (interleaved with maintenance runs or not) started on the empty map, at
    most [MAX_REQUESTS_PER_MINUTE] requests with a time stamp in any window
    [(t - RATE_LIMIT_WINDOW, t]]: a call keeps the stored time stamps
    younger than the window, rejects without writing when as many as the
    maximum are left, and otherwise appends the current time stamp and
    admits.  The limiter of index.ts is a counter in the store instead: a
    call resolves to whether the counter it read (0 after a storage fault
    during the increment) is at most 5, unless the counter is 1 and the
    [EXPIRE] that the check itself sends fails, in which case the promise
    is rejected with that fault. *)
Theorem sliding_window_bound_in_memory_only :
  (forall (cfg : Part002.Config) (events : list Part002.Event) (u : string) (t : Z),
     (0 <= Part002.MAX_REQUESTS_PER_MINUTE cfg)%Z ->
     Sorted Z.le (map Part002.event_time events) ->
     (Z.of_nat (List.length (Part002.in_window cfg u t (Part002.admitted cfg events ∅)))
      <= Part002.MAX_REQUESTS_PER_MINUTE cfg)%Z) /\
  (forall (cfg : Part002.Config) (now : Z) (u : string) (rl : gmap string (list Z)),
     let recent := filter (fun time => (now - time < Part002.RATE_LIMIT_WINDOW cfg)%Z)
                     (default [] (rl !! u)) in
     Part002.checkRateLimit cfg now u rl =
       if (Part002.MAX_REQUESTS_PER_MINUTE cfg <=? Z.of_nat (List.length recent))%Z
       then (false, rl) else (true, <[u := recent ++ [now]]> rl)) /\
  (forall (now : Z) (u : string) (b : IndexTs.RoastBot),
     exists count b1,
       IndexTs.incrementCounter now ("ratelimit:" +:+ u) b = (Return count, b1) /\
       ((exists b2, IndexTs.checkRateLimit now u b
                    = (Return (count <=? IndexTs.limit)%Z, b2)) \/
        (count = 1%Z /\ exists e b2, IndexTs.checkRateLimit now u b = (Throw e, b2)))).
Proof.
  split; [|split].
  - intros cfg events u t. apply admitted_from_empty.
  - reflexivity.
  - exact checkRateLimit_counts.
Qed.

Lemma sliding_window_bound_in_memory_only_witness :
  (Z.of_nat (List.length (Part002.in_window Scenarios.five_per_minute "u1" 60005
       (Part002.admitted Scenarios.five_per_minute Scenarios.burst_events ∅))) <= 5)%Z.
Proof.
  apply (proj1 sliding_window_bound_in_memory_only Scenarios.five_per_minute
           Scenarios.burst_events "u1" 60005%Z).
  - vm_compute. discriminate.
  - unfold Scenarios.burst_events, Scenarios.burst. simpl.
    repeat constructor; vm_compute; discriminate.
Defined.

(** C1, the claim as stated fails on index.ts: with no storage fault, user
    u1 is admitted nine times within one trailing 60 s window although the
    limit is 5, because the counter restarts when its key expires. *)
Lemma redis_counter_admits_nine_in_a_window :
  List.length (IndexTs.in_window "u1" 60005
                 (IndexTs.admitted Scenarios.burst (IndexTs.new_RoastBot 0))) = 9%nat /\
  (IndexTs.limit < 9)%Z.
Proof. split; vm_compute; reflexivity. Qed.

(** The scenario of the specification on the in-memory limiter: six calls of
    one user within ten seconds under a limit of five; the sixth is refused. *)
Example six_calls_in_ten_seconds :
  Part002.admitted Scenarios.five_per_minute
    [Part002.Check "u1" 0; Part002.Check "u1" 2000; Part002.Check "u1" 4000;
     Part002.Check "u1" 6000; Part002.Check "u1" 8000; Part002.Check "u1" 10000] ∅
  = [("u1", 0); ("u1", 2000); ("u1", 4000); ("u1", 6000); ("u1", 8000)]%Z.
Proof. vm_compute. reflexivity. Qed.

(** ** Mood *)

Lemma clamp_in_bounds (x : Q) :
  IndexTs.mood_in_bounds (Qmax IndexTs.minMoodLevel (Qmin IndexTs.maxMoodLevel x)).
Proof.
  unfold IndexTs.mood_in_bounds, IndexTs.minMoodLevel, IndexTs.maxMoodLevel. split.
  - apply Q.le_max_l.
  - apply Q.max_lub; [lra|]. apply Q.le_min_l.
Qed.

Lemma updateMood_mood s b :
  IndexTs.moodLevel (IndexTs.state (IndexTs.updateMood s b).2) =
  Qmax IndexTs.minMoodLevel
    (Qmin IndexTs.maxMoodLevel (IndexTs.moodLevel (IndexTs.state b) + s)).
Proof. reflexivity. Qed.

Lemma mood_trace_in_bounds sentiments : forall b,
  Forall IndexTs.mood_in_bounds (IndexTs.mood_trace sentiments b).
Proof.
  induction sentiments as [|s rest IH]; intros b; cbn [IndexTs.mood_trace].
  - constructor.
  - constructor; [|apply IH]. rewrite updateMood_mood. apply clamp_in_bounds.
Qed.

(** C2.  Starting from a mood in [-10, 10], the mood is in [-10, 10] at the
    start and after each call of any sequence of [updateMood] calls,
    whatever the sentiments are. *)
Theorem mood_always_in_bounds (b : IndexTs.RoastBot) (sentiments : list Q) :
  IndexTs.mood_in_bounds (IndexTs.moodLevel (IndexTs.state b)) ->
  Forall IndexTs.mood_in_bounds
    (IndexTs.moodLevel (IndexTs.state b) :: IndexTs.mood_trace sentiments b).
Proof. intros H0. constructor; [exact H0 | apply mood_trace_in_bounds]. Qed.

Lemma mood_always_in_bounds_witness :
  Forall IndexTs.mood_in_bounds
    (IndexTs.moodLevel (IndexTs.state (IndexTs.new_RoastBot 0))
       :: IndexTs.mood_trace [20; -0.5; -40; 3.5]%Q (IndexTs.new_RoastBot 0)).
Proof.
  apply (mood_always_in_bounds (IndexTs.new_RoastBot 0)).
  unfold IndexTs.mood_in_bounds. vm_compute. split; discriminate.
Defined.

Example mood_saturates :
  Forall2 Qeq (IndexTs.mood_trace [20; -0.5; -40; 3.5]%Q (IndexTs.new_RoastBot 0))
    [10; 9.5; -10; -6.5]%Q.
Proof. repeat constructor. Qed.

(** ** Sentiment *)

Lemma clamp_unit_range (x : Q) :
  (-1 <= Qmax (Qmin x 1) (-1) /\ Qmax (Qmin x 1) (-1) <= 1)%Q.
Proof.
  split.
  - apply Q.le_max_r.
  - apply Q.max_lub; [apply Q.le_min_r | lra].
Qed.

(** One word moves the running sum of [analyzeSentiment] by at most 0.5: no
    word is in both lists. *)
Lemma index_score_word_step acc w :
  (Qabs (IndexTs.score_word acc w) <= Qabs acc + 0.5)%Q.
Proof.
  unfold IndexTs.score_word.
  destruct (arr_includes IndexTs.positiveWords w) eqn:Hp;
    destruct (arr_includes IndexTs.negativeWords w) eqn:Hn.
  - exfalso. unfold arr_includes, IndexTs.positiveWords, IndexTs.negativeWords in *.
    simpl in Hp, Hn.
    repeat match goal with
    | H : context [String.eqb w ?s] |- _ =>
        destruct (String.eqb_spec w s); [subst; simpl in *; try discriminate|]
    end; simpl in *; discriminate.
  - apply Qabs_case; intros; apply Qabs_case; intros; lra.
  - apply Qabs_case; intros; apply Qabs_case; intros; lra.
  - apply Qabs_case; intros; lra.
Qed.

Lemma index_fold_bound words : forall acc,
  (Qabs (fold_left IndexTs.score_word words acc)
     <= Qabs acc + 0.5 * inject_Z (Z.of_nat (List.length words)))%Q.
Proof.
  induction words as [|w ws IH]; intros acc.
  - cbn [fold_left List.length]. change (inject_Z (Z.of_nat 0)) with 0%Q.
    generalize (Qabs acc). intros a. lra.
  - cbn [fold_left List.length]. eapply Qle_trans; [apply IH|].
    pose proof (index_score_word_step acc w) as Hs.
    rewrite Nat2Z.inj_succ, <- Z.add_1_r, inject_Z_plus.
    change (inject_Z 1) with 1%Q.
    revert Hs. generalize (Qabs (IndexTs.score_word acc w)) (Qabs acc)
      (inject_Z (Z.of_nat (List.length ws))). intros a b c Hs. lra.
Qed.

(** C3 (as amended).  [calculateSentiment] of utils.ts (hits of weight 0.2)
    clamps its sum: for every text the score lies in [-1, 1].
    [analyzeSentiment] of index.ts (hits of weight 0.5) returns the sum
    unclamped: its absolute value is bounded by half the number of words of
    the text. *)
Theorem sentiment_clamped_by_utils_not_by_index :
  (forall text : string,
     (-1 <= Part004.calculateSentiment text /\ Part004.calculateSentiment text <= 1)%Q) /\
  (forall content : string,
     (Qabs (IndexTs.analyzeSentiment content)
        <= 0.5 * inject_Z (Z.of_nat (List.length (split_char " " (toLowerCase content)))))%Q).
Proof.
  split.
  - intros text. unfold Part004.calculateSentiment. apply clamp_unit_range.
  - intros content. unfold IndexTs.analyzeSentiment.
    eapply Qle_trans; [apply index_fold_bound|].
    change (Qabs 0) with 0%Q. lra.
Qed.

(** C3, the claim as stated fails on index.ts: three positive words score
    1.5, which is outside [-1, 1]. *)
Lemma analyzeSentiment_exceeds_one :
  (IndexTs.analyzeSentiment "great great great" == 1.5)%Q /\
  ~ (-1 <= IndexTs.analyzeSentiment "great great great"
     /\ IndexTs.analyzeSentiment "great great great" <= 1)%Q.
Proof.
  split; [reflexivity|]. intros [_ H]. vm_compute in H. apply H. reflexivity.
Qed.

Example sentiment_of_the_scenario :
  (Part004.calculateSentiment "this is great and awesome" == 0.4)%Q /\
  (IndexTs.analyzeSentiment "this is great and awesome" == 1)%Q.
Proof. split; vm_compute; reflexivity. Qed.

(** ** Validation *)

Lemma z_string_min_max_accept lo hi s :
  (lo <= String.length s)%nat -> (String.length s <= hi)%nat ->
  z_string_min_max lo hi (VString s) = Return s.
Proof.
  intros Hlo Hhi. unfold z_string_min_max.
  apply Nat.leb_le in Hlo, Hhi. by rewrite Hlo, Hhi.
Qed.

Lemma z_string_min_max_reject lo hi s :
  (String.length s < lo \/ hi < String.length s)%nat ->
  z_string_min_max lo hi (VString s) = Throw ZodError.
Proof.
  intros H. unfold z_string_min_max.
  destruct (Nat.leb_spec lo (String.length s)), (Nat.leb_spec (String.length s) hi);
    simpl; try done; lia.
Qed.

Lemma part002_parse_reject now fs c :
  field "content" fs = VString c ->
  (String.length c < 1 \/ 2000 < String.length c)%nat ->
  Part002.MessageSchema_parse now (VObject fs) = Throw ZodError.
Proof.
  intros Hc Hlen. unfold Part002.MessageSchema_parse.
  rewrite Hc, (z_string_min_max_reject 1 2000 c Hlen). done.
Qed.

Lemma roastbot2_parse_reject fs c :
  field "content" fs = VString c ->
  (String.length c < 1 \/ 1000 < String.length c)%nat ->
  RoastBot2.MessageSchema_parse (VObject fs) = Throw ZodError.
Proof.
  intros Hc Hlen. unfold RoastBot2.MessageSchema_parse.
  rewrite Hc, (z_string_min_max_reject 1 1000 c Hlen). done.
Qed.

(** C4 (as amended).  The schema of part_002 accepts a message whose content
    has 1 to 2000 characters, so one of exactly 2000, and rejects with a
    [ZodError] a content of length 0 or above 2000, so one of 2001;
    [handleMessage] then answers with its error text, having written
    nothing but the log entry (no rate-limit entry, no metrics).  The schema
    of roastbot2.ts caps the content at 1000 characters: it accepts 1 to
    1000 and rejects everything longer, a content of 2000 included. *)
Theorem content_length_boundary :
  (forall now c u n, (1 <= String.length c <= 2000)%nat ->
     Part002.MessageSchema_parse now (message_of c u n) =
     Return {| Part002.content := c; Part002.userId := u; Part002.userName := n;
               Part002.mentions := None; Part002.timestamp := inject_Z now |}) /\
  (forall cfg env fs c b, field "content" fs = VString c ->
     (String.length c = 0 \/ 2000 < String.length c)%nat ->
     Part002.MessageSchema_parse (Part002.now_schema env) (VObject fs) = Throw ZodError /\
     Part002.handleMessage cfg env (VObject fs) b =
     (Return Part002.error_reply,
      Part002.logged (LogError "Message handling error:" ZodError) b)) /\
  (forall c u n, (1 <= String.length c <= 1000)%nat ->
     RoastBot2.MessageSchema_parse (message_of c u n) =
     Return {| RoastBot2.content := c; RoastBot2.userId := u; RoastBot2.userName := n |}) /\
  (forall fs c, field "content" fs = VString c ->
     (String.length c = 0 \/ 1000 < String.length c)%nat ->
     RoastBot2.MessageSchema_parse (VObject fs) = Throw ZodError).
Proof.
  repeat split.
  - intros now c u n [Hlo Hhi]. unfold Part002.MessageSchema_parse, message_of.
    cbn [field String.eqb Ascii.eqb Bool.eqb].
    rewrite (z_string_min_max_accept 1 2000 c Hlo Hhi). reflexivity.
  - apply (part002_parse_reject _ fs c); [done | lia].
  - unfold Part002.handleMessage, try_catch, bind, lift.
    rewrite (part002_parse_reject _ fs c) by (done || lia). reflexivity.
  - intros c u n [Hlo Hhi]. unfold RoastBot2.MessageSchema_parse, message_of.
    cbn [field String.eqb Ascii.eqb Bool.eqb].
    rewrite (z_string_min_max_accept 1 1000 c Hlo Hhi). reflexivity.
  - intros fs c Hc Hlen. apply (roastbot2_parse_reject fs c); [done | lia].
Qed.

Lemma content_length_boundary_witness :
  Part002.MessageSchema_parse 7 (message_of (repeat_char "a" 2000) "123" "TestUser") =
    Return {| Part002.content := repeat_char "a" 2000; Part002.userId := "123";
              Part002.userName := "TestUser"; Part002.mentions := None;
              Part002.timestamp := inject_Z 7 |} /\
  Part002.MessageSchema_parse 7 (message_of (repeat_char "a" 2001) "123" "TestUser") =
    Throw ZodError /\
  Part002.MessageSchema_parse 7 (message_of EmptyString "123" "TestUser") = Throw ZodError /\
  RoastBot2.MessageSchema_parse (message_of (repeat_char "a" 1000) "123" "TestUser") =
    Return {| RoastBot2.content := repeat_char "a" 1000; RoastBot2.userId := "123";
              RoastBot2.userName := "TestUser" |} /\
  RoastBot2.MessageSchema_parse (message_of (repeat_char "a" 1001) "123" "TestUser") =
    Throw ZodError.
Proof.
  destruct content_length_boundary as (Hacc & Hrej & Hacc2 & Hrej2).
  split; [apply Hacc; vm_compute; lia|].
  split; [apply (Hrej Part002.CONFIG Scenarios.backend_down _ (repeat_char "a" 2001)
                   Part002.new_RoastBot);
          [reflexivity | right; vm_compute; lia]|].
  split; [apply (Hrej Part002.CONFIG Scenarios.backend_down _ EmptyString Part002.new_RoastBot);
          [reflexivity | left; reflexivity]|].
  split; [apply Hacc2; vm_compute; lia|].
  apply (Hrej2 _ (repeat_char "a" 1001)); [reflexivity | right; vm_compute; lia].
Defined.

(** C4, the claim as stated fails on roastbot2.ts: a content of exactly 2000
    characters is rejected by its schema. *)
Lemma roastbot2_rejects_length_2000 :
  String.length (repeat_char "a" 2000) = 2000%nat /\
  RoastBot2.MessageSchema_parse (message_of (repeat_char "a" 2000) "123" "TestUser") =
    Throw ZodError.
Proof. split; vm_compute; reflexivity. Qed.

(** ** Response composition *)

(** On the trait table of part_002 the selection always finds a trait: the
    technical trait declares no condition, so the search stops there at the
    latest. *)
Lemma select_on_table st analysis :
  Part002.personality st = Part002.PERSONALITY_TRAITS ->
  exists trait, Part002.selectPersonalityTrait st analysis = Some trait /\
    trait ∈ Part002.PERSONALITY_TRAITS /\
    (Part002.name trait = "sarcastic" \/ Part002.name trait = "technical").
Proof.
  intros Hp. unfold Part002.selectPersonalityTrait. rewrite Hp.
  unfold Part002.PERSONALITY_TRAITS. cbn [List.find].
  destruct (Part002.trait_passes _ _) eqn:H1.
  - eexists. split; [reflexivity|]. split; [apply list_elem_of_here | by left].
  - change (Part002.trait_passes (Part002.sentiment analysis)
              {| Part002.name := "technical"; Part002.level := 0.7;
                 Part002.responses := _; Part002.conditions := None |}) with true.
    cbn iota. eexists. split; [reflexivity|].
    split; [apply list_elem_of_further, list_elem_of_here | by right].
Qed.

Lemma table_has_first_template trait :
  trait ∈ Part002.PERSONALITY_TRAITS ->
  exists template, head (Part002.responses trait) = Some template.
Proof.
  unfold Part002.PERSONALITY_TRAITS. intros H.
  repeat (apply elem_of_cons in H as [->|H]; [eexists; reflexivity|]).
  by apply elem_of_nil in H.
Qed.

(** On the table of part_002 the choice is between the first two traits:
    the sarcastic one passes when the sentiment is within its two bounds,
    the technical one, which declares none, otherwise. *)
Lemma select_on_table_by_sentiment st analysis :
  Part002.personality st = Part002.PERSONALITY_TRAITS ->
  Part002.name <$> Part002.selectPersonalityTrait st analysis =
    Some (if Qle_bool (-0.5) (Part002.sentiment analysis)
             && Qle_bool (Part002.sentiment analysis) 0.5
          then "sarcastic" else "technical").
Proof.
  intros Hp. unfold Part002.selectPersonalityTrait. rewrite Hp.
  unfold Part002.PERSONALITY_TRAITS. cbn [List.find].
  unfold Part002.trait_passes at 1.
  cbn [Part002.bound_of Part002.conditions Part002.minSentiment Part002.maxSentiment].
  change (truthyQ (Some (-0.5)%Q)) with true. change (truthyQ (Some 0.5%Q)) with true.
  cbn [negb orb].
  destruct (Qle_bool (-0.5) (Part002.sentiment analysis)
            && Qle_bool (Part002.sentiment analysis) 0.5); reflexivity.
Qed.

(** C5 (as amended).  On the bot of part_002 (whose trait set is the
    constant table), for every message and analysis: when the call to the
    generative backend fails, [generateResponse] does not throw; it logs the
    failure and returns the first template of the selected trait in which
    the first [{userName}] is replaced by the constant "developer" and the
    first [{topic}] by "coding".  The message is not used and every other
    placeholder stays as written, so the reply is one of two fixed texts:
    the sarcastic one when the sentiment is within [-0.5, 0.5], the
    technical one otherwise. *)
Theorem backend_failure_gives_fallback
    (cfg : Part002.Config) (env : Part002.Env) (message : Part002.Message)
    (analysis : Part002.NLPAnalysis) (b : Part002.Bot) (e : Error) :
  Part002.personality (Part002.state b) = Part002.PERSONALITY_TRAITS ->
  (forall request, Part002.openai_create env request = Throw e) ->
  (exists trait template,
     Part002.selectPersonalityTrait (Part002.state b) analysis = Some trait /\
     head (Part002.responses trait) = Some template /\
     Part002.generateResponse cfg env message analysis b =
       (Return (replace "{topic}" "coding" (replace "{userName}" "developer" template)),
        Part002.logged (LogError "Response generation error:" e) b)) /\
  Part002.generateResponse cfg env message analysis b =
    (Return (if Qle_bool (-0.5) (Part002.sentiment analysis)
                && Qle_bool (Part002.sentiment analysis) 0.5
             then Part002.sarcastic_fallback else Part002.technical_fallback),
     Part002.logged (LogError "Response generation error:" e) b).
Proof.
  intros Hp Hfail.
  destruct (select_on_table (Part002.state b) analysis Hp) as (trait & Hsel & Hin & _).
  destruct (table_has_first_template trait Hin) as (template & Hhd).
  assert (Part002.generateResponse cfg env message analysis b =
            (Return (replace "{topic}" "coding" (replace "{userName}" "developer" template)),
             Part002.logged (LogError "Response generation error:" e) b)) as Hgen.
  { unfold Part002.generateResponse, bind, get, lift, try_catch.
    rewrite Hsel. cbn [Part002.selectResponseTemplate Part002.trait_name].
    rewrite Hfail. cbn [Part002.logger_error modify].
    unfold Part002.getFallbackResponse, index. cbn [Z.ltb Z.compare Z.to_nat].
    destruct (Part002.responses trait) as [|r rs]; [discriminate|].
    injection Hhd as ->. reflexivity. }
  split; [by exists trait, template|].
  rewrite Hgen. f_equal. f_equal.
  pose proof (select_on_table_by_sentiment (Part002.state b) analysis Hp) as Hname.
  rewrite Hsel in Hname. cbn [fmap option_fmap option_map] in Hname.
  unfold Part002.PERSONALITY_TRAITS in Hin.
  destruct (Qle_bool (-0.5) (Part002.sentiment analysis)
            && Qle_bool (Part002.sentiment analysis) 0.5);
    repeat (apply elem_of_cons in Hin as [->|Hin];
            [first [discriminate Hname
                   | injection Hhd as <-; vm_compute; reflexivity]|]);
    by apply elem_of_nil in Hin.
Qed.

Lemma backend_failure_gives_fallback_witness :
  (exists trait template,
     Part002.selectPersonalityTrait (Part002.state Part002.new_RoastBot)
       (Scenarios.with_sentiment 0.9) = Some trait /\
     head (Part002.responses trait) = Some template /\
     Part002.generateResponse Part002.CONFIG Scenarios.backend_down Scenarios.test_message
       (Scenarios.with_sentiment 0.9) Part002.new_RoastBot =
       (Return (replace "{topic}" "coding" (replace "{userName}" "developer" template)),
        Part002.logged (LogError "Response generation error:" (ExternalError "openai"))
          Part002.new_RoastBot)) /\
  Part002.generateResponse Part002.CONFIG Scenarios.backend_down Scenarios.test_message
    (Scenarios.with_sentiment 0.9) Part002.new_RoastBot =
    (Return (if Qle_bool (-0.5) (Part002.sentiment (Scenarios.with_sentiment 0.9))
                && Qle_bool (Part002.sentiment (Scenarios.with_sentiment 0.9)) 0.5
             then Part002.sarcastic_fallback else Part002.technical_fallback),
     Part002.logged (LogError "Response generation error:" (ExternalError "openai"))
       Part002.new_RoastBot).
Proof.
  apply (backend_failure_gives_fallback Part002.CONFIG Scenarios.backend_down
           Scenarios.test_message (Scenarios.with_sentiment 0.9) Part002.new_RoastBot
           (ExternalError "openai")).
  - reflexivity.
  - intros request. reflexivity.
Defined.

(** C5, the claim as stated fails: with the backend down and a sentiment of
    0.9 the reply to TestUser is the technical template as it is written,
    [{language}] and [{pattern}] still in it; and with a sentiment of 0 the
    name filled in is the constant "developer", not the name of the user. *)
Lemma fallback_leaves_placeholders_unfilled :
  (exists text,
     (Part002.generateResponse Part002.CONFIG Scenarios.backend_down Scenarios.test_message
        (Scenarios.with_sentiment 0.9) Part002.new_RoastBot).1 = Return text /\
     includes text "{language}" = true /\ includes text "{pattern}" = true) /\
  (exists text,
     (Part002.generateResponse Part002.CONFIG Scenarios.backend_down Scenarios.test_message
        (Scenarios.with_sentiment 0) Part002.new_RoastBot).1 = Return text /\
     includes text "developer" = true /\
     includes text (Part002.userName Scenarios.test_message) = false).
Proof.
  split; eexists; (split; [vm_compute; reflexivity|]); split; vm_compute; reflexivity.
Qed.

(** ** Trait selection *)

Lemma find_first_passing {A} (p : A -> bool) (l : list A) :
  match List.find p l with
  | Some t => exists pre post, l = pre ++ t :: post /\ p t = true /\
                               Forall (fun x => p x = false) pre
  | None => Forall (fun x => p x = false) l
  end.
Proof.
  induction l as [|x l IH]; simpl.
  - constructor.
  - destruct (p x) eqn:Hx.
    + exists [], l. repeat split; [done | constructor].
    + destruct (List.find p l) as [t|].
      * destruct IH as (pre & post & -> & Ht & Hpre).
        exists (x :: pre), post. repeat split; [done | by constructor].
      * by constructor.
Qed.

Lemma truthyQ_spec (o : option Q) :
  truthyQ o = true <-> exists q, o = Some q /\ ~ (q == 0)%Q.
Proof.
  unfold truthyQ. destruct o as [q|].
  - rewrite negb_true_iff. split.
    + intros H. exists q. split; [done|]. intros Hq. apply Qeq_bool_iff in Hq. congruence.
    + intros (q' & [= <-] & Hq). destruct (Qeq_bool q 0) eqn:E; [|done].
      apply Qeq_bool_iff in E. contradiction.
  - split; [discriminate | intros (q & ? & _); discriminate].
Qed.

Lemma bound_check_spec (o : option Q) (ok : Q -> bool) :
  negb (truthyQ o) || match o with Some b => ok b | None => false end = true <->
  (forall b, o = Some b -> ~ (b == 0)%Q -> ok b = true).
Proof.
  destruct (truthyQ o) eqn:Ht; simpl.
  - apply truthyQ_spec in Ht as (q & -> & Hq). split.
    + intros H b [= <-] _. exact H.
    + intros H. by apply H.
  - split; [|done]. intros _ b -> Hb.
    assert (truthyQ (Some b) = true) by (apply truthyQ_spec; eauto). congruence.
Qed.

Lemma trait_passes_spec (s : Q) (t : Part002.PersonalityTrait) :
  Part002.trait_passes s t = true <->
  (forall lo, Part002.bound_of Part002.minSentiment t = Some lo ->
              ~ (lo == 0)%Q -> (lo <= s)%Q) /\
  (forall hi, Part002.bound_of Part002.maxSentiment t = Some hi ->
              ~ (hi == 0)%Q -> (s <= hi)%Q).
Proof.
  unfold Part002.trait_passes. rewrite andb_true_iff, !bound_check_spec.
  split; intros [H1 H2]; (split; [intros b Hb Hz; specialize (H1 b Hb Hz)
                                |intros b Hb Hz; specialize (H2 b Hb Hz)]);
    by apply Qle_bool_iff.
Qed.

(** On a trait that declares no bound equal to 0 the test of the code is
    the test of the policy: every declared bound is satisfied by the
    sentiment.  A trait of part_002 cannot declare a sensitivity
    requirement, so the profile and the way a requirement would be read
    make no difference. *)
Lemma passes_iff_conditions_hold reading (s p : Q) (t : Part002.PersonalityTrait) :
  Part002.no_zero_bound t = true ->
  Part002.trait_passes s t = Policy.satisfied reading s p (Policy.of_part002 t).
Proof.
  unfold Part002.no_zero_bound, Part002.trait_passes, Policy.satisfied, Policy.of_part002.
  cbn [Part004.conditions Part004.minSentiment Part004.maxSentiment Part004.userSensitivity
       Policy.bound_ok].
  rewrite andb_true_r.
  destruct (Part002.bound_of Part002.minSentiment t) as [lo|],
           (Part002.bound_of Part002.maxSentiment t) as [hi|];
    cbn [Part002.bound_is_zero truthyQ Policy.bound_ok negb orb andb];
    intros Hz; repeat (apply andb_true_iff in Hz as [? Hz]);
    repeat match goal with
           | H : negb (Qeq_bool ?q 0) = true |- _ => rewrite H; clear H
           end; reflexivity.
Qed.

Lemma find_of_part002 reading (s p : Q) (l : list Part002.PersonalityTrait) :
  forallb Part002.no_zero_bound l = true ->
  Policy.of_part002 <$> List.find (Part002.trait_passes s) l
  = List.find (Policy.satisfied reading s p) (map Policy.of_part002 l).
Proof.
  induction l as [|x l IH]; [reflexivity|].
  cbn [forallb map List.find]. intros [Hx Hl]%andb_true_iff.
  rewrite <- (passes_iff_conditions_hold reading s p x Hx).
  destruct (Part002.trait_passes s x); [reflexivity | by apply IH].
Qed.

(** C6.  For every analysis and every profile, [selectPersonalityTrait]
    goes through the trait set in its order and returns the first trait all
    of whose declared conditions are satisfied by the sentiment of the
    analysis and the sensitivity level of the profile; when no trait is so,
    it returns the first trait of the set, and it returns no trait only for
    an empty set: it is the selection of the policy.  The trait sets are
    those of part_002 that declare no bound equal to 0, as the table the bot
    is built with does. *)
Theorem select_first_trait_whose_conditions_hold
    (st : Part002.BotState) (analysis : Part002.NLPAnalysis)
    (reading : Policy.SensitivityReading) (sensitivityLevel : Q) :
  forallb Part002.no_zero_bound (Part002.personality st) = true ->
  let holds t :=
    Policy.satisfied reading (Part002.sentiment analysis) sensitivityLevel
      (Policy.of_part002 t) = true in
  match Part002.selectPersonalityTrait st analysis with
  | Some t =>
      (exists pre post, Part002.personality st = pre ++ t :: post /\
         holds t /\ Forall (fun x => ~ holds x) pre)
      \/ (Forall (fun x => ~ holds x) (Part002.personality st) /\
          head (Part002.personality st) = Some t)
  | None => Part002.personality st = []
  end /\
  Policy.of_part002 <$> Part002.selectPersonalityTrait st analysis
  = Policy.select reading (map Policy.of_part002 (Part002.personality st))
      (Part002.sentiment analysis) sensitivityLevel.
Proof.
  intros Hnz holds. subst holds. cbv beta.
  set (s := Part002.sentiment analysis).
  split; cycle 1.
  { unfold Part002.selectPersonalityTrait, Policy.select. fold s.
    rewrite <- (find_of_part002 reading s sensitivityLevel _ Hnz).
    destruct (List.find _ _); [reflexivity|].
    unfold index. cbn [Z.ltb Z.compare Z.to_nat].
    by destruct (Part002.personality st). }
  assert (forall l, forallb Part002.no_zero_bound l = true ->
            Forall (fun x => Part002.trait_passes s x = false) l ->
            Forall (fun x => ~ Policy.satisfied reading s sensitivityLevel
                                 (Policy.of_part002 x) = true) l) as Hfails.
  { induction l as [|x l IH]; intros Hl Hf; [constructor|].
    cbn [forallb] in Hl. apply andb_true_iff in Hl as [Hx Hl].
    apply Forall_cons in Hf as [Hfx Hf]. constructor; [|by apply IH].
    rewrite <- (passes_iff_conditions_hold reading s sensitivityLevel x Hx). congruence. }
  unfold Part002.selectPersonalityTrait. fold s.
  pose proof (find_first_passing (Part002.trait_passes s) (Part002.personality st)) as Hf.
  destruct (List.find _ _) as [t|].
  - left. destruct Hf as (pre & post & Heq & Ht & Hpre).
    rewrite Heq in Hnz. rewrite forallb_app in Hnz.
    apply andb_true_iff in Hnz as [Hnpre Hnpost].
    cbn [forallb] in Hnpost. apply andb_true_iff in Hnpost as [Hnt _].
    exists pre, post. split; [exact Heq|]. split.
    + by rewrite <- (passes_iff_conditions_hold reading s sensitivityLevel t Hnt).
    + by apply Hfails.
  - unfold index. cbn [Z.ltb Z.compare Z.to_nat].
    destruct (Part002.personality st) as [|t ts] eqn:Hp; [done|].
    right. split; [by apply Hfails | done].
Qed.

Lemma select_first_trait_whose_conditions_hold_witness :
  let holds t :=
    Policy.satisfied Policy.AtLeast (Part002.sentiment (Scenarios.with_sentiment 0.9)) 0.5
      (Policy.of_part002 t) = true in
  match Part002.selectPersonalityTrait Part002.initializeState
          (Scenarios.with_sentiment 0.9) with
  | Some t =>
      (exists pre post, Part002.personality Part002.initializeState = pre ++ t :: post /\
         holds t /\ Forall (fun x => ~ holds x) pre)
      \/ (Forall (fun x => ~ holds x) (Part002.personality Part002.initializeState) /\
          head (Part002.personality Part002.initializeState) = Some t)
  | None => Part002.personality Part002.initializeState = []
  end /\
  Policy.of_part002 <$> Part002.selectPersonalityTrait Part002.initializeState
                          (Scenarios.with_sentiment 0.9)
  = Policy.select Policy.AtLeast
      (map Policy.of_part002 (Part002.personality Part002.initializeState))
      (Part002.sentiment (Scenarios.with_sentiment 0.9)) 0.5.
Proof.
  apply (select_first_trait_whose_conditions_hold Part002.initializeState
           (Scenarios.with_sentiment 0.9) Policy.AtLeast 0.5).
  reflexivity.
Defined.

Example selection_on_the_table :
  Part002.name <$> Part002.selectPersonalityTrait Part002.initializeState
                     (Scenarios.with_sentiment 0) = Some "sarcastic" /\
  Part002.name <$> Part002.selectPersonalityTrait Part002.initializeState
                     (Scenarios.with_sentiment 0.9) = Some "technical" /\
  Part002.name <$> Part002.selectPersonalityTrait Part002.initializeState
                     (Scenarios.with_sentiment (-0.9)) = Some "technical".
Proof. repeat split; vm_compute; reflexivity. Qed.

(** ** The orchestrator *)

Lemma part002_handleMessage_returns cfg env message b :
  exists text b', Part002.handleMessage cfg env message b = (Return text, b').
Proof.
  unfold Part002.handleMessage. apply try_catch_returns.
  intros e s. eexists _, _. reflexivity.
Qed.

Lemma part002_throttled cfg env message m b :
  Part002.MessageSchema_parse (Part002.now_schema env) message = Return m ->
  (Part002.checkRateLimit cfg (Part002.now_rateLimit env) (Part002.userId m)
     (Part002.rateLimits b)).1 = false ->
  Part002.handleMessage cfg env message b = (Return Part002.throttle_notice, b).
Proof.
  intros Hparse Hrl.
  unfold Part002.handleMessage, try_catch, bind, lift, Part002.run_checkRateLimit.
  rewrite Hparse.
  unfold Part002.checkRateLimit in *.
  destruct (_ <=? _)%Z; [|discriminate]. simpl. by destruct b.
Qed.

Lemma index_handleMessage_returns env message b :
  exists r b', IndexTs.handleMessage env message b = (Return r, b') /\
    (r = None <->
     IndexTs.isUserInCooldown env (IndexTs.state b) (IndexTs.userId message) = true).
Proof.
  unfold IndexTs.handleMessage.
  match goal with |- context [try_catch ?c ?h b] =>
    destruct (try_catch_cases c h b) as [(a & s' & Hc & ->)|(e & s' & Hc & ->)] end.
  - exists a, s'. split; [done|].
    unfold bind, get in Hc.
    destruct (IndexTs.isUserInCooldown _ _ _); [by injection Hc as <- _|].
    destruct (startsWith _ _); [by injection Hc as <- _|].
    repeat match type of Hc with
    | context [match ?x with _ => _ end] => destruct x as [[?|?] ?] eqn:?; try discriminate
    end.
    unfold ret in Hc. injection Hc as <- _. done.
  - eexists _, _. split; [reflexivity|].
    unfold bind, get in Hc.
    destruct (IndexTs.isUserInCooldown _ _ _); [discriminate|].
    split; discriminate.
Qed.

(** C7 (as amended).  No error escapes [handleMessage], in part_002 and in
    index.ts alike.  In part_002 every path resolves to a text; on the
    rate-limited path it is the throttling notice, and the bot is left as it
    was.  In index.ts every path resolves to a text except the cooldown
    path, which resolves to [null]: the reply is [null] exactly when the
    user is in cooldown. *)
Theorem handleMessage_always_resolves :
  (forall cfg env message b,
     exists text b', Part002.handleMessage cfg env message b = (Return text, b')) /\
  (forall cfg env message m b,
     Part002.MessageSchema_parse (Part002.now_schema env) message = Return m ->
     (Part002.checkRateLimit cfg (Part002.now_rateLimit env) (Part002.userId m)
        (Part002.rateLimits b)).1 = false ->
     Part002.handleMessage cfg env message b = (Return Part002.throttle_notice, b)) /\
  (forall env message b,
     exists reply b', IndexTs.handleMessage env message b = (Return reply, b') /\
       (reply = None <->
        IndexTs.isUserInCooldown env (IndexTs.state b) (IndexTs.userId message) = true)).
Proof.
  split; [exact part002_handleMessage_returns|].
  split; [exact part002_throttled | exact index_handleMessage_returns].
Qed.

Lemma handleMessage_always_resolves_witness :
  Part002.handleMessage Scenarios.five_per_minute Scenarios.backend_down
    (message_of "Test message" "123" "TestUser") Scenarios.busy_bot
  = (Return Part002.throttle_notice, Scenarios.busy_bot).
Proof.
  apply (proj1 (proj2 handleMessage_always_resolves) Scenarios.five_per_minute
           Scenarios.backend_down (message_of "Test message" "123" "TestUser")
           Scenarios.test_message Scenarios.busy_bot).
  - reflexivity.
  - vm_compute. reflexivity.
Defined.

(** C7, the claim as stated fails on index.ts: a user who writes again one
    second after being answered is in cooldown and gets [null], no text. *)
Lemma cooldown_path_returns_null :
  (IndexTs.handleMessage (Scenarios.env_at 1000) Scenarios.hello (IndexTs.new_RoastBot 0)).1
    = Return (Some "Oh wow, TestUser, that's *totally* genius... 🙄") /\
  (IndexTs.handleMessage (Scenarios.env_at 2000) Scenarios.hello Scenarios.after_hello).1
    = Return None.
Proof. split; vm_compute; reflexivity. Qed.

Example backend_down_still_answers :
  (Part002.handleMessage Part002.CONFIG Scenarios.backend_down
     (message_of "Test message" "123" "TestUser") Part002.new_RoastBot).1
  = Return "Oh wow, developer, that code is *just perfect*... if you're trying to crash the server 🙄".
Proof. vm_compute. reflexivity. Qed.

(** ** The counter in the store *)

(** C8.  For every user, when a store command fails during the increment of
    the counter (the [try] block of [incrementCounter] throws), the
    rate-limit check resolves to [true], so the message is admitted, and the
    failure is written to the logger. *)
Theorem storage_fault_fails_open (now : Z) (userId : string) (b b1 : IndexTs.RoastBot)
    (e : Error) :
  IndexTs.incrementCounter_try now ("ratelimit:" +:+ userId) b = (Throw e, b1) ->
  IndexTs.checkRateLimit now userId b =
    (Return true, IndexTs.logged (LogError "Redis increment error:" e) b1).
Proof.
  intros Hfault.
  unfold IndexTs.checkRateLimit, IndexTs.incrementCounter, bind, try_catch.
  rewrite Hfault. reflexivity.
Qed.

Lemma storage_fault_fails_open_witness :
  IndexTs.checkRateLimit 1000 "u1" Scenarios.faulty_bot =
    (Return true,
     IndexTs.logged (LogError "Redis increment error:" (ExternalError "redis"))
       (IndexTs.new_RoastBot 0)).
Proof.
  apply (storage_fault_fails_open 1000 "u1" Scenarios.faulty_bot (IndexTs.new_RoastBot 0)).
  reflexivity.
Defined.

(** A fault of the [INCR] command itself is such a failure. *)
Lemma incr_fault_throws now key b rest :
  IndexTs.faults b = true :: rest ->
  IndexTs.incrementCounter_try now key b =
    (Throw (ExternalError "redis"),
     {| IndexTs.state := IndexTs.state b; IndexTs.redis := IndexTs.redis b;
        IndexTs.faults := rest; IndexTs.logger := IndexTs.logger b;
        IndexTs.console := IndexTs.console b |}).
Proof.
  intros Hf. unfold IndexTs.incrementCounter_try, bind, IndexTs.redis_command.
  rewrite Hf. reflexivity.
Qed.

(** ** Profile store *)

Lemma createNewUserProfile_spec cfg env u b :
  Part004.createNewUserProfile cfg env u b =
    (Return (Part004.new_profile cfg (Part004.Date_now env) u),
     Part004.created cfg env u (Part004.new_profile cfg (Part004.Date_now env) u) b).
Proof. reflexivity. Qed.

(** Whatever path [getUserProfile] takes, the profile it returns is the one
    the cache holds afterwards. *)
Lemma getUserProfile_caches cfg env u b :
  exists p b1, Part004.getUserProfile cfg env u b = (Return p, b1) /\
               Part004.userProfiles b1 !! u = Some p.
Proof.
  unfold Part004.getUserProfile, try_catch, bind, get, lift.
  destruct (Part004.userProfiles b !! u) as [cached|] eqn:Hc.
  - exists cached, b. by split.
  - destruct (Part004.redis_get env _) as [[[|c rest]|]|e].
    + rewrite createNewUserProfile_spec. eexists _, _. split; [reflexivity|].
      apply lookup_insert_eq.
    + destruct (Part004.JSON_parse env _) as [profile|e].
      * eexists _, _. split; [reflexivity|]. apply lookup_insert_eq.
      * eexists _, _. split; [reflexivity|]. apply lookup_insert_eq.
    + eexists _, _. split; [reflexivity|]. apply lookup_insert_eq.
    + eexists _, _. split; [reflexivity|]. apply lookup_insert_eq.
Qed.

Lemma getUserProfile_hit cfg env u b p :
  Part004.userProfiles b !! u = Some p ->
  Part004.getUserProfile cfg env u b = (Return p, b).
Proof.
  intros Hc. unfold Part004.getUserProfile, try_catch, bind, get. by rewrite Hc.
Qed.

(** C9.  When neither the cache nor the store holds a profile of the user,
    [getUserProfile] creates the default profile and returns it: it carries
    the user's id, an empty name, the configured default sensitivity, no
    past interaction, no preferred topic, the clock reading as last
    interaction, zero interactions, zero average sentiment and the three
    preferences at 0.5; it is cached under the user's id and sent to the
    store under the user's key with the configured expiry, and nothing is
    logged.  And for every user, every state of the bot and every behaviour
    of the store, a first call returns a profile and a second call, with
    nothing in between, returns the same profile and leaves the bot as the
    first call left it. *)
Theorem getUserProfile_default_and_idempotent :
  (forall cfg env u b,
     Part004.userProfiles b !! u = None ->
     Part004.redis_get env ("user:" +:+ u) = Return None ->
     exists p b1,
       Part004.getUserProfile cfg env u b = (Return p, b1) /\
       Part004.userId p = u /\
       Part004.userName p = EmptyString /\
       Part004.sensitivityLevel p = Part004.DEFAULT_SENSITIVITY_LEVEL cfg /\
       Part004.pastInteractions p = [] /\
       Part004.preferredTopics p = [] /\
       Part004.lastInteraction p = Part004.Date_now env /\
       Part004.totalInteractions p = 0%Z /\
       Part004.averageSentiment p = 0%Q /\
       Part004.witLevel (Part004.responsePreferences p) = 0.5%Q /\
       Part004.sarcasmLevel (Part004.responsePreferences p) = 0.5%Q /\
       Part004.technicalLevel (Part004.responsePreferences p) = 0.5%Q /\
       Part004.userProfiles b1 = <[u := p]> (Part004.userProfiles b) /\
       Part004.redis_sent b1 =
         Part004.redis_sent b ++
           [{| Part004.set_key := "user:" +:+ u;
               Part004.set_value := Part004.JSON_stringify env p;
               Part004.set_EX := Part004.USER_PROFILE_EXPIRY cfg |}] /\
       Part004.logger b1 = Part004.logger b) /\
  (forall cfg env1 env2 u b,
     exists p b1,
       Part004.getUserProfile cfg env1 u b = (Return p, b1) /\
       Part004.getUserProfile cfg env2 u b1 = (Return p, b1)).
Proof.
  split.
  - intros cfg env u b Hc Hr.
    exists (Part004.new_profile cfg (Part004.Date_now env) u),
           (Part004.created cfg env u (Part004.new_profile cfg (Part004.Date_now env) u) b).
    split.
    + unfold Part004.getUserProfile, try_catch, bind, get, lift. rewrite Hc, Hr.
      apply createNewUserProfile_spec.
    + cbn. repeat split.
  - intros cfg env1 env2 u b.
    destruct (getUserProfile_caches cfg env1 u b) as (p & b1 & H1 & Hcache).
    exists p, b1. split; [exact H1|]. by apply getUserProfile_hit.
Qed.

Lemma getUserProfile_default_and_idempotent_witness :
  exists p b1,
    Part004.getUserProfile Part004.CONFIG (Scenarios.empty_store 5) "user123"
      Scenarios.no_profiles = (Return p, b1) /\
    Part004.userId p = "user123" /\
    Part004.userName p = EmptyString /\
    Part004.sensitivityLevel p = Part004.DEFAULT_SENSITIVITY_LEVEL Part004.CONFIG /\
    Part004.pastInteractions p = [] /\
    Part004.preferredTopics p = [] /\
    Part004.lastInteraction p = Part004.Date_now (Scenarios.empty_store 5) /\
    Part004.totalInteractions p = 0%Z /\
    Part004.averageSentiment p = 0%Q /\
    Part004.witLevel (Part004.responsePreferences p) = 0.5%Q /\
    Part004.sarcasmLevel (Part004.responsePreferences p) = 0.5%Q /\
    Part004.technicalLevel (Part004.responsePreferences p) = 0.5%Q /\
    Part004.userProfiles b1 = <["user123" := p]> (Part004.userProfiles Scenarios.no_profiles) /\
    Part004.redis_sent b1 =
      Part004.redis_sent Scenarios.no_profiles ++
        [{| Part004.set_key := "user:" +:+ "user123";
            Part004.set_value := Part004.JSON_stringify (Scenarios.empty_store 5) p;
            Part004.set_EX := Part004.USER_PROFILE_EXPIRY Part004.CONFIG |}] /\
    Part004.logger b1 = Part004.logger Scenarios.no_profiles.
Proof.
  apply (proj1 getUserProfile_default_and_idempotent Part004.CONFIG (Scenarios.empty_store 5)
           "user123" Scenarios.no_profiles); reflexivity.
Defined.

(** The second call returns the first profile although the clock has moved. *)
Example second_get_returns_first_profile :
  let first := Part004.getUserProfile Part004.CONFIG (Scenarios.empty_store 5)
                 "user123" Scenarios.no_profiles in
  (Part004.getUserProfile Part004.CONFIG (Scenarios.empty_store 99) "user123" first.2).1
  = first.1.
Proof. reflexivity. Qed.

(** ** Commands *)

(** C10 (as amended).  For every message whose content starts with the
    prefix "!", [handleMessage] leaves the whole bot as it was: mood,
    short-term and long-term memory, trait levels and cooldowns.  When the
    user is not in cooldown the reply is the text of the command handler;
    when the user is in cooldown the reply is [null]. *)
Theorem command_answered_without_touching_state
    (env : IndexTs.Env) (message : IndexTs.Message) (b : IndexTs.RoastBot) :
  IndexTs.commandPrefix (IndexTs.state b) = "!" ->
  startsWith (IndexTs.content message) "!" = true ->
  IndexTs.handleMessage env message b =
    (Return (if IndexTs.isUserInCooldown env (IndexTs.state b) (IndexTs.userId message)
             then None
             else Some (IndexTs.handleCommand env (IndexTs.state b) message)),
     b).
Proof.
  intros Hprefix Hcmd. unfold IndexTs.handleMessage, try_catch, bind, get.
  destruct (IndexTs.isUserInCooldown _ _ _); [reflexivity|].
  rewrite Hprefix, Hcmd. reflexivity.
Qed.

Lemma command_answered_without_touching_state_witness :
  IndexTs.handleMessage (Scenarios.env_at 1000) Scenarios.mood_command
    (IndexTs.new_RoastBot 0) =
    (Return (Some "Current mood level: 0"), IndexTs.new_RoastBot 0).
Proof.
  apply (command_answered_without_touching_state (Scenarios.env_at 1000)
           Scenarios.mood_command (IndexTs.new_RoastBot 0)); reflexivity.
Defined.

(** C10, the claim as stated fails: a user in cooldown who sends "!mood"
    is not answered by the command handler but gets [null]. *)
Lemma command_in_cooldown_gets_null :
  startsWith (IndexTs.content Scenarios.mood_command) "!" = true /\
  (IndexTs.handleMessage (Scenarios.env_at 2000) Scenarios.mood_command
     Scenarios.after_hello).1 = Return None /\
  (IndexTs.handleMessage (Scenarios.env_at 2000) Scenarios.mood_command
     Scenarios.after_hello).1
    <> Return (Some (IndexTs.handleCommand (Scenarios.env_at 2000)
                       (IndexTs.state Scenarios.after_hello) Scenarios.mood_command)).
Proof.
  split; [reflexivity|]. split; [vm_compute; reflexivity|].
  vm_compute. discriminate.
Qed.

(** * Further properties of the code *)

(** ** index.ts: lexical analysis, memory, learning, cooldown *)

Lemma hits_cons lexicon w ws :
  IndexTs.hits lexicon (w :: ws) =
  ((if arr_includes lexicon w then 1 else 0) + IndexTs.hits lexicon ws)%nat.
Proof. unfold IndexTs.hits. simpl. by destruct (arr_includes lexicon w). Qed.

Lemma index_fold_counts words : forall acc,
  (fold_left IndexTs.score_word words acc ==
   acc + 0.5 * inject_Z (Z.of_nat (IndexTs.hits IndexTs.positiveWords words))
       - 0.5 * inject_Z (Z.of_nat (IndexTs.hits IndexTs.negativeWords words)))%Q.
Proof.
  induction words as [|w ws IH]; intros acc.
  - cbn [fold_left]. unfold IndexTs.hits. cbn [List.filter List.length].
    change (inject_Z (Z.of_nat 0)) with 0%Q. lra.
  - cbn [fold_left]. rewrite IH, !hits_cons. unfold IndexTs.score_word.
    rewrite !Nat2Z.inj_add, !inject_Z_plus.
    destruct (arr_includes IndexTs.positiveWords w), (arr_includes IndexTs.negativeWords w);
      cbv beta iota; change (Z.of_nat 1) with 1%Z; change (Z.of_nat 0) with 0%Z;
      change (inject_Z 1) with 1%Q; change (inject_Z 0) with 0%Q;
      generalize (inject_Z (Z.of_nat (IndexTs.hits IndexTs.positiveWords ws)))
                 (inject_Z (Z.of_nat (IndexTs.hits IndexTs.negativeWords ws)));
      intros p n; lra.
Qed.

(** X1.  The score of [analyzeSentiment] is half the difference between the
    number of positive and the number of negative words among the
    space-separated, lower-cased words of the content. *)
Theorem analyzeSentiment_counts_hits (content : string) :
  let words := split_char " " (toLowerCase content) in
  (IndexTs.analyzeSentiment content ==
   0.5 * (inject_Z (Z.of_nat (IndexTs.hits IndexTs.positiveWords words))
          - inject_Z (Z.of_nat (IndexTs.hits IndexTs.negativeWords words))))%Q.
Proof.
  intros words. unfold IndexTs.analyzeSentiment. fold words.
  rewrite index_fold_counts. lra.
Qed.

Lemma last_n_all {A} n (l : list A) : (List.length l <= n)%nat -> IndexTs.last_n n l = l.
Proof.
  intros H. unfold IndexTs.last_n.
  replace (List.length l - n)%nat with 0%nat by lia. done.
Qed.

Lemma shortTerm_step (all : list string) (c : string) :
  let pushed := IndexTs.last_n 10 all ++ [c] in
  (if (10 <? List.length pushed)%nat then tail pushed else pushed)
  = IndexTs.last_n 10 (all ++ [c]).
Proof.
  intros pushed. subst pushed. unfold IndexTs.last_n.
  rewrite !length_app, length_drop. simpl List.length.
  destruct (Nat.ltb_spec 10 (List.length all - (List.length all - 10) + 1)) as [Hlt|Hge].
  - assert (10 <= List.length all)%nat by lia.
    replace (List.length all + 1 - 10)%nat with (S (List.length all - 10)) by lia.
    rewrite drop_app_le by lia.
    destruct (drop (List.length all - 10) all) as [|x xs] eqn:Hd.
    + apply (f_equal List.length) in Hd. rewrite length_drop in Hd. simpl in Hd. lia.
    + simpl. f_equal.
      change xs with (drop 1 (x :: xs)). rewrite <- Hd, drop_drop. f_equal. lia.
  - replace (List.length all - 10)%nat with 0%nat by lia.
    replace (List.length all + 1 - 10)%nat with 0%nat by lia. done.
Qed.

Lemma remember_shortTerm messages : forall b hist,
  IndexTs.shortTerm (IndexTs.memory (IndexTs.state b)) = IndexTs.last_n 10 hist ->
  IndexTs.shortTerm (IndexTs.memory (IndexTs.state (IndexTs.remember messages b)))
  = IndexTs.last_n 10 (hist ++ map IndexTs.content messages).
Proof.
  induction messages as [|m rest IH]; intros b hist Hb.
  - simpl. by rewrite app_nil_r.
  - cbn [IndexTs.remember map].
    rewrite (IH _ (hist ++ [IndexTs.content m])).
    + by rewrite <- app_assoc.
    + cbn. rewrite Hb. apply shortTerm_step.
Qed.

(** X2.  The short-term memory is a sliding window: when it holds at most
    ten contents, then after [updateMemory] ran on any sequence of messages
    it holds the last ten of what it held followed by the new contents, in
    order of arrival. *)
Theorem shortTerm_keeps_last_ten (b : IndexTs.RoastBot) (messages : list IndexTs.Message) :
  (List.length (IndexTs.shortTerm (IndexTs.memory (IndexTs.state b))) <= 10)%nat ->
  IndexTs.shortTerm (IndexTs.memory (IndexTs.state (IndexTs.remember messages b)))
  = IndexTs.last_n 10 (IndexTs.shortTerm (IndexTs.memory (IndexTs.state b))
                         ++ map IndexTs.content messages).
Proof.
  intros Hlen. apply remember_shortTerm. by rewrite last_n_all.
Qed.

Lemma shortTerm_keeps_last_ten_witness :
  IndexTs.shortTerm (IndexTs.memory (IndexTs.state
    (IndexTs.remember (repeat Scenarios.hello 11 ++ [Scenarios.mood_command])
       (IndexTs.new_RoastBot 0))))
  = IndexTs.last_n 10
      ([] ++ map IndexTs.content (repeat Scenarios.hello 11 ++ [Scenarios.mood_command])).
Proof.
  apply (shortTerm_keeps_last_ten (IndexTs.new_RoastBot 0)). simpl. lia.
Defined.

(** X3.  The long-term memory counts messages per user name: after
    [updateMemory] ran on a sequence of messages, the count of every name
    has grown by the number of messages that carry it. *)
Theorem longTerm_counts_messages (messages : list IndexTs.Message) :
  forall (b : IndexTs.RoastBot) (n : string),
  default 0%Z (IndexTs.longTerm (IndexTs.memory (IndexTs.state (IndexTs.remember messages b))) !! n)
  = (default 0%Z (IndexTs.longTerm (IndexTs.memory (IndexTs.state b)) !! n)
     + IndexTs.said_by n messages)%Z.
Proof.
  induction messages as [|m rest IH]; intros b n.
  - unfold IndexTs.said_by. simpl. lia.
  - cbn [IndexTs.remember]. rewrite IH. unfold IndexTs.said_by. cbn [List.filter].
    cbn. destruct (String.eqb_spec (IndexTs.userName m) n) as [->|Hne].
    + rewrite lookup_insert_eq. simpl. lia.
    + rewrite lookup_insert_ne by done. lia.
Qed.

Lemma learn_trait_keeps rate analysis t :
  (0 <= rate)%Q ->
  IndexTs.name (IndexTs.learn_trait rate analysis t) = IndexTs.name t /\
  IndexTs.responses (IndexTs.learn_trait rate analysis t) = IndexTs.responses t /\
  (IndexTs.level t <= IndexTs.level (IndexTs.learn_trait rate analysis t))%Q.
Proof.
  intros Hr. unfold IndexTs.learn_trait. destruct (existsb _ _); simpl.
  - repeat split. lra.
  - repeat split. lra.
Qed.

(** X4.  With a non-negative learning rate, [learn] keeps the traits in
    place, with their names and templates, and never lowers a level; mood,
    memory and cooldowns are not touched. *)
Theorem learn_only_raises_levels (analysis : IndexTs.NLPAnalysis) (b : IndexTs.RoastBot) :
  (0 <= IndexTs.learningRate (IndexTs.state b))%Q ->
  let b' := (IndexTs.learn analysis b).2 in
  Forall2 (fun t t' => IndexTs.name t' = IndexTs.name t /\
                       IndexTs.responses t' = IndexTs.responses t /\
                       (IndexTs.level t <= IndexTs.level t')%Q)
    (IndexTs.personality (IndexTs.state b)) (IndexTs.personality (IndexTs.state b')) /\
  IndexTs.moodLevel (IndexTs.state b') = IndexTs.moodLevel (IndexTs.state b) /\
  IndexTs.memory (IndexTs.state b') = IndexTs.memory (IndexTs.state b) /\
  IndexTs.cooldowns (IndexTs.state b') = IndexTs.cooldowns (IndexTs.state b).
Proof.
  intros Hr b'. subst b'. cbn. split; [|done].
  induction (IndexTs.personality (IndexTs.state b)) as [|t ts IH]; simpl.
  - constructor.
  - constructor; [|exact IH]. by apply learn_trait_keeps.
Qed.

Lemma learn_only_raises_levels_witness :
  let b' := (IndexTs.learn Scenarios.hello_analysis (IndexTs.new_RoastBot 0)).2 in
  Forall2 (fun t t' => IndexTs.name t' = IndexTs.name t /\
                       IndexTs.responses t' = IndexTs.responses t /\
                       (IndexTs.level t <= IndexTs.level t')%Q)
    (IndexTs.personality (IndexTs.state (IndexTs.new_RoastBot 0)))
    (IndexTs.personality (IndexTs.state b')) /\
  IndexTs.moodLevel (IndexTs.state b') = IndexTs.moodLevel (IndexTs.state (IndexTs.new_RoastBot 0)) /\
  IndexTs.memory (IndexTs.state b') = IndexTs.memory (IndexTs.state (IndexTs.new_RoastBot 0)) /\
  IndexTs.cooldowns (IndexTs.state b') = IndexTs.cooldowns (IndexTs.state (IndexTs.new_RoastBot 0)).
Proof.
  apply (learn_only_raises_levels Scenarios.hello_analysis (IndexTs.new_RoastBot 0)).
  vm_compute. discriminate.
Defined.

(** X5.  After [setCooldown] stamped user [u], [isUserInCooldown] answers
    for [u] whether less than 30 s have passed since the stamp, except that
    a stamp of 0 counts as no stamp at all; the answer for every other user
    is what it was. *)
Theorem cooldown_lasts_thirty_seconds (env env' : IndexTs.Env) (u v : string)
    (b : IndexTs.RoastBot) :
  let stamp := IndexTs.now_setCooldown env in
  let b' := (IndexTs.setCooldown env u b).2 in
  IndexTs.isUserInCooldown env' (IndexTs.state b') v =
    if decide (v = u)
    then negb (stamp =? 0)%Z && (IndexTs.now_isUserInCooldown env' - stamp <? 30000)%Z
    else IndexTs.isUserInCooldown env' (IndexTs.state b) v.
Proof.
  intros stamp b'. subst b'. unfold IndexTs.isUserInCooldown. cbn.
  case_decide as Hv.
  - subst v. rewrite lookup_insert_eq. cbn. fold stamp.
    destruct (stamp =? 0)%Z; reflexivity.
  - by rewrite lookup_insert_ne.
Qed.

(** ** index.ts: input cleaning and learned templates *)





Lemma arr_includes_elem_of (arr : list string) (w : string) :
  arr_includes arr w = true <-> w ∈ arr.
Proof.
  unfold arr_includes. rewrite existsb_exists. split.
  - intros (x & Hin & Heq). apply String.eqb_eq in Heq. subst. by apply list_elem_of_In.
  - intros Hin. exists w. split; [by apply list_elem_of_In | apply String.eqb_refl].
Qed.

(** X11.  [generateNewResponses] always returns a trait, whatever the
    backend does: name and level are those of the given trait, the bot state
    is not touched, and the templates are either unchanged or extended at the
    end by one non-empty text that was not among them; templates without
    duplicates stay without duplicates. *)
Theorem generateNewResponses_only_appends_new
    (openai_create : Part002.ChatRequest -> Outcome (list (option string)))
    (st : IndexTs.EnhancedBotState) (trait : IndexTs.PersonalityTrait)
    (analysis : IndexTs.NLPAnalysis) (b : IndexTs.RoastBot) :
  exists trait' b',
    IndexTs.generateNewResponses openai_create st trait analysis b = (Return trait', b') /\
    IndexTs.name trait' = IndexTs.name trait /\
    IndexTs.level trait' = IndexTs.level trait /\
    IndexTs.state b' = IndexTs.state b /\
    (IndexTs.responses trait' = IndexTs.responses trait \/
     exists r, r <> EmptyString /\ (r ∉ IndexTs.responses trait) /\
               IndexTs.responses trait' = (IndexTs.responses trait ++ [r])) /\
    (NoDup (IndexTs.responses trait) -> NoDup (IndexTs.responses trait')).
Proof.
  unfold IndexTs.generateNewResponses, try_catch, bind, lift.
  destruct (openai_create _) as [[|[[|c r]|] rest]|e]; cbn.
  - eexists _, _. repeat split; auto.
  - eexists _, _. repeat split; auto.
  - destruct (arr_includes (IndexTs.responses trait) (String c r)) eqn:Hin; cbn.
    + eexists _, _. repeat split; auto.
    + assert (String c r ∉ IndexTs.responses trait) as Hnot.
      { intros H. apply arr_includes_elem_of in H. congruence. }
      eexists _, _. repeat split; cbn.
      * right. exists (String c r). repeat split; done.
      * intros Hnd. apply NoDup_app. repeat split; [done| |apply NoDup_singleton].
        intros x Hx ->%list_elem_of_singleton. done.
  - eexists _, _. repeat split; auto.
  - eexists _, _. repeat split; auto.
Qed.


(** ** index.ts: the answered path of [handleMessage] *)

Lemma string_app_empty_r (s : string) : s +:+ EmptyString = s.
Proof.
  induction s as [|c r IH]; [done|].
  change (String c r +:+ EmptyString) with (String c (r +:+ EmptyString)).
  by rewrite IH.
Qed.

Lemma random_index_in_range (r : Q) (n : nat) :
  (0 <= r)%Q -> (r < 1)%Q -> (0 < n)%nat ->
  (0 <= random_index r n < Z.of_nat n)%Z.
Proof.
  intros H0 H1 Hn. unfold random_index.
  assert (0 < inject_Z (Z.of_nat n))%Q as Hpos.
  { rewrite <- (Zlt_Qlt 0). lia. }
  split.
  - change 0%Z with (Qfloor 0). apply Qfloor_resp_le.
    apply Qmult_le_0_compat; [done | by apply Qlt_le_weak].
  - rewrite Zlt_Qlt. eapply Qle_lt_trans; [apply Qfloor_le|].
    apply Qlt_le_trans with (1 * inject_Z (Z.of_nat n))%Q.
    + by apply Qmult_lt_compat_r.
    + rewrite Qmult_1_l. apply Qle_refl.
Qed.

Lemma index_in_range {A} (l : list A) (i : Z) :
  (0 <= i < Z.of_nat (List.length l))%Z -> exists x, index l i = Some x /\ x ∈ l.
Proof.
  intros [H0 H1]. unfold index. destruct (Z.ltb_spec i 0); [lia|].
  destruct (l !! Z.to_nat i) as [x|] eqn:Hx.
  - exists x. split; [done|]. by eapply list_elem_of_lookup_2.
  - apply lookup_ge_None in Hx. lia.
Qed.

Lemma find_elem_of {A} (p : A -> bool) (l : list A) x :
  List.find p l = Some x -> x ∈ l.
Proof. intros H. apply find_some in H as [H _]. by apply list_elem_of_In. Qed.

Lemma index_select_some st analysis :
  IndexTs.healthy st ->
  exists t, IndexTs.selectPersonalityTrait st analysis = Some t /\ t ∈ IndexTs.personality st.
Proof.
  intros [Hne _]. unfold IndexTs.selectPersonalityTrait.
  destruct (List.find _ _) as [t|] eqn:Hf.
  - exists t. split; [done|]. by eapply find_elem_of.
  - destruct (IndexTs.personality st) as [|t ts]; [done|].
    exists t. split; [done | apply list_elem_of_here].
Qed.

Lemma learn_keeps_responses rate analysis ts :
  Forall (fun t => IndexTs.responses t <> []) ts ->
  Forall (fun t => IndexTs.responses t <> []) (map (IndexTs.learn_trait rate analysis) ts).
Proof.
  intros H. induction H as [|t ts Ht Hts IH]; simpl; constructor; [|exact IH].
  unfold IndexTs.learn_trait. by destruct (existsb _ _).
Qed.

Lemma applyMoodModifier_some st r :
  IndexTs.applyMoodModifier st (Some r) = Some (r +:+ IndexTs.mood_suffix st).
Proof.
  unfold IndexTs.applyMoodModifier, IndexTs.mood_suffix.
  destruct (Qlt_le_dec 5 _); [done|]. destruct (Qlt_le_dec _ (-5)); [done|].
  by rewrite string_app_empty_r.
Qed.

Lemma prepared_healthy m b :
  IndexTs.healthy (IndexTs.state b) -> IndexTs.healthy (IndexTs.state (IndexTs.prepared m b)).
Proof.
  intros [Hne Hall]. unfold IndexTs.prepared, IndexTs.healthy. cbn. split.
  - destruct (IndexTs.personality (IndexTs.state b)); [done|]. discriminate.
  - by apply learn_keeps_responses.
Qed.

(** A message that is neither ignored nor a command runs the whole
    pipeline: the reply is a template of a trait of the prepared state, and
    the bot left behind is the prepared one with the user stamped. *)
Lemma answered_path (env : IndexTs.Env) (m : IndexTs.Message) (b : IndexTs.RoastBot) :
  IndexTs.healthy (IndexTs.state b) ->
  IndexTs.fair_draw env ->
  IndexTs.isUserInCooldown env (IndexTs.state b) (IndexTs.userId m) = false ->
  startsWith (IndexTs.content m) (IndexTs.commandPrefix (IndexTs.state b)) = false ->
  exists trait template,
    trait ∈ IndexTs.personality (IndexTs.state (IndexTs.prepared m b)) /\
    template ∈ IndexTs.responses trait /\
    IndexTs.handleMessage env m b =
      (Return (Some (replace "{userName}" (IndexTs.userName m)
                       (template +:+ IndexTs.mood_suffix (IndexTs.state (IndexTs.prepared m b))))),
       (IndexTs.setCooldown env (IndexTs.userId m) (IndexTs.prepared m b)).2).
Proof.
  intros Hh [Hr0 Hr1] Hcool Hcmd.
  pose proof (prepared_healthy m b Hh) as Hh3.
  set (a := IndexTs.analysis_of (IndexTs.content m)).
  destruct (index_select_some (IndexTs.state (IndexTs.prepared m b)) a Hh3) as (t & Hsel & Hin).
  assert (IndexTs.responses t <> []) as Hresp.
  { destruct Hh3 as [_ Hall]. rewrite Forall_forall in Hall. by apply Hall. }
  destruct (index_in_range (IndexTs.responses t)
              (random_index (IndexTs.Math_random env) (List.length (IndexTs.responses t))))
    as (template & Hidx & Htin).
  { apply random_index_in_range; [done..|].
    destruct (IndexTs.responses t); [done | simpl; lia]. }
  exists t, template. split; [exact Hin|]. split; [exact Htin|].
  unfold IndexTs.handleMessage, try_catch, bind, get. rewrite Hcool, Hcmd.
  change (IndexTs.analyzeMessage (IndexTs.content m) b) with (Return a, b).
  cbn beta iota.
  change (IndexTs.updateMood (IndexTs.sentiment a) b) with
    (Return tt, (IndexTs.updateMood (IndexTs.sentiment a) b).2).
  cbn beta iota.
  change (IndexTs.updateMemory m (IndexTs.updateMood (IndexTs.sentiment a) b).2) with
    (Return tt, (IndexTs.updateMemory m (IndexTs.updateMood (IndexTs.sentiment a) b).2).2).
  cbn beta iota.
  change (IndexTs.learn a (IndexTs.updateMemory m
             (IndexTs.updateMood (IndexTs.sentiment a) b).2).2) with
    (Return tt, IndexTs.prepared m b).
  cbn beta iota.
  unfold IndexTs.generateResponse, bind, get, lift. rewrite Hsel.
  unfold IndexTs.getRandomResponse. rewrite Hidx. rewrite applyMoodModifier_some.
  unfold ret, IndexTs.setCooldown, modify. cbn beta iota. reflexivity.
Qed.

(** X6.  A message of a user who is not cooling down, and that is not a
    command, is answered when every trait has a template and the random draw
    is in [0, 1): the reply is a template of one of the bot's traits, followed
    by the mood mark of the new state, with the user's name filled in; the
    mood moved by the sentiment of the content, clamped to its bounds; the
    user is stamped with the clock; nothing is written to the console, and
    the new state can answer again. *)
Theorem answered_message_effects (env : IndexTs.Env) (m : IndexTs.Message)
    (b : IndexTs.RoastBot) :
  IndexTs.healthy (IndexTs.state b) ->
  IndexTs.fair_draw env ->
  IndexTs.isUserInCooldown env (IndexTs.state b) (IndexTs.userId m) = false ->
  startsWith (IndexTs.content m) (IndexTs.commandPrefix (IndexTs.state b)) = false ->
  exists trait template b',
    IndexTs.handleMessage env m b =
      (Return (Some (replace "{userName}" (IndexTs.userName m)
                       (template +:+ IndexTs.mood_suffix (IndexTs.state b')))), b') /\
    trait ∈ IndexTs.personality (IndexTs.state b') /\
    template ∈ IndexTs.responses trait /\
    IndexTs.moodLevel (IndexTs.state b') =
      Qmax IndexTs.minMoodLevel
        (Qmin IndexTs.maxMoodLevel
           (IndexTs.moodLevel (IndexTs.state b) + IndexTs.analyzeSentiment (IndexTs.content m))) /\
    IndexTs.cooldowns (IndexTs.state b') =
      <[IndexTs.userId m := IndexTs.now_setCooldown env]> (IndexTs.cooldowns (IndexTs.state b)) /\
    IndexTs.console b' = IndexTs.console b /\
    IndexTs.healthy (IndexTs.state b').
Proof.
  intros Hh Hfair Hcool Hcmd.
  destruct (answered_path env m b Hh Hfair Hcool Hcmd) as (t & template & Hin & Htin & Heq).
  pose proof (prepared_healthy m b Hh) as [H1 H2].
  exists t, template, (IndexTs.setCooldown env (IndexTs.userId m) (IndexTs.prepared m b)).2.
  split; [exact Heq|]. split; [exact Hin|]. split; [exact Htin|].
  split; [reflexivity|]. split; [reflexivity|]. split; [reflexivity|].
  split; assumption.
Qed.

Lemma answered_message_effects_witness :
  exists trait template b',
    IndexTs.handleMessage (Scenarios.env_at 1000) Scenarios.hello (IndexTs.new_RoastBot 0) =
      (Return (Some (replace "{userName}" (IndexTs.userName Scenarios.hello)
                       (template +:+ IndexTs.mood_suffix (IndexTs.state b')))), b') /\
    trait ∈ IndexTs.personality (IndexTs.state b') /\
    template ∈ IndexTs.responses trait /\
    IndexTs.moodLevel (IndexTs.state b') =
      Qmax IndexTs.minMoodLevel
        (Qmin IndexTs.maxMoodLevel
           (IndexTs.moodLevel (IndexTs.state (IndexTs.new_RoastBot 0))
            + IndexTs.analyzeSentiment (IndexTs.content Scenarios.hello))) /\
    IndexTs.cooldowns (IndexTs.state b') =
      <[IndexTs.userId Scenarios.hello := IndexTs.now_setCooldown (Scenarios.env_at 1000)]>
        (IndexTs.cooldowns (IndexTs.state (IndexTs.new_RoastBot 0))) /\
    IndexTs.console b' = IndexTs.console (IndexTs.new_RoastBot 0) /\
    IndexTs.healthy (IndexTs.state b').
Proof.
  apply (answered_message_effects (Scenarios.env_at 1000) Scenarios.hello (IndexTs.new_RoastBot 0)).
  - split; [discriminate|]. repeat constructor; discriminate.
  - split; [discriminate | reflexivity].
  - reflexivity.
  - reflexivity.
Defined.

(** X8.  After such an answer the same user is ignored: a further message
    of theirs that arrives less than 30 s after the stamp gets [null] and
    leaves the bot as it was, provided the stamp is not the instant 0. *)
Theorem answered_user_is_then_ignored (env env' : IndexTs.Env) (m m' : IndexTs.Message)
    (b : IndexTs.RoastBot) :
  IndexTs.healthy (IndexTs.state b) ->
  IndexTs.fair_draw env ->
  IndexTs.isUserInCooldown env (IndexTs.state b) (IndexTs.userId m) = false ->
  startsWith (IndexTs.content m) (IndexTs.commandPrefix (IndexTs.state b)) = false ->
  IndexTs.now_setCooldown env <> 0%Z ->
  (IndexTs.now_isUserInCooldown env' - IndexTs.now_setCooldown env < 30000)%Z ->
  IndexTs.userId m' = IndexTs.userId m ->
  let b' := (IndexTs.handleMessage env m b).2 in
  IndexTs.handleMessage env' m' b' = (Return None, b').
Proof.
  intros Hh Hfair Hcool Hcmd Hstamp Hsoon Hsame b'. subst b'.
  destruct (answered_path env m b Hh Hfair Hcool Hcmd) as (t & template & _ & _ & ->).
  cbn [snd].
  unfold IndexTs.handleMessage at 1. unfold try_catch, bind, get.
  assert (IndexTs.isUserInCooldown env'
            (IndexTs.state (IndexTs.setCooldown env (IndexTs.userId m) (IndexTs.prepared m b)).2)
            (IndexTs.userId m') = true) as ->.
  { unfold IndexTs.isUserInCooldown. rewrite Hsame. cbn.
    rewrite lookup_insert_eq. cbn.
    destruct (Z.eqb_spec (IndexTs.now_setCooldown env) 0) as [H0|_]; [done|].
    apply Z.ltb_lt. exact Hsoon. }
  reflexivity.
Qed.

Lemma answered_user_is_then_ignored_witness :
  IndexTs.handleMessage (Scenarios.env_at 30999) Scenarios.mood_command
    (IndexTs.handleMessage (Scenarios.env_at 1000) Scenarios.hello (IndexTs.new_RoastBot 0)).2
  = (Return None,
     (IndexTs.handleMessage (Scenarios.env_at 1000) Scenarios.hello (IndexTs.new_RoastBot 0)).2).
Proof.
  apply (answered_user_is_then_ignored (Scenarios.env_at 1000) (Scenarios.env_at 30999)
           Scenarios.hello Scenarios.mood_command (IndexTs.new_RoastBot 0)).
  - split; [discriminate|]. repeat constructor; discriminate.
  - split; [discriminate | reflexivity].
  - reflexivity.
  - reflexivity.
  - discriminate.
  - reflexivity.
  - reflexivity.
Defined.

Lemma handleMessage_mood env m b :
  IndexTs.moodLevel (IndexTs.state (IndexTs.handleMessage env m b).2)
    = IndexTs.moodLevel (IndexTs.state b) \/
  IndexTs.moodLevel (IndexTs.state (IndexTs.handleMessage env m b).2)
    = Qmax IndexTs.minMoodLevel
        (Qmin IndexTs.maxMoodLevel
           (IndexTs.moodLevel (IndexTs.state b) + IndexTs.analyzeSentiment (IndexTs.content m))).
Proof.
  unfold IndexTs.handleMessage, try_catch, bind, get.
  destruct (IndexTs.isUserInCooldown _ _ _); [by left|].
  destruct (startsWith _ _); [by left|].
  right. cbn.
  unfold IndexTs.generateResponse, bind, get, lift.
  destruct (IndexTs.getRandomResponse _ _) as [r|e]; cbn; [|reflexivity].
  destruct (IndexTs.applyMoodModifier _ _); cbn; reflexivity.
Qed.

(** X7.  The mood stays within its bounds along any sequence of
    [handleMessage] calls, whatever the messages, the clocks and the random
    draws: a bot whose mood is in [-10, 10] never leaves that range. *)
Theorem handleMessage_keeps_mood_in_bounds (inputs : list (IndexTs.Env * IndexTs.Message)) :
  forall b : IndexTs.RoastBot,
  IndexTs.mood_in_bounds (IndexTs.moodLevel (IndexTs.state b)) ->
  IndexTs.mood_in_bounds (IndexTs.moodLevel (IndexTs.state (IndexTs.handle_all inputs b))).
Proof.
  induction inputs as [|[env m] rest IH]; intros b Hb; [exact Hb|].
  cbn [IndexTs.handle_all]. apply IH.
  destruct (handleMessage_mood env m b) as [-> | ->]; [exact Hb | apply clamp_in_bounds].
Qed.

Lemma handleMessage_keeps_mood_in_bounds_witness :
  IndexTs.mood_in_bounds (IndexTs.moodLevel (IndexTs.state
    (IndexTs.handle_all
       [(Scenarios.env_at 1000, Scenarios.hello); (Scenarios.env_at 40000, Scenarios.mood_command)]
       (IndexTs.new_RoastBot 0)))).
Proof.
  apply (handleMessage_keeps_mood_in_bounds
           [(Scenarios.env_at 1000, Scenarios.hello); (Scenarios.env_at 40000, Scenarios.mood_command)]
           (IndexTs.new_RoastBot 0)).
  split; discriminate.
Defined.

(** ** index.ts: the request counter kept in the store *)

Lemma check_running_counter now u v d b :
  IndexTs.faults b = [] ->
  IndexTs.counter_at ("ratelimit:" +:+ u) v d b ->
  (1 <= v)%Z -> (now <= d)%Z ->
  IndexTs.checkRateLimit now u b =
    (Return (v + 1 <=? IndexTs.limit)%Z,
     IndexTs.with_redis (<["ratelimit:" +:+ u :=
                   {| IndexTs.value := v + 1; IndexTs.expireAt := Some d |}]> (IndexTs.redis b)) b).
Proof.
  intros Hf Hk Hv Hd. unfold IndexTs.counter_at in Hk.
  unfold IndexTs.checkRateLimit, IndexTs.incrementCounter, IndexTs.incrementCounter_try,
    bind, try_catch, IndexTs.redis_command.
  rewrite Hf. unfold IndexTs.INCR, IndexTs.redis_lookup. rewrite Hk.
  unfold IndexTs.live. cbn [IndexTs.expireAt IndexTs.value].
  rewrite (proj2 (Z.leb_le now d) Hd).
  assert ((v + 1 =? 1)%Z = false) as Hne by (apply Z.eqb_neq; lia).
  cbn. rewrite Hne. cbn. rewrite Hne. cbn.
  unfold IndexTs.with_redis. by rewrite Hf.
Qed.

Lemma check_fresh_counter now u b :
  IndexTs.faults b = [] ->
  IndexTs.redis_lookup now ("ratelimit:" +:+ u) (IndexTs.redis b) = None ->
  exists b', IndexTs.checkRateLimit now u b = (Return true, b') /\
    IndexTs.faults b' = [] /\
    IndexTs.counter_at ("ratelimit:" +:+ u) 1 (now + 60000) b'.
Proof.
  intros Hf Hk.
  unfold IndexTs.checkRateLimit, IndexTs.incrementCounter, IndexTs.incrementCounter_try,
    bind, try_catch, IndexTs.redis_command.
  assert ((now <=? now + 60 * 1000)%Z = true) as Hlive by (apply Z.leb_le; lia).
  rewrite Hf. unfold IndexTs.INCR. rewrite Hk. cbn.
  unfold IndexTs.EXPIRE, IndexTs.redis_lookup. rewrite lookup_insert_eq. cbn.
  rewrite lookup_insert_eq. cbn. rewrite Hlive. cbn.
  eexists. split; [reflexivity|]. split; [reflexivity|].
  unfold IndexTs.counter_at. cbn. rewrite lookup_insert_eq. do 3 f_equal.
Qed.

Lemma admitted_running u d times : forall v b,
  IndexTs.faults b = [] ->
  IndexTs.counter_at ("ratelimit:" +:+ u) v d b ->
  (1 <= v)%Z ->
  Forall (fun t => (t <= d)%Z) times ->
  IndexTs.admitted (map (fun t => (u, t)) times) b =
  map (fun t => (u, t)) (take (Z.to_nat (IndexTs.limit - v)) times).
Proof.
  induction times as [|t ts IH]; intros v b Hf Hk Hv Hall.
  - by rewrite take_nil.
  - apply Forall_cons in Hall as [Ht Hts].
    cbn [map IndexTs.admitted].
    rewrite (check_running_counter t u v d b Hf Hk Hv Ht).
    assert (IndexTs.counter_at ("ratelimit:" +:+ u) (v + 1) d
              (IndexTs.with_redis (<["ratelimit:" +:+ u :=
                 {| IndexTs.value := v + 1; IndexTs.expireAt := Some d |}]> (IndexTs.redis b)) b))
      as Hk'.
    { unfold IndexTs.counter_at. cbn. apply lookup_insert_eq. }
    unfold IndexTs.limit in *.
    destruct (Z.leb_spec (v + 1) 5).
    + rewrite (IH (v + 1)%Z); [|done|exact Hk'|lia|done].
      replace (Z.to_nat (5 - v)) with (S (Z.to_nat (5 - (v + 1)))) by lia.
      reflexivity.
    + rewrite (IH (v + 1)%Z); [|done|exact Hk'|lia|done].
      replace (Z.to_nat (5 - v)) with 0%nat by lia.
      replace (Z.to_nat (5 - (v + 1))) with 0%nat by lia.
      reflexivity.
Qed.

(** X9.  With a working store and no live counter for the user, the
    requests made while the counter lives (up to 60 s after the first one)
    are admitted up to the fifth and refused from the sixth on. *)
Theorem counter_admits_first_five_per_lifetime (u : string) (t0 : Z) (later : list Z)
    (b : IndexTs.RoastBot) :
  IndexTs.faults b = [] ->
  IndexTs.redis_lookup t0 ("ratelimit:" +:+ u) (IndexTs.redis b) = None ->
  Forall (fun t => (t <= t0 + 60000)%Z) later ->
  IndexTs.admitted (map (fun t => (u, t)) (t0 :: later)) b =
  map (fun t => (u, t)) (take 5 (t0 :: later)).
Proof.
  intros Hf Hk Hall. cbn [map IndexTs.admitted].
  destruct (check_fresh_counter t0 u b Hf Hk) as (b' & -> & Hf' & Hk').
  rewrite (admitted_running u (t0 + 60000) later 1 b' Hf' Hk'); [|lia|done].
  reflexivity.
Qed.

Lemma counter_admits_first_five_per_lifetime_witness :
  IndexTs.admitted (map (fun t => ("u1", t)) (0 :: [10; 20; 30; 40; 50; 60000])%Z)
    (IndexTs.new_RoastBot 0)
  = map (fun t => ("u1", t)) (take 5 (0 :: [10; 20; 30; 40; 50; 60000])%Z).
Proof.
  apply (counter_admits_first_five_per_lifetime "u1" 0 [10; 20; 30; 40; 50; 60000]%Z
           (IndexTs.new_RoastBot 0)).
  - reflexivity.
  - reflexivity.
  - repeat constructor; lia.
Defined.


(** ** part_002: the message schema *)

Lemma z_array_string_spec items l :
  z_array_string items = Return l <-> items = map VString l.
Proof.
  revert l. induction items as [|v items IH]; intros l; simpl.
  - split; [intros [= <-]; done | destruct l; [done | discriminate]].
  - destruct v; try (split; [discriminate | destruct l; discriminate]).
    destruct (z_array_string items) as [l'|e] eqn:Hz.
    + split.
      * intros [= <-]. simpl. f_equal. by apply IH.
      * destruct l as [|x l]; [discriminate|]. intros [= -> Hm]. simpl in *.
        apply IH in Hm. congruence.
    + split; [discriminate|]. destruct l as [|x l]; [discriminate|].
      intros [= -> Hm]. apply IH in Hm. congruence.
Qed.

Lemma z_array_string_never_other items e :
  z_array_string items = Throw e -> e = ZodError.
Proof.
  revert e. induction items as [|v items IH]; intros e; simpl; [discriminate|].
  destruct v; try (by intros [= <-]).
  destruct (z_array_string items); [discriminate|]. intros [= <-]. by apply IH.
Qed.

(** X12.  [MessageSchema.parse] accepts exactly the objects whose content
    is a string of 1 to 2000 characters, whose userId and userName are
    strings, whose mentions are absent or an array of strings, and whose
    timestamp is a number or absent; the parsed message carries these
    fields, an absent timestamp being replaced by the clock. *)
Theorem MessageSchema_accepts_exactly_well_formed (now : Z) (message : JSValue) (m : Part002.Message) :
  Part002.MessageSchema_parse now message = Return m <->
  exists fs, message = VObject fs /\ Part002.well_formed now fs m.
Proof.
  unfold Part002.MessageSchema_parse, Part002.well_formed. split.
  - destruct message as [| | | | |?|fs]; try discriminate.
    unfold z_string_min_max, z_string, z_mentions, z_timestamp.
    destruct (field "content" fs) as [| | | |c| |] eqn:Hc; try discriminate.
    destruct (_ && _)%nat eqn:Hlen; [|discriminate].
    destruct (field "userId" fs) as [| | | |u| |] eqn:Hu; try discriminate.
    destruct (field "userName" fs) as [| | | |n| |] eqn:Hn; try discriminate.
    apply andb_true_iff in Hlen as [Hlo%Nat.leb_le Hhi%Nat.leb_le].
    destruct (field "mentions" fs) as [| | | | |items|] eqn:Hm; try discriminate.
    + destruct (field "timestamp" fs) as [| | |q| | |] eqn:Ht; try discriminate;
        intros [= <-]; exists fs; cbn; repeat split; auto.
    + destruct (z_array_string items) as [l|e] eqn:Hz.
      * apply z_array_string_spec in Hz. subst items.
        destruct (field "timestamp" fs) as [| | |q| | |] eqn:Ht; try discriminate;
          intros [= <-]; exists fs; cbn; repeat split; auto.
      * destruct (field "timestamp" fs); discriminate.
  - intros (fs & -> & Hc & [Hlo Hhi] & Hu & Hn & Hm & Ht).
    rewrite Hc, Hu, Hn. unfold z_string_min_max, z_string.
    apply Nat.leb_le in Hlo, Hhi. rewrite Hlo, Hhi. cbn [andb].
    destruct m as [c u n ms t]; cbn in *.
    destruct ms as [l|].
    + rewrite Hm. unfold z_mentions.
      rewrite (proj2 (z_array_string_spec (map VString l) l) eq_refl).
      destruct Ht as [-> | [-> ->]]; reflexivity.
    + rewrite Hm. destruct Ht as [-> | [-> ->]]; reflexivity.
Qed.

(** ** part_002: the in-memory limiter *)

Section Limiter.
Import Part002.
Variable cfg : Config.

Lemma all_before_mono lb lb' past : (lb <= lb')%Z -> all_before lb past -> all_before lb' past.
Proof. intros Hle H. eapply Forall_impl; [exact H|]. simpl. intros; lia. Qed.

Lemma final_agree u events : forall rl past lb now,
  window_inv cfg u rl past lb -> all_before lb past ->
  Sorted Z.le (lb :: map event_time events ++ [now]) ->
  fresh cfg now (default [] (run_events cfg events rl !! u))
    = fresh cfg now (times_of u (past ++ admitted cfg events rl)) /\
  all_before now (past ++ admitted cfg events rl).
Proof.
  induction events as [|[v t|t] events IH]; intros rl past lb now Hinv Hbef Hs.
  - simpl in *. apply Sorted_inv in Hs as [_ Hhd]. apply HdRel_inv in Hhd.
    rewrite app_nil_r. split; [by apply Hinv | by apply (all_before_mono lb)].
  - simpl in Hs. apply Sorted_inv in Hs as [Hs Hhd]. apply HdRel_inv in Hhd.
    pose proof (window_inv_step cfg u rl past lb v t Hinv Hhd) as Hstep.
    cbn [run_events admitted].
    destruct (checkRateLimit cfg t v rl) as [ok rl'] eqn:Hchk. cbn [fst snd] in *.
    rewrite app_assoc. apply (IH rl' _ t); [exact Hstep| |exact Hs].
    apply Forall_app. split; [by apply (all_before_mono lb)|].
    destruct ok; repeat constructor. simpl. lia.
  - simpl in Hs. apply Sorted_inv in Hs as [Hs Hhd]. apply HdRel_inv in Hhd.
    cbn [run_events admitted].
    apply (IH _ past t); [by apply (window_inv_maintenance cfg u rl past lb)
                         | by apply (all_before_mono lb) | exact Hs].
Qed.

Lemma in_window_at_now u now past :
  all_before now past ->
  List.length (in_window cfg u now past) =
  List.length (fresh cfg now (times_of u past)).
Proof.
  intros Hbef. rewrite fresh_times_length. unfold in_window.
  induction Hbef as [|c past Hc Hpast IH]; [done|].
  rewrite !filter_cons.
  destruct (decide (c.1 = u /\ (c.2 <= now)%Z /\ (now - c.2 < RATE_LIMIT_WINDOW cfg)%Z)) as [H1|H1];
    destruct (decide (c.1 = u /\ (now - c.2 < RATE_LIMIT_WINDOW cfg)%Z)) as [H2|H2];
    simpl; try (f_equal; exact IH); try exact IH; exfalso; tauto.
Qed.

Lemma bounded_check now v rl : bounded cfg rl -> bounded cfg (checkRateLimit cfg now v rl).2.
Proof.
  intros Hb u. unfold checkRateLimit.
  destruct (Z.leb_spec (MAX_REQUESTS_PER_MINUTE cfg)
     (Z.of_nat (List.length (filter (fun time => (now - time < RATE_LIMIT_WINDOW cfg)%Z)
                               (default [] (rl !! v)))))) as [Hfull|Hroom]; simpl.
  - apply Hb.
  - destruct (decide (v = u)) as [->|Hne].
    + rewrite lookup_insert_eq. simpl. rewrite length_app. simpl. lia.
    + rewrite lookup_insert_ne by done. apply Hb.
Qed.

Lemma bounded_maintenance now rl : bounded cfg rl -> bounded cfg (performMaintenance cfg now rl).
Proof.
  intros Hb u. unfold performMaintenance. rewrite lookup_omap.
  specialize (Hb u). destruct (rl !! u) as [ts|]; simpl in *; [|lia].
  pose proof (length_filter (fun time => (now - time < RATE_LIMIT_WINDOW cfg)%Z) ts) as Hl.
  destruct (filter _ ts) as [|x xs]; simpl in *; lia.
Qed.

Lemma maintenance_lookup now rl u :
  default [] (performMaintenance cfg now rl !! u) = fresh cfg now (default [] (rl !! u)).
Proof.
  unfold performMaintenance. rewrite lookup_omap.
  destruct (rl !! u) as [ts|]; [|done]. simpl. fold (fresh cfg now ts).
  by destruct (fresh cfg now ts).
Qed.

Lemma fresh_all now l : Forall (fun t => (now - t < RATE_LIMIT_WINDOW cfg)%Z) (fresh cfg now l).
Proof.
  unfold fresh. apply Forall_forall. intros x Hx.
  by apply list_elem_of_filter in Hx as [Hx _].
Qed.

Lemma check_after_maintenance now now' u rl :
  (now <= now')%Z ->
  (checkRateLimit cfg now' u (performMaintenance cfg now rl)).1
  = (checkRateLimit cfg now' u rl).1.
Proof.
  intros Hle. unfold checkRateLimit. rewrite maintenance_lookup.
  fold (fresh cfg now' (fresh cfg now (default [] (rl !! u)))).
  fold (fresh cfg now' (default [] (rl !! u))).
  rewrite fresh_later by done. by destruct (_ <=? _)%Z.
Qed.

End Limiter.

(** X13.  The decision of [checkRateLimit] depends only on the history:
    after any run of requests and maintenance passes in clock order from an
    empty table, a request is admitted exactly when fewer than the maximum
    of the user's admitted requests fall in the window that ends now. *)
Theorem decision_from_history (cfg : Part002.Config) (u : string)
    (events : list Part002.Event) (now : Z) :
  (0 <= Part002.MAX_REQUESTS_PER_MINUTE cfg)%Z ->
  Sorted Z.le (map Part002.event_time (events ++ [Part002.Check u now])) ->
  (Part002.checkRateLimit cfg now u (Part002.run_events cfg events ∅)).1 =
  negb (Part002.MAX_REQUESTS_PER_MINUTE cfg
        <=? Z.of_nat (List.length
              (Part002.in_window cfg u now (Part002.admitted cfg events ∅))))%Z.
Proof.
  intros Hmax Hs. rewrite map_app in Hs. simpl in Hs.
  assert (exists lb, Sorted Z.le (lb :: map Part002.event_time events ++ [now])) as [lb Hlb].
  { destruct events as [|e events]; simpl in *.
    - exists now. repeat constructor. lia.
    - exists (Part002.event_time e). constructor; [exact Hs|]. constructor. lia. }
  destruct (final_agree cfg u events ∅ [] lb now (window_inv_start cfg u lb Hmax)
              (Forall_nil_2 _) Hlb) as [Hag Hbef].
  simpl in Hag, Hbef.
  rewrite (in_window_at_now cfg u now _ Hbef), <- Hag.
  unfold Part002.checkRateLimit, Part002.fresh.
  by destruct (_ <=? _)%Z.
Qed.

Lemma decision_from_history_witness :
  (Part002.checkRateLimit Scenarios.five_per_minute 60006 "u1"
     (Part002.run_events Scenarios.five_per_minute Scenarios.burst_events ∅)).1 =
  negb (Part002.MAX_REQUESTS_PER_MINUTE Scenarios.five_per_minute
        <=? Z.of_nat (List.length
              (Part002.in_window Scenarios.five_per_minute "u1" 60006
                 (Part002.admitted Scenarios.five_per_minute Scenarios.burst_events ∅))))%Z.
Proof.
  apply (decision_from_history Scenarios.five_per_minute "u1" Scenarios.burst_events 60006).
  - vm_compute. discriminate.
  - vm_compute. repeat constructor; discriminate.
Defined.

(** X14.  No stored window ever grows beyond the configured maximum: a
    table in which every user has at most that many time stamps keeps this
    through any run of requests and maintenance passes, in any order of the
    clock. *)
Theorem run_bounded (cfg : Part002.Config) (events : list Part002.Event)
    (rl : gmap string (list Z)) :
  Part002.bounded cfg rl -> Part002.bounded cfg (Part002.run_events cfg events rl).
Proof.
  revert rl. induction events as [|[v t|t] events IH]; intros rl Hb; cbn [Part002.run_events].
  - exact Hb.
  - by apply IH, bounded_check.
  - by apply IH, bounded_maintenance.
Qed.

Lemma run_bounded_witness :
  Part002.bounded Scenarios.five_per_minute
    (Part002.run_events Scenarios.five_per_minute Scenarios.burst_events
       (Part002.rateLimits Scenarios.busy_bot)).
Proof.
  apply (run_bounded Scenarios.five_per_minute Scenarios.burst_events
           (Part002.rateLimits Scenarios.busy_bot)).
  intros u. unfold Scenarios.busy_bot. cbn [Part002.rateLimits].
  destruct (decide (u = "123")) as [->|Hne].
  - vm_compute. discriminate.
  - rewrite lookup_singleton_ne by done. vm_compute. discriminate.
Defined.

(** X15.  [performMaintenance] keeps only non-empty windows of time stamps
    that are still in the window, is idempotent at one instant, and cannot
    be observed by the limiter: every later decision is the one that would
    have been taken without the pass. *)
Theorem maintenance_prunes_and_is_transparent (cfg : Part002.Config) (now : Z)
    (rl : gmap string (list Z)) :
  (forall u l, Part002.performMaintenance cfg now rl !! u = Some l ->
     l <> [] /\ Forall (fun t => (now - t < Part002.RATE_LIMIT_WINDOW cfg)%Z) l) /\
  Part002.performMaintenance cfg now (Part002.performMaintenance cfg now rl)
    = Part002.performMaintenance cfg now rl /\
  (forall now' u, (now <= now')%Z ->
     (Part002.checkRateLimit cfg now' u (Part002.performMaintenance cfg now rl)).1
     = (Part002.checkRateLimit cfg now' u rl).1).
Proof.
  split; [|split].
  - intros u l. unfold Part002.performMaintenance. rewrite lookup_omap.
    destruct (rl !! u) as [ts|]; [|discriminate]. simpl. fold (Part002.fresh cfg now ts).
    destruct (Part002.fresh cfg now ts) as [|x xs] eqn:Hts; [discriminate|].
    intros [= <-]. split; [done|]. rewrite <- Hts. apply fresh_all.
  - apply map_eq. intros u. unfold Part002.performMaintenance. rewrite !lookup_omap.
    destruct (rl !! u) as [ts|]; [|done]. simpl. fold (Part002.fresh cfg now ts).
    destruct (Part002.fresh cfg now ts) as [|x xs] eqn:Hts; [done|]. simpl.
    fold (Part002.fresh cfg now (x :: xs)). rewrite <- Hts, fresh_later by lia.
    by rewrite Hts.
  - intros now' u. apply check_after_maintenance.
Qed.

(** X16.  The limiter keeps users apart: a request of one user leaves the
    stored window of every other user as it was, and so does not change the
    decision on a later request of the other user. *)
Theorem users_do_not_interfere (cfg : Part002.Config) (now now' : Z) (u v : string)
    (rl : gmap string (list Z)) :
  u <> v ->
  (Part002.checkRateLimit cfg now u rl).2 !! v = rl !! v /\
  (Part002.checkRateLimit cfg now' v (Part002.checkRateLimit cfg now u rl).2).1
  = (Part002.checkRateLimit cfg now' v rl).1.
Proof.
  intros Hne.
  assert ((Part002.checkRateLimit cfg now u rl).2 !! v = rl !! v) as Hl.
  { unfold Part002.checkRateLimit. destruct (_ <=? _)%Z; simpl; [done|].
    by rewrite lookup_insert_ne. }
  split; [exact Hl|]. unfold Part002.checkRateLimit at 1 3. rewrite Hl.
  by destruct (_ <=? _)%Z.
Qed.

Lemma users_do_not_interfere_witness :
  (Part002.checkRateLimit Scenarios.five_per_minute 6 "456"
     (Part002.rateLimits Scenarios.busy_bot)).2 !! "123"
    = Part002.rateLimits Scenarios.busy_bot !! "123" /\
  (Part002.checkRateLimit Scenarios.five_per_minute 7 "123"
     (Part002.checkRateLimit Scenarios.five_per_minute 6 "456"
        (Part002.rateLimits Scenarios.busy_bot)).2).1
  = (Part002.checkRateLimit Scenarios.five_per_minute 7 "123"
       (Part002.rateLimits Scenarios.busy_bot)).1.
Proof.
  apply (users_do_not_interfere Scenarios.five_per_minute 6 7 "456" "123"
           (Part002.rateLimits Scenarios.busy_bot)).
  discriminate.
Defined.

(** X17.  A user whose stored time stamps have all left the window is
    admitted, whatever happened before, and the stored window is replaced by
    the single new time stamp (the maximum being positive). *)
Theorem idle_user_is_admitted (cfg : Part002.Config) (now : Z) (u : string)
    (rl : gmap string (list Z)) :
  (0 < Part002.MAX_REQUESTS_PER_MINUTE cfg)%Z ->
  Forall (fun t => (Part002.RATE_LIMIT_WINDOW cfg <= now - t)%Z) (default [] (rl !! u)) ->
  Part002.checkRateLimit cfg now u rl = (true, <[u := [now]]> rl).
Proof.
  intros Hmax Hold. unfold Part002.checkRateLimit.
  assert (filter (fun time => (now - time < Part002.RATE_LIMIT_WINDOW cfg)%Z)
            (default [] (rl !! u)) = []) as ->.
  { induction Hold as [|t ts Ht Hts IH]; [done|].
    rewrite filter_cons. rewrite decide_False by lia. exact IH. }
  cbn [List.length Z.of_nat]. rewrite (proj2 (Z.leb_gt _ _)) by lia. reflexivity.
Qed.

Lemma idle_user_is_admitted_witness :
  Part002.checkRateLimit Scenarios.five_per_minute 60005 "123"
    (Part002.rateLimits Scenarios.busy_bot)
  = (true, <["123" := [60005%Z]]> (Part002.rateLimits Scenarios.busy_bot)).
Proof.
  apply (idle_user_is_admitted Scenarios.five_per_minute 60005 "123"
           (Part002.rateLimits Scenarios.busy_bot)).
  - reflexivity.
  - vm_compute. repeat constructor; discriminate.
Defined.


(** ** part_002: analysis, reply and metrics *)

(** X18.  [analyzeMessage] of part_002 never throws and never touches the
    state or the limiter: it returns an analysis, and when it logs, it logs
    one "Analysis error:" entry and returns the neutral fallback analysis,
    which is what happens whenever the backend call fails. *)
Theorem analyzeMessage_never_throws (cfg : Part002.Config) (env : Part002.Env)
    (message : Part002.Message) (b : Part002.Bot) :
  exists analysis b',
    Part002.analyzeMessage cfg env message b = (Return analysis, b') /\
    Part002.state b' = Part002.state b /\
    Part002.rateLimits b' = Part002.rateLimits b /\
    (Part002.logger b' = Part002.logger b \/
     analysis = Part002.getFallbackAnalysis /\
     exists e, Part002.logger b' = Part002.logger b ++ [LogError "Analysis error:" e]) /\
    (forall e, (forall request, Part002.openai_create env request = Throw e) ->
       analysis = Part002.getFallbackAnalysis /\
       Part002.logger b' = Part002.logger b ++ [LogError "Analysis error:" e]).
Proof.
  unfold Part002.analyzeMessage, try_catch, bind, lift.
  destruct (Part002.openai_create env _) as [choices|e] eqn:Hcall.
  - assert (forall e', ~ (forall request, Part002.openai_create env request = Throw e')) as Hno.
    { intros e' He. rewrite He in Hcall. discriminate. }
    destruct (Part002.first_content_or "{}" choices) as [text|e]; cbn.
    + destruct (Part002.JSON_parse env text) as [raw|e]; cbn.
      * eexists _, _. split; [reflexivity|]. split; [done|]. split; [done|].
        split; [by left|]. intros e He. by destruct (Hno e).
      * eexists _, _. split; [reflexivity|]. split; [done|]. split; [done|].
        split; [right; split; [done|by exists e]|]. intros e' He. by destruct (Hno e').
    + eexists _, _. split; [reflexivity|]. split; [done|]. split; [done|].
      split; [right; split; [done|by exists e]|]. intros e' He. by destruct (Hno e').
  - cbn. eexists _, _. split; [reflexivity|]. split; [done|]. split; [done|].
    split; [right; split; [done|by exists e]|].
    intros e' He. rewrite He in Hcall. injection Hcall as ->. by split.
Qed.

Lemma part002_analyzeMessage_returns cfg env message b :
  exists analysis b',
    Part002.analyzeMessage cfg env message b = (Return analysis, b') /\
    Part002.state b' = Part002.state b /\
    Part002.rateLimits b' = Part002.rateLimits b.
Proof.
  unfold Part002.analyzeMessage, try_catch, bind, lift.
  destruct (Part002.openai_create env _) as [choices|e]; cbn.
  - destruct (Part002.first_content_or "{}" choices) as [text|e]; cbn.
    + destruct (Part002.JSON_parse env text) as [raw|e]; cbn;
        eexists _, _; (split; [reflexivity|]); done.
    + eexists _, _. split; [reflexivity|]. done.
  - eexists _, _. split; [reflexivity|]. done.
Qed.

Lemma generateResponse_returns cfg env message analysis b :
  Part002.personality (Part002.state b) = Part002.PERSONALITY_TRAITS ->
  exists r b', Part002.generateResponse cfg env message analysis b = (Return r, b') /\
    Part002.state b' = Part002.state b /\ Part002.rateLimits b' = Part002.rateLimits b.
Proof.
  intros Hp.
  destruct (select_on_table (Part002.state b) analysis Hp) as (trait & Hsel & Hin & _).
  destruct (table_has_first_template trait Hin) as (template & Hhd).
  unfold Part002.generateResponse, bind, get, lift, try_catch.
  rewrite Hsel. cbn [Part002.selectResponseTemplate Part002.trait_name].
  destruct (Part002.openai_create env _) as [choices|e].
  - destruct (Part002.first_content_or EmptyString choices) as [text|e]; cbn.
    + eexists _, _. repeat split.
    + unfold Part002.getFallbackResponse, index. cbn [Z.ltb Z.compare Z.to_nat].
      destruct (Part002.responses trait) as [|r rs]; [discriminate|]. cbn.
      eexists _, _. repeat split.
  - cbn. unfold Part002.getFallbackResponse, index. cbn [Z.ltb Z.compare Z.to_nat].
    destruct (Part002.responses trait) as [|r rs]; [discriminate|]. cbn.
    eexists _, _. repeat split.
Qed.

Lemma neutral_selects_sarcastic st :
  Part002.personality st = Part002.PERSONALITY_TRAITS ->
  Part002.selectPersonalityTrait st Part002.getFallbackAnalysis
  = head Part002.PERSONALITY_TRAITS.
Proof. intros Hp. unfold Part002.selectPersonalityTrait. rewrite Hp. reflexivity. Qed.

Lemma generateResponse_down cfg env message b e :
  Part002.personality (Part002.state b) = Part002.PERSONALITY_TRAITS ->
  (forall request, Part002.openai_create env request = Throw e) ->
  Part002.generateResponse cfg env message Part002.getFallbackAnalysis b =
    (Return Part002.sarcastic_fallback, Part002.logged (LogError "Response generation error:" e) b).
Proof.
  intros Hp Hfail. unfold Part002.generateResponse, bind, get, lift, try_catch.
  rewrite (neutral_selects_sarcastic _ Hp).
  cbn [head Part002.PERSONALITY_TRAITS Part002.selectResponseTemplate Part002.trait_name].
  rewrite Hfail. reflexivity.
Qed.

Lemma analyzeMessage_down cfg env message b e :
  (forall request, Part002.openai_create env request = Throw e) ->
  Part002.analyzeMessage cfg env message b =
    (Return Part002.getFallbackAnalysis, Part002.logged (LogError "Analysis error:" e) b).
Proof.
  intros Hfail. unfold Part002.analyzeMessage, try_catch, bind, lift. rewrite Hfail. reflexivity.
Qed.

(** X19.  With the backend down, a valid message of an admitted user is
    still answered by [handleMessage] of part_002: the reply is the first
    template of the first trait, both failures are logged in order, the
    request is counted by the limiter, and the metrics count one more
    interaction and the user, with no topic. *)
Theorem backend_down_end_to_end (cfg : Part002.Config) (env : Part002.Env)
    (message : JSValue) (m : Part002.Message) (b : Part002.Bot) (e : Error) :
  Part002.MessageSchema_parse (Part002.now_schema env) message = Return m ->
  (Part002.checkRateLimit cfg (Part002.now_rateLimit env) (Part002.userId m)
     (Part002.rateLimits b)).1 = true ->
  Part002.personality (Part002.state b) = Part002.PERSONALITY_TRAITS ->
  (forall request, Part002.openai_create env request = Throw e) ->
  (forall key, Part002.redis_hset env key = Return tt) ->
  exists b',
    Part002.handleMessage cfg env message b = (Return Part002.sarcastic_fallback, b') /\
    Part002.logger b' = Part002.logger b ++
      [LogError "Analysis error:" e; LogError "Response generation error:" e] /\
    Part002.rateLimits b' =
      (Part002.checkRateLimit cfg (Part002.now_rateLimit env) (Part002.userId m)
         (Part002.rateLimits b)).2 /\
    Part002.totalInteractions (Part002.metrics (Part002.state b')) =
      (Part002.totalInteractions (Part002.metrics (Part002.state b)) + 1)%Z /\
    Part002.activeUsers (Part002.metrics (Part002.state b')) =
      {[ Part002.userId m ]} ∪ Part002.activeUsers (Part002.metrics (Part002.state b)) /\
    Part002.mostCommonTopics (Part002.metrics (Part002.state b')) =
      Part002.mostCommonTopics (Part002.metrics (Part002.state b)).
Proof.
  intros Hparse Hok Hp Hfail Hset.
  unfold Part002.handleMessage, try_catch, bind, lift, Part002.run_checkRateLimit.
  rewrite Hparse.
  destruct (Part002.checkRateLimit _ _ _ _) as [ok rl]. cbn [fst snd] in *. subst ok.
  cbn [negb].
  rewrite (analyzeMessage_down cfg env m _ e Hfail).
  rewrite (generateResponse_down cfg env m _ e); [|exact Hp|exact Hfail].
  unfold Part002.updateMetrics, bind, modify, lift. rewrite Hset.
  eexists. split; [reflexivity|]. cbn.
  rewrite <- app_assoc. repeat split.
Qed.

Lemma backend_down_end_to_end_witness :
  exists b',
    Part002.handleMessage Part002.CONFIG Scenarios.backend_down
      (message_of "Test message" "123" "TestUser") Part002.new_RoastBot
      = (Return Part002.sarcastic_fallback, b') /\
    Part002.logger b' = Part002.logger Part002.new_RoastBot ++
      [LogError "Analysis error:" (ExternalError "openai");
       LogError "Response generation error:" (ExternalError "openai")] /\
    Part002.rateLimits b' =
      (Part002.checkRateLimit Part002.CONFIG (Part002.now_rateLimit Scenarios.backend_down)
         (Part002.userId Scenarios.test_message)
         (Part002.rateLimits Part002.new_RoastBot)).2 /\
    Part002.totalInteractions (Part002.metrics (Part002.state b')) =
      (Part002.totalInteractions (Part002.metrics (Part002.state Part002.new_RoastBot)) + 1)%Z /\
    Part002.activeUsers (Part002.metrics (Part002.state b')) =
      {[ Part002.userId Scenarios.test_message ]}
        ∪ Part002.activeUsers (Part002.metrics (Part002.state Part002.new_RoastBot)) /\
    Part002.mostCommonTopics (Part002.metrics (Part002.state b')) =
      Part002.mostCommonTopics (Part002.metrics (Part002.state Part002.new_RoastBot)).
Proof.
  apply (backend_down_end_to_end Part002.CONFIG Scenarios.backend_down
           (message_of "Test message" "123" "TestUser") Scenarios.test_message
           Part002.new_RoastBot (ExternalError "openai")).
  - reflexivity.
  - vm_compute. reflexivity.
  - reflexivity.
  - intros request. reflexivity.
  - intros key. reflexivity.
Defined.

Lemma count_topics_lookup ts : forall (m : gmap string Z) (topic : string),
  default 0%Z (Part002.count_topics ts m !! topic)
  = (default 0%Z (m !! topic) + Part002.occurrences topic ts)%Z.
Proof.
  unfold Part002.count_topics, Part002.occurrences.
  induction ts as [|t ts IH]; intros m topic.
  - simpl. lia.
  - cbn [fold_left List.filter]. rewrite IH. unfold Part002.bump.
    destruct (String.eqb_spec topic t) as [->|Hne].
    + rewrite lookup_insert_eq. simpl. lia.
    + rewrite lookup_insert_ne by done. lia.
Qed.

(** X20.  [updateMetrics] counts before it writes: one more interaction,
    the user among the active users, and every topic raised by the number of
    times the analysis names it, also when the store write fails; the outcome
    of the call is the outcome of that write. *)
Theorem updateMetrics_counts (env : Part002.Env) (message : Part002.Message)
    (analysis : Part002.NLPAnalysis) (response : string) (b : Part002.Bot) :
  let result := Part002.updateMetrics env message analysis response b in
  let before := Part002.metrics (Part002.state b) in
  let after := Part002.metrics (Part002.state result.2) in
  Part002.totalInteractions after = (Part002.totalInteractions before + 1)%Z /\
  Part002.activeUsers after = {[ Part002.userId message ]} ∪ Part002.activeUsers before /\
  (forall topic,
     default 0%Z (Part002.mostCommonTopics after !! topic)
     = (default 0%Z (Part002.mostCommonTopics before !! topic)
        + Part002.occurrences topic (Part002.topics analysis))%Z) /\
  result.1 = Part002.redis_hset env ("metrics:" +:+ Part002.show_Z (Part002.now_metrics env)).
Proof.
  intros result before after. subst result before after.
  unfold Part002.updateMetrics, bind, modify, lift. cbn.
  destruct (Part002.redis_hset env _) as [[]|e]; cbn.
  - split; [done|]. split; [done|]. split; [apply count_topics_lookup|]. done.
  - split; [done|]. split; [done|]. split; [apply count_topics_lookup|]. done.
Qed.

(** X21.  A failing metrics write costs the user the reply: when the store
    refuses [hset], [handleMessage] of part_002 has already generated a reply
    but returns the generic error text, logs "Message handling error:", and
    the request stays counted by the limiter and by the metrics. *)
Theorem metrics_store_failure_loses_the_reply (cfg : Part002.Config) (env : Part002.Env)
    (message : JSValue) (m : Part002.Message) (b : Part002.Bot) (e : Error) :
  Part002.MessageSchema_parse (Part002.now_schema env) message = Return m ->
  (Part002.checkRateLimit cfg (Part002.now_rateLimit env) (Part002.userId m)
     (Part002.rateLimits b)).1 = true ->
  Part002.personality (Part002.state b) = Part002.PERSONALITY_TRAITS ->
  (forall key, Part002.redis_hset env key = Throw e) ->
  exists b',
    Part002.handleMessage cfg env message b = (Return Part002.error_reply, b') /\
    last (Part002.logger b') = Some (LogError "Message handling error:" e) /\
    Part002.rateLimits b' =
      (Part002.checkRateLimit cfg (Part002.now_rateLimit env) (Part002.userId m)
         (Part002.rateLimits b)).2 /\
    Part002.totalInteractions (Part002.metrics (Part002.state b')) =
      (Part002.totalInteractions (Part002.metrics (Part002.state b)) + 1)%Z.
Proof.
  intros Hparse Hok Hp Hset.
  unfold Part002.handleMessage, try_catch at 1, bind at 1 2, lift at 1, Part002.run_checkRateLimit.
  rewrite Hparse.
  destruct (Part002.checkRateLimit _ _ _ _) as [ok rl]. cbn [fst snd] in *. subst ok.
  cbn [negb]. unfold bind at 1.
  destruct (part002_analyzeMessage_returns cfg env m (Part002.set_rateLimits rl b))
    as (a & b1 & -> & Hs1 & Hr1).
  unfold bind at 1.
  destruct (generateResponse_returns cfg env m a b1) as (r & b2 & -> & Hs2 & Hr2).
  { by rewrite Hs1. }
  unfold Part002.updateMetrics, bind, modify, lift. rewrite Hset. cbn.
  eexists. split; [reflexivity|]. cbn. rewrite last_snoc.
  split; [done|]. split; [by rewrite Hr2, Hr1|]. by rewrite Hs2, Hs1.
Qed.

Lemma metrics_store_failure_loses_the_reply_witness :
  exists b',
    Part002.handleMessage Part002.CONFIG Scenarios.store_down
      (message_of "Test message" "123" "TestUser") Part002.new_RoastBot
      = (Return Part002.error_reply, b') /\
    last (Part002.logger b') = Some (LogError "Message handling error:" (ExternalError "redis")) /\
    Part002.rateLimits b' =
      (Part002.checkRateLimit Part002.CONFIG (Part002.now_rateLimit Scenarios.store_down)
         (Part002.userId Scenarios.test_message)
         (Part002.rateLimits Part002.new_RoastBot)).2 /\
    Part002.totalInteractions (Part002.metrics (Part002.state b')) =
      (Part002.totalInteractions (Part002.metrics (Part002.state Part002.new_RoastBot)) + 1)%Z.
Proof.
  apply (metrics_store_failure_loses_the_reply Part002.CONFIG Scenarios.store_down
           (message_of "Test message" "123" "TestUser") Scenarios.test_message
           Part002.new_RoastBot (ExternalError "redis")).
  - reflexivity.
  - vm_compute. reflexivity.
  - reflexivity.
  - intros key. reflexivity.
Defined.


(** ** part_004: lexical utilities and the analysis built on them *)

Lemma complexity_fold words : forall acc,
  (fold_left Part004.complexity_word words acc
   == acc + 0.2 * inject_Z (Z.of_nat (Part004.technical_hits words)))%Q.
Proof.
  unfold Part004.technical_hits.
  induction words as [|w ws IH]; intros acc.
  - cbn [fold_left List.filter List.length]. change (inject_Z (Z.of_nat 0)) with 0%Q. lra.
  - cbn [fold_left List.filter]. rewrite IH. unfold Part004.complexity_word.
    destruct (bool_decide (w ∈ Part004.technicalTerms)).
    + cbn [List.length]. rewrite Nat2Z.inj_succ, <- Z.add_1_r, inject_Z_plus.
      change (inject_Z 1) with 1%Q.
      generalize (inject_Z (Z.of_nat (List.length
        (List.filter (fun w0 => bool_decide (w0 ∈ Part004.technicalTerms)) ws)))).
      intros q. lra.
    + lra.
Qed.

(** The value in the exact arithmetic of the model, and its range. *)
Lemma complexity_range (text : string) :
  let hits := Part004.technical_hits (split_ws (toLowerCase text)) in
  (Part004.detectTechnicalComplexity text == Qmin (0.2 * inject_Z (Z.of_nat hits)) 1)%Q /\
  (0 <= Part004.detectTechnicalComplexity text)%Q /\
  (Part004.detectTechnicalComplexity text <= 1)%Q.
Proof.
  intros hits. unfold Part004.detectTechnicalComplexity.
  pose proof (complexity_fold (split_ws (toLowerCase text)) 0) as Hf. fold hits in Hf.
  assert (0 <= inject_Z (Z.of_nat hits))%Q as Hpos.
  { rewrite <- (Zle_Qle 0). lia. }
  split; [|split].
  - rewrite Hf, Qplus_0_l. reflexivity.
  - apply Q.min_glb; [rewrite Hf; lra | lra].
  - apply Q.le_min_r.
Qed.

(** X22.  [detectTechnicalComplexity] is always between 0 and 1; it is 0
    exactly when none of the whitespace-separated, lower-cased words of the
    text is a technical term, and it is 1 as soon as five of them are. *)
Theorem detectTechnicalComplexity_range (text : string) :
  let hits := Part004.technical_hits (split_ws (toLowerCase text)) in
  (0 <= Part004.detectTechnicalComplexity text <= 1)%Q /\
  (hits = 0%nat <-> (Part004.detectTechnicalComplexity text == 0)%Q) /\
  ((5 <= hits)%nat -> (Part004.detectTechnicalComplexity text == 1)%Q).
Proof.
  intros hits. destruct (complexity_range text) as (Heq & H0 & H1). fold hits in Heq.
  split; [by split|]. split.
  - split.
    + intros Hz. rewrite Heq, Hz. reflexivity.
    + intros Hd. rewrite Heq in Hd.
      destruct hits as [|n]; [reflexivity|]. exfalso.
      assert (1 <= inject_Z (Z.of_nat (S n)))%Q as Hq.
      { change 1%Q with (inject_Z 1). rewrite <- Zle_Qle. lia. }
      destruct (Q.min_spec (0.2 * inject_Z (Z.of_nat (S n))) 1) as [[_ Hm]|[_ Hm]];
        rewrite Hm in Hd; lra.
  - intros H5. rewrite Heq. apply Q.min_r.
    assert (5 <= inject_Z (Z.of_nat hits))%Q as Hq.
    { change 5%Q with (inject_Z 5). rewrite <- Zle_Qle. lia. }
    lra.
Qed.

(** A no-break space separates words and is trimmed like a space, and a
    Latin-1 capital is lowered. *)
Example no_break_space_is_white_space :
  split_ws ("api" +:+ String (ascii_of_nat 160) "API") = ["api"; "API"] /\
  Part004.technical_hits
    (split_ws (toLowerCase ("api" +:+ String (ascii_of_nat 160) "API"))) = 2%nat /\
  trim (String (ascii_of_nat 160) "ok ") = "ok" /\
  toLowerCase (String (ascii_of_nat 201) "T") = String (ascii_of_nat 233) "t".
Proof. repeat split; vm_compute; reflexivity. Qed.

Lemma has_word_includes kw s : forall prev,
  Part004.has_word_from prev kw s = true -> includes s kw = true.
Proof.
  induction s as [|c r IH]; intros prev; cbn [Part004.has_word_from includes].
  - rewrite orb_false_r. intros H. apply andb_true_iff in H as [H _].
    apply andb_true_iff in H as [_ H]. rewrite H. done.
  - intros [H|H]%orb_true_iff.
    + apply andb_true_iff in H as [H _]. apply andb_true_iff in H as [_ H].
      rewrite H. done.
    + rewrite (IH _ H). apply orb_true_r.
Qed.

Lemma has_any_word_includes kws text :
  Part004.has_any_word kws text = true ->
  exists kw, In kw kws /\ includes text kw = true.
Proof.
  unfold Part004.has_any_word. rewrite existsb_exists.
  intros (kw & Hin & H). exists kw. split; [done|]. by eapply has_word_includes.
Qed.

(** X23.  [detectCodeSnippet] is sound and catches every bracket: a text
    with a brace, a square bracket or a parenthesis is reported as code, and
    a text reported as code holds one of these characters or one of the
    fifteen keywords as a substring. *)
Theorem detectCodeSnippet_sound (text : string) :
  (Part004.has_bracket text = true -> Part004.detectCodeSnippet text = true) /\
  (Part004.detectCodeSnippet text = true ->
   Part004.has_bracket text = true \/
   exists kw, In kw Part004.all_keywords /\ includes text kw = true).
Proof.
  unfold Part004.detectCodeSnippet. split.
  - intros ->. rewrite orb_true_r. done.
  - intros H.
    apply orb_true_iff in H as [H|H]; [apply orb_true_iff in H as [H|H];
      [apply orb_true_iff in H as [H|H]; [apply orb_true_iff in H as [H|H]|]|]|].
    + right. apply has_any_word_includes in H as (kw & Hin & Hk). exists kw.
      split; [|done]. unfold Part004.all_keywords. simpl in *. tauto.
    + by left.
    + right. apply has_any_word_includes in H as (kw & Hin & Hk). exists kw.
      split; [|done]. unfold Part004.all_keywords. simpl in *. tauto.
    + right. apply has_any_word_includes in H as (kw & Hin & Hk). exists kw.
      split; [|done]. unfold Part004.all_keywords. simpl in *. tauto.
    + right. apply has_any_word_includes in H as (kw & Hin & Hk). exists kw.
      split; [|done]. unfold Part004.all_keywords. simpl in *. tauto.
Qed.

(** X24.  [analyzeMessage] of part_004 always returns an analysis whose
    sentiment is in [-1, 1] and whose technical complexity is in [0, 1], and
    leaves the profile cache alone: either nothing is logged and sentiment
    and code flag are those of the lexical utilities, or one error is logged
    and the analysis is the neutral one. *)
Theorem part004_analysis_is_normalised (model : string) (env : Part004.AnalysisEnv)
    (message : Part002.Message) (b : Part004.Bot) :
  exists analysis b',
    Part004.analyzeMessage model env message b = (Return analysis, b') /\
    (-1 <= Part002.sentiment analysis /\ Part002.sentiment analysis <= 1)%Q /\
    (0 <= Part002.technicalComplexity analysis /\ Part002.technicalComplexity analysis <= 1)%Q /\
    Part004.userProfiles b' = Part004.userProfiles b /\
    (Part004.logger b' = Part004.logger b /\
       Part002.sentiment analysis = Part004.calculateSentiment (Part002.content message) /\
       Part002.codeDetected analysis = Part004.detectCodeSnippet (Part002.content message)
     \/
     (exists e, Part004.logger b' = Part004.logger b ++ [LogError "Error in message analysis:" e]) /\
       Part002.sentiment analysis = 0%Q /\ Part002.codeDetected analysis = false /\
       Part002.topics analysis = []).
Proof.
  assert (-1 <= Part004.calculateSentiment (Part002.content message) /\
          Part004.calculateSentiment (Part002.content message) <= 1)%Q as Hs.
  { unfold Part004.calculateSentiment. apply clamp_unit_range. }
  destruct (complexity_range (Part002.content message)) as (_ & Hc0 & Hc1).
  unfold Part004.analyzeMessage, try_catch, bind, lift.
  destruct (Part004.openai_create env _) as [choices|e].
  - destruct (Part002.first_content_or "{}" choices) as [text|e]; cbn.
    + destruct (Part004.JSON_parse_analysis env text) as [raw|e]; cbn.
      * eexists _, _. split; [reflexivity|]. cbn. split; [exact Hs|]. split; [by split|].
        split; [done|]. left. done.
      * eexists _, _. split; [reflexivity|]. cbn. split; [lra|]. split; [lra|].
        split; [done|]. right. split; [by exists e|done].
    + eexists _, _. split; [reflexivity|]. cbn. split; [lra|]. split; [lra|].
      split; [done|]. right. split; [by exists e|done].
  - cbn. eexists _, _. split; [reflexivity|]. cbn. split; [lra|]. split; [lra|].
    split; [done|]. right. split; [by exists e|done].
Qed.

(** ** part_004: the profile cache *)

(** X25.  [getUserProfile] touches one user only: the cached profile of
    every other user stays as it is, at most one write goes to the store,
    under the key of this user and with the configured expiry, and a call
    for a user whose profile is cached changes nothing at all. *)
Theorem getUserProfile_touches_one_user (cfg : Part004.Config) (env : Part004.Env)
    (u : string) (b : Part004.Bot) :
  let b' := (Part004.getUserProfile cfg env u b).2 in
  (forall v, v <> u -> Part004.userProfiles b' !! v = Part004.userProfiles b !! v) /\
  (Part004.redis_sent b' = Part004.redis_sent b \/
   exists value, Part004.redis_sent b' = Part004.redis_sent b ++
     [{| Part004.set_key := "user:" +:+ u; Part004.set_value := value;
         Part004.set_EX := Part004.USER_PROFILE_EXPIRY cfg |}]) /\
  (is_Some (Part004.userProfiles b !! u) -> b' = b).
Proof.
  intros b'. subst b'.
  unfold Part004.getUserProfile, try_catch, bind, get, lift.
  destruct (Part004.userProfiles b !! u) as [cached|] eqn:Hc.
  - cbn. split; [done|]. split; [by left|]. intros _. reflexivity.
  - destruct (Part004.redis_get env _) as [[[|c rest]|]|e]; cbn.
    + split; [intros v Hv; by rewrite lookup_insert_ne|]. split; [right; eauto|].
      intros [? ?]; discriminate.
    + destruct (Part004.JSON_parse env _) as [profile|e]; cbn.
      * split; [intros v Hv; by rewrite lookup_insert_ne|]. split; [by left|].
        intros [? ?]; discriminate.
      * split; [intros v Hv; by rewrite lookup_insert_ne|]. split; [right; eauto|].
        intros [? ?]; discriminate.
    + split; [intros v Hv; by rewrite lookup_insert_ne|]. split; [right; eauto|].
      intros [? ?]; discriminate.
    + split; [intros v Hv; by rewrite lookup_insert_ne|]. split; [right; eauto|].
      intros [? ?]; discriminate.
Qed.

(** ** roastbot2.ts: replies and the stored history *)

Lemma getHistory_returns env u b :
  exists h b', RoastBot2.getHistory env u b = (Return h, b') /\
    RoastBot2.lists b' = RoastBot2.lists b /\
    (RoastBot2.faults b = [] -> RoastBot2.faults b' = []).
Proof.
  unfold RoastBot2.getHistory, try_catch, bind, lift, RoastBot2.redis_command.
  destruct (RoastBot2.faults b) as [|[|] rest] eqn:Hf; cbn.
  - destruct (RoastBot2.parse_all env _); cbn; eexists _, _; repeat split; done.
  - eexists _, _. repeat split. discriminate.
  - destruct (RoastBot2.parse_all env _); cbn; eexists _, _; repeat split; discriminate.
Qed.

Lemma generateResponse_returns2 env msg u b :
  exists r b', RoastBot2.generateResponse env msg u b = (Return r, b') /\
    RoastBot2.lists b' = RoastBot2.lists b /\
    (RoastBot2.faults b = [] -> RoastBot2.faults b' = []) /\
    (forall e, (forall request, RoastBot2.openai_create env request = Throw e) ->
               r = RoastBot2.apology).
Proof.
  unfold RoastBot2.generateResponse, try_catch at 1, bind at 1 2, lift.
  destruct (getHistory_returns env u b) as (h & b1 & -> & Hl & Hf).
  destruct (RoastBot2.openai_create env _) as [choices|e] eqn:Hcall.
  - destruct (Part002.first_content_or _ choices) as [text|e]; cbn.
    + eexists _, _. split; [reflexivity|]. split; [done|]. split; [done|].
      intros e He. rewrite He in Hcall. discriminate.
    + eexists _, _. split; [reflexivity|]. cbn. split; [done|]. split; [done|]. done.
  - cbn. eexists _, _. split; [reflexivity|]. cbn. split; [done|]. split; [done|]. done.
Qed.

Lemma updateHistory_returns env u chat b :
  exists b', RoastBot2.updateHistory env u chat b = (Return tt, b') /\
    (RoastBot2.faults b = [] ->
     RoastBot2.faults b' = [] /\
     RoastBot2.lists b' =
       <["history:" +:+ u :=
           take 10 (RoastBot2.JSON_stringify env chat (RoastBot2.new_Date env)
                    :: default [] (RoastBot2.lists b !! ("history:" +:+ u)))]>
         (RoastBot2.lists b)).
Proof.
  unfold RoastBot2.updateHistory, try_catch, bind, RoastBot2.redis_command.
  destruct (RoastBot2.faults b) as [|[|] [|[|] rest]] eqn:Hf; cbn;
    unfold RoastBot2.LTRIM_from_0; rewrite ?lookup_insert_eq; cbn;
    eexists; (split; [reflexivity|]); try discriminate.
  intros _. split; [done|]. by rewrite insert_insert_eq.
Qed.

Lemma roastbot2_parse_throws message e :
  RoastBot2.MessageSchema_parse message = Throw e -> e = ZodError.
Proof.
  unfold RoastBot2.MessageSchema_parse.
  destruct message as [| | | | |?|fs]; try (by intros [= <-]).
  destruct (z_string_min_max 1 1000 (field "content" fs)),
    (z_string (field "userId" fs)), (z_string (field "userName" fs));
    try discriminate; by intros [= <-].
Qed.

Lemma roastbot2_valid_path env message m b :
  RoastBot2.MessageSchema_parse message = Return m ->
  exists reply b1 b',
    RoastBot2.generateResponse env (RoastBot2.content m) (RoastBot2.userId m) (RoastBot2.received b)
      = (Return reply, b1) /\
    RoastBot2.updateHistory env (RoastBot2.userId m)
      {| RoastBot2.input := RoastBot2.content m; RoastBot2.response := reply |} b1
      = (Return tt, b') /\
    RoastBot2.handleMessage env message b = (Return reply, b').
Proof.
  intros Hparse.
  destruct (generateResponse_returns2 env (RoastBot2.content m) (RoastBot2.userId m) (RoastBot2.received b))
    as (reply & b1 & Hg & _).
  destruct (updateHistory_returns env (RoastBot2.userId m)
              {| RoastBot2.input := RoastBot2.content m; RoastBot2.response := reply |} b1)
    as (b' & Hu & _).
  exists reply, b1, b'. split; [exact Hg|]. split; [exact Hu|].
  unfold RoastBot2.handleMessage, try_catch at 1, bind at 1 2 3 4, lift at 1.
  rewrite Hparse. unfold RoastBot2.logger_info, modify. fold (RoastBot2.received b).
  rewrite Hg, Hu. reflexivity.
Qed.

Lemma history_key_inj u v : u <> v -> "history:" +:+ v <> "history:" +:+ u.
Proof. intros Hne H. apply Hne. symmetry. by apply (inj (String.app "history:")) in H. Qed.

(** X26.  With a working store, a valid message is answered and recorded:
    the user's history becomes the new exchange followed by the old entries,
    cut to the ten newest, and the history of every other user is
    unchanged. *)
Theorem history_keeps_ten_newest (env : RoastBot2.Env) (message : JSValue)
    (m : RoastBot2.Message) (b : RoastBot2.Bot) :
  RoastBot2.MessageSchema_parse message = Return m ->
  RoastBot2.faults b = [] ->
  exists reply b',
    RoastBot2.handleMessage env message b = (Return reply, b') /\
    RoastBot2.faults b' = [] /\
    RoastBot2.history_of (RoastBot2.userId m) b' =
      take 10 (RoastBot2.JSON_stringify env
                 {| RoastBot2.input := RoastBot2.content m; RoastBot2.response := reply |}
                 (RoastBot2.new_Date env)
               :: RoastBot2.history_of (RoastBot2.userId m) b) /\
    (forall v, v <> RoastBot2.userId m ->
       RoastBot2.history_of v b' = RoastBot2.history_of v b).
Proof.
  intros Hparse Hf.
  destruct (roastbot2_valid_path env message m b Hparse) as (reply & b1 & b' & Hg & Hu & Hh).
  destruct (generateResponse_returns2 env (RoastBot2.content m) (RoastBot2.userId m) (RoastBot2.received b))
    as (reply' & b1' & Hg' & Hl1 & Hf1 & _).
  rewrite Hg in Hg'. injection Hg' as <- <-.
  destruct (updateHistory_returns env (RoastBot2.userId m)
              {| RoastBot2.input := RoastBot2.content m; RoastBot2.response := reply |} b1)
    as (b'' & Hu' & Hok).
  rewrite Hu in Hu'. injection Hu' as <-.
  destruct (Hok (Hf1 Hf)) as [Hf' Hl'].
  exists reply, b'. split; [exact Hh|]. split; [exact Hf'|].
  unfold RoastBot2.history_of. rewrite Hl', Hl1. cbn. split.
  - by rewrite lookup_insert_eq.
  - intros v Hv. rewrite lookup_insert_ne; [done|]. by apply history_key_inj.
Qed.

Lemma history_keeps_ten_newest_witness :
  exists reply b',
    RoastBot2.handleMessage Scenarios.assistant_down
      (message_of "Test message" "123" "TestUser") Scenarios.new_assistant
      = (Return reply, b') /\
    RoastBot2.faults b' = [] /\
    RoastBot2.history_of (RoastBot2.userId Scenarios.assistant_message) b' =
      take 10 (RoastBot2.JSON_stringify Scenarios.assistant_down
                 {| RoastBot2.input := RoastBot2.content Scenarios.assistant_message;
                    RoastBot2.response := reply |}
                 (RoastBot2.new_Date Scenarios.assistant_down)
               :: RoastBot2.history_of (RoastBot2.userId Scenarios.assistant_message)
                    Scenarios.new_assistant) /\
    (forall v, v <> RoastBot2.userId Scenarios.assistant_message ->
       RoastBot2.history_of v b' = RoastBot2.history_of v Scenarios.new_assistant).
Proof.
  apply (history_keeps_ten_newest Scenarios.assistant_down
           (message_of "Test message" "123" "TestUser") Scenarios.assistant_message
           Scenarios.new_assistant).
  - reflexivity.
  - reflexivity.
Defined.

(** X27.  [handleMessage] of roastbot2.ts always returns a text: for a
    message the schema rejects it is "Invalid message format", with one
    error logged and the store untouched; for a valid one it is what
    [generateResponse] returned, also when recording the exchange fails. *)
Theorem roastbot2_handleMessage_replies (env : RoastBot2.Env) (message : JSValue)
    (b : RoastBot2.Bot) :
  exists reply b',
    RoastBot2.handleMessage env message b = (Return reply, b') /\
    match RoastBot2.MessageSchema_parse message with
    | Throw _ =>
        reply = "Invalid message format" /\
        RoastBot2.lists b' = RoastBot2.lists b /\ RoastBot2.faults b' = RoastBot2.faults b /\
        RoastBot2.logger b' = RoastBot2.logger b ++ [LogError "Error processing message" ZodError]
    | Return m =>
        exists b1, RoastBot2.generateResponse env (RoastBot2.content m) (RoastBot2.userId m)
                     (RoastBot2.received b) = (Return reply, b1)
    end.
Proof.
  destruct (RoastBot2.MessageSchema_parse message) as [m|e] eqn:Hparse.
  - destruct (roastbot2_valid_path env message m b Hparse) as (reply & b1 & b' & Hg & _ & Hh).
    exists reply, b'. split; [exact Hh|]. by exists b1.
  - apply roastbot2_parse_throws in Hparse as He. subst e.
    unfold RoastBot2.handleMessage, try_catch, bind, lift. rewrite Hparse. cbn.
    eexists _, _. split; [reflexivity|]. cbn. done.
Qed.

(** X28.  When the backend fails on a valid message, roastbot2.ts answers
    with its apology, and with a working store the apology is recorded as
    the newest entry of the user's history. *)
Theorem roastbot2_backend_failure_is_recorded (env : RoastBot2.Env) (message : JSValue)
    (m : RoastBot2.Message) (b : RoastBot2.Bot) (e : Error) :
  RoastBot2.MessageSchema_parse message = Return m ->
  (forall request, RoastBot2.openai_create env request = Throw e) ->
  exists b',
    RoastBot2.handleMessage env message b = (Return RoastBot2.apology, b') /\
    (RoastBot2.faults b = [] ->
     head (RoastBot2.history_of (RoastBot2.userId m) b') =
       Some (RoastBot2.JSON_stringify env
               {| RoastBot2.input := RoastBot2.content m;
                  RoastBot2.response := RoastBot2.apology |}
               (RoastBot2.new_Date env))).
Proof.
  intros Hparse Hfail.
  destruct (roastbot2_valid_path env message m b Hparse) as (reply & b1 & b' & Hg & Hu & Hh).
  destruct (generateResponse_returns2 env (RoastBot2.content m) (RoastBot2.userId m) (RoastBot2.received b))
    as (reply' & b1' & Hg' & Hl1 & Hf1 & Hdown).
  rewrite Hg in Hg'. injection Hg' as <- <-.
  rewrite (Hdown e Hfail) in *.
  exists b'. split; [exact Hh|]. intros Hf.
  destruct (updateHistory_returns env (RoastBot2.userId m)
              {| RoastBot2.input := RoastBot2.content m;
                 RoastBot2.response := RoastBot2.apology |} b1)
    as (b'' & Hu' & Hok).
  rewrite Hu in Hu'. injection Hu' as <-.
  destruct (Hok (Hf1 Hf)) as [_ Hl'].
  unfold RoastBot2.history_of. rewrite Hl', lookup_insert_eq. reflexivity.
Qed.

Lemma roastbot2_backend_failure_is_recorded_witness :
  exists b',
    RoastBot2.handleMessage Scenarios.assistant_down
      (message_of "Test message" "123" "TestUser") Scenarios.new_assistant
      = (Return RoastBot2.apology, b') /\
    (RoastBot2.faults Scenarios.new_assistant = [] ->
     head (RoastBot2.history_of (RoastBot2.userId Scenarios.assistant_message) b') =
       Some (RoastBot2.JSON_stringify Scenarios.assistant_down
               {| RoastBot2.input := RoastBot2.content Scenarios.assistant_message;
                  RoastBot2.response := RoastBot2.apology |}
               (RoastBot2.new_Date Scenarios.assistant_down))).
Proof.
  apply (roastbot2_backend_failure_is_recorded Scenarios.assistant_down
           (message_of "Test message" "123" "TestUser") Scenarios.assistant_message
           Scenarios.new_assistant (ExternalError "openai")).
  - reflexivity.
  - intros request. reflexivity.
Defined.
